(** * Reviewer workload aggregation and badge classification

    A shallow embedding of [src/tools/ReviewerStatsTool.ts] (the MCP/CLI
    tool) and of the operational script [reviewer-stats-discord.ps1], with
    the properties of the engine's specification stated and proved against
    the embedded code.

    Modelling conventions.
    - Counts and votes are JavaScript numbers that only ever hold integers;
      they are values of [Z].
    - Ratios and thresholds ([approvedCount / requiredCount],
      [avgRequired * 1.5], ...) are values of [Q] computed exactly; the
      decimal literals of the source are the rationals they denote.
    - Optional fields of the service records ([x?.f], [x || d]) are
      [option] values; [||] is JavaScript's falsy-coalescing.
    - A JavaScript [Map] keeps its keys in insertion order, and the tool
      relies on it ([Array.from(statsMap.values())]): it is an association
      list with unique keys whose [set] updates in place or appends.
    - Strings are [string]; letter case and white space are the ASCII
      ones, which is what JavaScript does on strings of ASCII characters.
      A statement whose truth depends on the case or on the white space of
      characters outside ASCII assumes [isAscii] of the strings it reads.
    - [String(n)] and [parseInt] are exact on the integers JavaScript
      holds exactly and prints with all their digits, the safe integers
      (up to [MAX_SAFE_INTEGER]); a statement that prints or parses a
      number given from outside assumes it is one. *)

From Stdlib Require Import ZArith QArith Qminmax Qround Lqa Lia.
From Stdlib Require Import List String Ascii Bool DecimalString DecimalPos.
From Stdlib Require Import Permutation Sorted.
Import ListNotations.

Local Open Scope string_scope.
Local Open Scope Z_scope.

(* ================================================================== *)
(** ** JavaScript primitives used by the tool *)

Module Js.

(** [x || d] on an optional string: [undefined] and the empty string are
    falsy. *)
Definition or_string (x : option string) (d : string) : string :=
  match x with
  | Some s => if String.eqb s "" then d else s
  | None => d
  end.

(** [x || d] on an optional number: [undefined] and [0] are falsy. *)
Definition or_number (x : option Z) (d : Z) : Z :=
  match x with
  | Some n => if n =? 0 then d else n
  | None => d
  end.

(** Truthiness of an optional boolean ([undefined] is falsy). *)
Definition truthy (x : option bool) : bool :=
  match x with
  | Some b => b
  | None => false
  end.

(** [a || b] on two numbers. *)
Definition or_else (a b : Z) : Z := if a =? 0 then b else a.

Definition lower_char (c : ascii) : ascii :=
  let n := nat_of_ascii c in
  if (65 <=? n)%nat && (n <=? 90)%nat then ascii_of_nat (n + 32) else c.

(** [String.prototype.toLowerCase]. *)
Fixpoint toLowerCase (s : string) : string :=
  match s with
  | EmptyString => EmptyString
  | String c s' => String (lower_char c) (toLowerCase s')
  end.

(** [String(n)] for an integer. *)
Definition String_of (n : Z) : string :=
  NilZero.string_of_int (Z.to_int n).

(** [s.repeat(n)]. *)
Fixpoint repeat (s : string) (n : nat) : string :=
  match n with
  | O => ""
  | S n' => s ++ repeat s n'
  end.

(** [s.padEnd(w)] and [s.padStart(w)] with the default space filler. *)
Definition padEnd (s : string) (w : Z) : string :=
  s ++ repeat " " (Z.to_nat (w - Z.of_nat (String.length s))).

Definition padStart (s : string) (w : Z) : string :=
  repeat " " (Z.to_nat (w - Z.of_nat (String.length s))) ++ s.

(** [xs.join(sep)]. *)
Fixpoint join (sep : string) (xs : list string) : string :=
  match xs with
  | [] => ""
  | [x] => x
  | x :: rest => x ++ sep ++ join sep rest
  end.

(** [Math.max(a, ...xs)]. *)
Definition max_of (a : Z) (xs : list Z) : Z := fold_left Z.max xs a.

(** [xs.sort(cmp)]: the sort of an array is stable, and with a consistent
    comparator its result is determined; it is computed here by a stable
    insertion sort. [cmp a b <= 0] keeps [a] before [b]. *)
Section Sort.
Context {A : Type} (cmp : A -> A -> Z).

Fixpoint insert (x : A) (l : list A) : list A :=
    match l with
    | [] => [x]
    | y :: l' => if cmp x y <=? 0 then x :: l else y :: insert x l'
    end.

Definition sort (l : list A) : list A := fold_right insert [] l.
End Sort.

(** A [Map] with string keys, in insertion order. *)
Section Map.
Context {V : Type}.
Definition Map := list (string * V).

Fixpoint get (m : Map) (k : string) : option V :=
    match m with
    | [] => None
    | (k', v) :: m' => if String.eqb k' k then Some v else get m' k
    end.

Definition has (m : Map) (k : string) : bool :=
    match get m k with Some _ => true | None => false end.

Fixpoint set (m : Map) (k : string) (v : V) : Map :=
    match m with
    | [] => [(k, v)]
    | (k', v') :: m' =>
        if String.eqb k' k then (k', v) :: m' else (k', v') :: set m' k v
    end.

Definition values (m : Map) : list V := map snd m.
Definition keys (m : Map) : list string := map fst m.
End Map.
Arguments Map V : clear implicits.

End Js.

(* ================================================================== *)
(** ** Records of the review service ([GitInterfaces]) *)

Module GitInterfaces.

Record IdentityRefWithVote := {
  uniqueName : option string;
  displayName : option string;
  isRequired : option bool;
  vote : option Z
}.

Record GitPullRequest := {
  pullRequestId : option Z;
  title : option string;
  isDraft : option bool;
  reviewers : option (list IdentityRefWithVote)
}.

End GitInterfaces.

(** [VoteLabels] of [types.ts]; [None] where the table has no entry. *)
Definition VoteLabels (v : Z) : option string :=
if v =? 10 then Some "Approved"
else if v =? 5 then Some "Approved with suggestions"
else if v =? 0 then Some "No vote"
else if v =? -5 then Some "Waiting for author"
else if v =? -10 then Some "Rejected"
else None.

(* ================================================================== *)
(** ** The tool: [src/tools/ReviewerStatsTool.ts] *)

Module Tool.

(** An element of [ReviewerStat.prs]. *)
Record PrEntry := {
  pr_id : Z;
  pr_title : string;
  pr_isRequired : bool;
  pr_vote : string
}.

Record ReviewerStat := {
  displayName : string;
  email : string;
  requiredCount : Z;
  optionalCount : Z;
  totalCount : Z;
  approvedCount : Z;
  pendingCount : Z;
  waitingForAuthorCount : Z;
  rejectedCount : Z;
  prs : list PrEntry
}.

Record ReviewerBadge := {
  reviewer : ReviewerStat;
  emoji : string;
  title : string;
  description : string
}.

Record ReviewerStatsResult := {
  reviewers : list ReviewerStat;
  totalPRs : Z;
  markdown : string
}.

Record OperationResult := {
  success : bool;
  message : string;
  data : option ReviewerStatsResult
}.

(** Field updates of a [ReviewerStat] object ([stat.f++], [stat.prs.push]). *)
Definition incr_totalCount (s : ReviewerStat) : ReviewerStat :=
  {| displayName := displayName s; email := email s;
     requiredCount := requiredCount s; optionalCount := optionalCount s;
     totalCount := totalCount s + 1; approvedCount := approvedCount s;
     pendingCount := pendingCount s;
     waitingForAuthorCount := waitingForAuthorCount s;
     rejectedCount := rejectedCount s; prs := prs s |}.

Definition incr_requiredCount (s : ReviewerStat) : ReviewerStat :=
  {| displayName := displayName s; email := email s;
     requiredCount := requiredCount s + 1; optionalCount := optionalCount s;
     totalCount := totalCount s; approvedCount := approvedCount s;
     pendingCount := pendingCount s;
     waitingForAuthorCount := waitingForAuthorCount s;
     rejectedCount := rejectedCount s; prs := prs s |}.

Definition incr_approvedCount (s : ReviewerStat) : ReviewerStat :=
  {| displayName := displayName s; email := email s;
     requiredCount := requiredCount s; optionalCount := optionalCount s;
     totalCount := totalCount s; approvedCount := approvedCount s + 1;
     pendingCount := pendingCount s;
     waitingForAuthorCount := waitingForAuthorCount s;
     rejectedCount := rejectedCount s; prs := prs s |}.

Definition incr_pendingCount (s : ReviewerStat) : ReviewerStat :=
  {| displayName := displayName s; email := email s;
     requiredCount := requiredCount s; optionalCount := optionalCount s;
     totalCount := totalCount s; approvedCount := approvedCount s;
     pendingCount := pendingCount s + 1;
     waitingForAuthorCount := waitingForAuthorCount s;
     rejectedCount := rejectedCount s; prs := prs s |}.

Definition incr_waitingForAuthorCount (s : ReviewerStat) : ReviewerStat :=
  {| displayName := displayName s; email := email s;
     requiredCount := requiredCount s; optionalCount := optionalCount s;
     totalCount := totalCount s; approvedCount := approvedCount s;
     pendingCount := pendingCount s;
     waitingForAuthorCount := waitingForAuthorCount s + 1;
     rejectedCount := rejectedCount s; prs := prs s |}.

Definition incr_rejectedCount (s : ReviewerStat) : ReviewerStat :=
  {| displayName := displayName s; email := email s;
     requiredCount := requiredCount s; optionalCount := optionalCount s;
     totalCount := totalCount s; approvedCount := approvedCount s;
     pendingCount := pendingCount s;
     waitingForAuthorCount := waitingForAuthorCount s;
     rejectedCount := rejectedCount s + 1; prs := prs s |}.

Definition push_pr (s : ReviewerStat) (e : PrEntry) : ReviewerStat :=
  {| displayName := displayName s; email := email s;
     requiredCount := requiredCount s; optionalCount := optionalCount s;
     totalCount := totalCount s; approvedCount := approvedCount s;
     pendingCount := pendingCount s;
     waitingForAuthorCount := waitingForAuthorCount s;
     rejectedCount := rejectedCount s; prs := prs s ++ [e] |}.

(** The vote chain of the aggregation loop (lines 304-313). *)
Definition countVote (stat : ReviewerStat) (vote : Z) : ReviewerStat :=
  if vote >=? 10 then incr_approvedCount stat
  else if vote =? -5 then incr_waitingForAuthorCount stat
  else if vote <=? -10 then incr_rejectedCount stat
  else incr_pendingCount stat.

(** The object stored for an email seen for the first time. *)
Definition newStat (reviewer : GitInterfaces.IdentityRefWithVote)
  : ReviewerStat :=
  {| displayName := Js.or_string (GitInterfaces.displayName reviewer) "Unknown";
     email := Js.or_string (GitInterfaces.uniqueName reviewer) "";
     requiredCount := 0; optionalCount := 0; totalCount := 0;
     approvedCount := 0; pendingCount := 0; waitingForAuthorCount := 0;
     rejectedCount := 0; prs := [] |}.

(** [reviewer.uniqueName?.toLowerCase() || ""]. *)
Definition emailKey (reviewer : GitInterfaces.IdentityRefWithVote) : string :=
  Js.or_string (option_map Js.toLowerCase (GitInterfaces.uniqueName reviewer)) "".

(** Body of the inner loop, for one reviewer of one pull request. The
    object fetched with [statsMap.get(email)] is the one held by the map,
    so each update of it is an update of the map's entry. *)
Definition visitReviewer (pr : GitInterfaces.GitPullRequest)
  (statsMap : Js.Map ReviewerStat)
  (reviewer : GitInterfaces.IdentityRefWithVote) : Js.Map ReviewerStat :=
  if negb (Js.truthy (GitInterfaces.isRequired reviewer)) then statsMap
  else
    let email := emailKey reviewer in
    if String.eqb email "" then statsMap
    else
      let statsMap :=
        if negb (Js.has statsMap email)
        then Js.set statsMap email (newStat reviewer)
        else statsMap in
      match Js.get statsMap email with
      | None => statsMap
      | Some stat =>
          let stat := incr_totalCount stat in
          let stat := incr_requiredCount stat in
          let vote := Js.or_number (GitInterfaces.vote reviewer) 0 in
          let stat := countVote stat vote in
          let stat :=
            push_pr stat
              {| pr_id := Js.or_number (GitInterfaces.pullRequestId pr) 0;
                 pr_title := Js.or_string (GitInterfaces.title pr) "";
                 pr_isRequired := true;
                 pr_vote :=
                   match VoteLabels vote with
                   | Some l => if String.eqb l "" then "No vote" else l
                   | None => "No vote"
                   end |} in
          Js.set statsMap email stat
      end.

(** [pr.reviewers || []]. *)
Definition reviewersOf (pr : GitInterfaces.GitPullRequest)
  : list GitInterfaces.IdentityRefWithVote :=
  match GitInterfaces.reviewers pr with Some l => l | None => [] end.

Definition visitPR (statsMap : Js.Map ReviewerStat)
  (pr : GitInterfaces.GitPullRequest) : Js.Map ReviewerStat :=
  fold_left (visitReviewer pr) (reviewersOf pr) statsMap.

(** [allPRs.filter(pr => !pr.isDraft)]. *)
Definition nonDraft (allPRs : list GitInterfaces.GitPullRequest)
  : list GitInterfaces.GitPullRequest :=
  filter (fun pr => negb (Js.truthy (GitInterfaces.isDraft pr))) allPRs.

(** The aggregation loop of [reviewerStats] over already fetched pull
    requests: the [statsMap] it leaves behind. *)
Definition aggregate (allPRs : list GitInterfaces.GitPullRequest)
  : Js.Map ReviewerStat :=
  fold_left visitPR (nonDraft allPRs) [].

(** The comparator given to [sort]. *)
Definition compareStats (a b : ReviewerStat) : Z :=
  Js.or_else (requiredCount b - requiredCount a) (totalCount b - totalCount a).

Definition sortedStats (allPRs : list GitInterfaces.GitPullRequest)
  : list ReviewerStat :=
  Js.sort compareStats (Js.values (aggregate allPRs)).

(** [stats.reduce((sum, r) => sum + r.requiredCount, 0) / stats.length || 0].
    On the empty array the quotient is [0 / 0], which is [NaN] and falsy,
    so that the result is [0]; [Q] has [0 / 0 == 0], which [|| 0] leaves
    at [0] as well. *)
Definition avgRequired (stats : list ReviewerStat) : Q :=
  let total := fold_left (fun sum r => sum + requiredCount r) stats 0 in
  let q := (inject_Z total / inject_Z (Z.of_nat (List.length stats)))%Q in
  if Qeq_bool q 0 then 0%Q else q.

Definition mkBadge (r : ReviewerStat) (e t d : string) : ReviewerBadge :=
  {| reviewer := r; emoji := e; title := t; description := d |}.

(** Body of the loop of [assignBadges]; [badges.push(b)] appends. *)
Definition badgeStep (avgRequired : Q) (badges : list ReviewerBadge)
  (r : ReviewerStat) : list ReviewerBadge :=
  if requiredCount r =? 0 then badges
  else
    let completionRate :=
      (inject_Z (approvedCount r) / inject_Z (requiredCount r))%Q in
    let unreviewedRate :=
      (inject_Z (pendingCount r) / inject_Z (requiredCount r))%Q in
    let isHighVolume :=
      Qle_bool (avgRequired * 1.5)%Q (inject_Z (requiredCount r)) in
    let isLowVolume :=
      Qle_bool (inject_Z (requiredCount r)) (Qmax 1 (avgRequired * 0.5))%Q in
    let isMedVolume := negb isHighVolume && negb isLowVolume in
    if isHighVolume && Qle_bool 0.8%Q completionRate then
      badges ++ [mkBadge r "🦸" "Super Reviewer"
        (displayName r ++ " is crushing it with "
         ++ Js.String_of (approvedCount r) ++ "/"
         ++ Js.String_of (requiredCount r) ++ " reviews complete!")]
    else if isHighVolume && Qle_bool 0.5%Q unreviewedRate then
      badges ++ [mkBadge r "🆘" "Needs Backup"
        (displayName r ++ " has " ++ Js.String_of (pendingCount r)
         ++ " unreviewed PRs - someone throw them a lifeline!")]
    else if (isLowVolume || isMedVolume) && Qle_bool 0.7%Q unreviewedRate
            && (pendingCount r >=? 2) then
      badges ++ [mkBadge r "😴" "Needs Coffee"
        (displayName r ++ " has " ++ Js.String_of (pendingCount r)
         ++ " PRs waiting... wakey wakey!")]
    else if isLowVolume && (requiredCount r <=? 1) then
      badges ++ [mkBadge r "🪑" "Benchwarmer"
        (displayName r ++ " is barely in the game with only "
         ++ Js.String_of (requiredCount r) ++ " PR"
         ++ (if requiredCount r =? 1 then "" else "s")
         ++ ". Put them in, coach!")]
    else if (requiredCount r >=? 2) && Qeq_bool completionRate 1 then
      badges ++ [mkBadge r "✨" "Flawless"
        (displayName r ++ " has reviewed every single PR assigned. Respect.")]
    else if rejectedCount r >=? 1 then
      badges ++ [mkBadge r "🚫" "Gatekeeper"
        (displayName r ++ " isn't afraid to say no - "
         ++ Js.String_of (rejectedCount r) ++ " rejection"
         ++ (if rejectedCount r =? 1 then "" else "s") ++ " and counting.")]
    else if waitingForAuthorCount r >=? 2 then
      badges ++ [mkBadge r "⏳" "Waiting Room"
        (displayName r ++ " is stuck waiting on authors for "
         ++ Js.String_of (waitingForAuthorCount r)
         ++ " PRs. Ball's in your court, devs!")]
    else if isMedVolume && Qle_bool 0.7%Q completionRate then
      badges ++ [mkBadge r "⚡" "Speed Demon"
        (displayName r ++ " is keeping the pipeline moving with "
         ++ Js.String_of (approvedCount r) ++ "/"
         ++ Js.String_of (requiredCount r) ++ " done.")]
    else badges.

Definition assignBadges (stats : list ReviewerStat) : list ReviewerBadge :=
  fold_left (badgeStep (avgRequired stats)) stats [].

(** [pickRandomBadge]; [random] is the value returned by [Math.random()],
    a number of the interval [0, 1). An index outside the array reads
    [undefined], which the caller takes for "no badge". *)
Definition pickRandomBadge (random : Q) (badges : list ReviewerBadge)
  : option ReviewerBadge :=
  if (List.length badges =? 0)%nat then None
  else
    let i := Qfloor (random * inject_Z (Z.of_nat (List.length badges))) in
    if i <? 0 then None else nth_error badges (Z.to_nat i).

(** [headers.map((h, i) => h.padEnd(widths[i]))]. *)
Definition padHeaders (headers : list string) (widths : list Z)
  : list string :=
  map (fun hw => Js.padEnd (fst hw) (snd hw)) (combine headers widths).

(** The first line pushed: the title, which ends in a line feed. *)
Definition titleLine (totalPRs : Z) : string :=
  "Reviewer Statistics (" ++ Js.String_of totalPRs ++ " Active PRs)"
  ++ String "010" "".

(** Body of the loop over [filteredStats] in the required-only view: the
    line pushed for the reviewer [r]. *)
Definition requiredRow (nameWidth : Z) (r : ReviewerStat) : string :=
  Js.join "  "
    [Js.padEnd (displayName r) nameWidth;
     Js.padStart (Js.String_of (requiredCount r)) 8;
     Js.padStart (Js.String_of (approvedCount r)) 8;
     Js.padStart (Js.String_of (waitingForAuthorCount r)) 18;
     Js.padStart (Js.String_of (rejectedCount r)) 8;
     Js.padStart (Js.String_of (pendingCount r)) 10].

(** The same in the full view. *)
Definition fullRow (nameWidth : Z) (r : ReviewerStat) : string :=
  Js.join "  "
    [Js.padEnd (displayName r) nameWidth;
     Js.padStart (Js.String_of (requiredCount r)) 8;
     Js.padStart (Js.String_of (optionalCount r)) 8;
     Js.padStart (Js.String_of (totalCount r)) 5;
     Js.padStart (Js.String_of (approvedCount r)) 8;
     Js.padStart (Js.String_of (waitingForAuthorCount r)) 18;
     Js.padStart (Js.String_of (rejectedCount r)) 8;
     Js.padStart (Js.String_of (pendingCount r)) 10].

(** [generateMarkdownTable], as the list [lines] it joins. *)
Definition tableLines (random : Q) (stats : list ReviewerStat) (totalPRs : Z)
  (requiredOnly : bool) : list string :=
  let lines : list string := [titleLine totalPRs] in
  let filteredStats :=
    if requiredOnly then filter (fun r => requiredCount r >? 0) stats
    else stats in
  if (List.length filteredStats =? 0)%nat then
    (lines ++ ["No reviewers found."])%list
  else
    let nameWidth :=
      Js.max_of 8
        (map (fun r => Z.of_nat (String.length (displayName r)))
           filteredStats) in
    let lines : list string :=
      if requiredOnly then
        let headers :=
          ["Reviewer"; "Required"; "Approved"; "Waiting for Author";
           "Rejected"; "Unreviewed"] in
        let widths := [nameWidth; 8; 8; 18; 8; 10] in
        (lines
         ++ [Js.join "  " (padHeaders headers widths)]
         ++ [Js.join "  " (map (fun w => Js.repeat "-" (Z.to_nat w)) widths)]
         ++ map (requiredRow nameWidth) filteredStats)%list
      else
        let headers :=
          ["Reviewer"; "Required"; "Optional"; "Total"; "Approved";
           "Waiting for Author"; "Rejected"; "Unreviewed"] in
        let widths := [nameWidth; 8; 8; 5; 8; 18; 8; 10] in
        (lines
         ++ [Js.join "  " (padHeaders headers widths)]
         ++ [Js.join "  " (map (fun w => Js.repeat "-" (Z.to_nat w)) widths)]
         ++ map (fullRow nameWidth) filteredStats)%list in
    let badges := assignBadges filteredStats in
    match pickRandomBadge random badges with
    | Some badge =>
        (lines ++ [""]
         ++ [(emoji badge ++ " " ++ title badge ++ ": "
              ++ description badge)%string])%list
    | None => lines
    end.

Definition generateMarkdownTable (random : Q) (stats : list ReviewerStat)
  (totalPRs : Z) (requiredOnly : bool) : string :=
  Js.join (String "010" "") (tableLines random stats totalPRs requiredOnly).

(** [reviewerStats] from the point where the pull requests have been
    fetched ([allPRs]); [requiredOnly] is [params.requiredOnly]. The
    [catch] branch belongs to the fetching and is not reached from here. *)
Definition reviewerStats (random : Q)
  (allPRs : list GitInterfaces.GitPullRequest) (requiredOnly : option bool)
  : OperationResult :=
  let nonDraftPRs := nonDraft allPRs in
  let sorted := sortedStats allPRs in
  let n := Z.of_nat (List.length nonDraftPRs) in
  let markdown :=
    generateMarkdownTable random sorted n
      (match requiredOnly with Some false => false | _ => true end) in
  {| success := true;
     message :=
       "Generated stats for " ++ Js.String_of (Z.of_nat (List.length sorted))
       ++ " reviewers across " ++ Js.String_of n ++ " PRs ("
       ++ Js.String_of (Z.of_nat (List.length allPRs) - n)
       ++ " drafts excluded)";
     data := Some {| reviewers := sorted; totalPRs := n;
                     markdown := markdown |} |}.

End Tool.

(* ================================================================== *)
(** ** The operational script: [reviewer-stats-discord.ps1]

    PowerShell numbers follow the conventions above. A comparison with
    [$null] on the left ([$null -ge 5], [$null -eq -5], [$null -le -10]) is
    false, so a missing vote falls through to the last branch. *)

Module Script.

(** The hashtable stored per reviewer. *)
Record Stat := {
  Name : string;
  Email : string;
  Required : Z;
  Approved : Z;
  Blocked : Z;
  Unreviewed : Z
}.

(** An entry of [$badges]: two script blocks next to the texts. *)
Record Badge := {
  Emoji : string;
  Title : string;
  Condition : Stat -> Q -> bool;
  Message : Stat -> string
}.

(** [a -lt b] on numbers. *)
Definition Qlt_bool (a b : Q) : bool := negb (Qle_bool b a).

(** [$r.X / $r.Required]. *)
Definition ratio (x required : Z) : Q := (inject_Z x / inject_Z required)%Q.

Definition badges : list Badge :=
  [ {| Emoji := ":superhero:"; Title := "Super Reviewer";
       Condition := fun r avg =>
         Qle_bool (avg * 1.5)%Q (inject_Z (Required r))
         && (Required r >? 0)
         && Qle_bool 0.8%Q (ratio (Approved r) (Required r));
       Message := fun r =>
         Name r ++ " is crushing it with " ++ Js.String_of (Approved r)
         ++ "/" ++ Js.String_of (Required r) ++ " reviews complete!" |};
    {| Emoji := ":sos:"; Title := "Needs Backup";
       Condition := fun r avg =>
         Qle_bool (avg * 1.5)%Q (inject_Z (Required r))
         && (Required r >? 0)
         && Qle_bool 0.5%Q (ratio (Unreviewed r) (Required r));
       Message := fun r =>
         Name r ++ " has " ++ Js.String_of (Unreviewed r)
         ++ " unreviewed PRs - someone throw them a lifeline!" |};
    {| Emoji := ":sleeping:"; Title := "Needs Coffee";
       Condition := fun r avg =>
         Qle_bool (inject_Z (Required r)) (avg * 0.5)%Q
         && (Required r >? 0)
         && (Unreviewed r >=? 2)
         && Qle_bool 0.7%Q (ratio (Unreviewed r) (Required r));
       Message := fun r =>
         Name r ++ " has " ++ Js.String_of (Unreviewed r)
         ++ " PRs waiting... wakey wakey!" |};
    {| Emoji := ":chair:"; Title := "Benchwarmer";
       Condition := fun r avg => (Required r <=? 1) && (Required r >? 0);
       Message := fun r =>
         Name r ++ " is barely in the game with only "
         ++ Js.String_of (Required r) ++ " PR"
         ++ (if negb (Required r =? 1) then "s" else "")
         ++ ". Put them in, coach!" |};
    {| Emoji := ":sparkles:"; Title := "Flawless";
       Condition := fun r avg =>
         (Required r >=? 2) && (Approved r =? Required r);
       Message := fun r =>
         Name r ++ " has reviewed every single PR assigned. Respect." |};
    {| Emoji := ":no_entry_sign:"; Title := "Gatekeeper";
       Condition := fun r avg => Blocked r >=? 1;
       Message := fun r =>
         Name r ++ " isn't afraid to say no - " ++ Js.String_of (Blocked r)
         ++ " rejection" ++ (if negb (Blocked r =? 1) then "s" else "")
         ++ " and counting." |};
    {| Emoji := ":hourglass:"; Title := "Waiting Room";
       Condition := fun r avg => Blocked r >=? 2;
       Message := fun r =>
         Name r ++ " is stuck waiting on " ++ Js.String_of (Blocked r)
         ++ " PRs. Ball's in your court, devs!" |};
    {| Emoji := ":zap:"; Title := "Speed Demon";
       Condition := fun r avg =>
         Qlt_bool (avg * 0.5)%Q (inject_Z (Required r))
         && Qlt_bool (inject_Z (Required r)) (avg * 1.5)%Q
         && (Required r >? 0)
         && Qle_bool 0.7%Q (ratio (Approved r) (Required r));
       Message := fun r =>
         Name r ++ " is keeping the pipeline moving with "
         ++ Js.String_of (Approved r) ++ "/" ++ Js.String_of (Required r)
         ++ " done." |} ].

(** [($fullName -split ' ')[0]]. *)
Fixpoint firstToken (s : string) : string :=
  match s with
  | EmptyString => EmptyString
  | String c s' => if Ascii.eqb c " " then EmptyString
                   else String c (firstToken s')
  end.

Definition incr_Required (s : Stat) : Stat :=
  {| Name := Name s; Email := Email s; Required := Required s + 1;
     Approved := Approved s; Blocked := Blocked s;
     Unreviewed := Unreviewed s |}.

Definition incr_Approved (s : Stat) : Stat :=
  {| Name := Name s; Email := Email s; Required := Required s;
     Approved := Approved s + 1; Blocked := Blocked s;
     Unreviewed := Unreviewed s |}.

Definition incr_Blocked (s : Stat) : Stat :=
  {| Name := Name s; Email := Email s; Required := Required s;
     Approved := Approved s; Blocked := Blocked s + 1;
     Unreviewed := Unreviewed s |}.

Definition incr_Unreviewed (s : Stat) : Stat :=
  {| Name := Name s; Email := Email s; Required := Required s;
     Approved := Approved s; Blocked := Blocked s;
     Unreviewed := Unreviewed s + 1 |}.

(** The vote chain (lines 181-191). *)
Definition countVote (stat : Stat) (vote : option Z) : Stat :=
  match vote with
  | None => incr_Unreviewed stat
  | Some vote =>
      if vote >=? 5 then incr_Approved stat
      else if (vote =? -5) || (vote <=? -10) then incr_Blocked stat
      else incr_Unreviewed stat
  end.

(** The variables the aggregation loop carries from one iteration to the
    next: the hashtable [$reviewerStats], in the order its keys were added,
    and [$email], which is [$null] until first assigned. *)
Record State := {
  reviewerStats : Js.Map Stat;
  email : option string
}.

(** Body of the inner loop. Calling [.ToLower()] on a missing
    [uniqueName] is an error that ends the assignment only: the loop goes
    on with the value [$email] had before. *)
Definition visitReviewer (st : State)
  (reviewer : GitInterfaces.IdentityRefWithVote) : State :=
  if negb (Js.truthy (GitInterfaces.isRequired reviewer)) then st
  else
    let email :=
      match GitInterfaces.uniqueName reviewer with
      | Some u => Some (Js.toLowerCase u)
      | None => email st
      end in
    match email with
    | None => {| reviewerStats := reviewerStats st; email := email |}
    | Some key =>
        if String.eqb key "" then
          {| reviewerStats := reviewerStats st; email := email |}
        else
          let stats := reviewerStats st in
          let stats :=
            if negb (Js.has stats key) then
              let fullName :=
                match GitInterfaces.displayName reviewer with
                | Some n => n
                | None => ""
                end in
              Js.set stats key
                {| Name := firstToken fullName; Email := key; Required := 0;
                   Approved := 0; Blocked := 0; Unreviewed := 0 |}
            else stats in
          match Js.get stats key with
          | None => {| reviewerStats := stats; email := email |}
          | Some stat =>
              let stat := incr_Required stat in
              let stat := countVote stat (GitInterfaces.vote reviewer) in
              {| reviewerStats := Js.set stats key stat; email := email |}
          end
    end.

Definition visitPR (st : State) (pr : GitInterfaces.GitPullRequest) : State :=
  fold_left visitReviewer (Tool.reviewersOf pr) st.

(** [$allPRs | Where-Object { -not $_.isDraft }]. *)
Definition activePRs (allPRs : list GitInterfaces.GitPullRequest)
  : list GitInterfaces.GitPullRequest :=
  filter (fun pr => negb (Js.truthy (GitInterfaces.isDraft pr))) allPRs.

Definition aggregate (allPRs : list GitInterfaces.GitPullRequest)
  : Js.Map Stat :=
  reviewerStats
    (fold_left visitPR (activePRs allPRs)
       {| reviewerStats := []; email := None |}).

(** [@($reviewerStats.Values | Sort-Object -Property Required -Descending)].
    The order in which a hashtable enumerates its values and the order
    [Sort-Object] leaves among equal keys are not fixed by PowerShell; the
    model takes insertion order and a stable sort. The properties below
    speak of membership and sums only. *)
Definition sortedStats (allPRs : list GitInterfaces.GitPullRequest)
  : list Stat :=
  Js.sort (fun a b => Required b - Required a) (Js.values (aggregate allPRs)).

(** [Measure-Object -Average] over the [Required] column. *)
Definition avgRequired (stats : list Stat) : Q :=
  let total := fold_left (fun sum r => sum + Required r) stats 0 in
  (inject_Z total / inject_Z (Z.of_nat (List.length stats)))%Q.



End Script.

(* ================================================================== *)
(** ** The specification's reading of the engine

    These definitions follow the words of the specification (sections 3,
    4.1 and 4.3) and are compared with the code above. *)

Module Spec.

Inductive Outcome := Approved | WaitingForAuthor | Rejected | Pending.

(** Section 4.1: the rules, in order; the first that matches wins. *)
Definition voteRules : list ((Z -> bool) * Outcome) :=
  [ (fun vote => vote >=? 10, Approved);
    (fun vote => vote =? -5, WaitingForAuthor);
    (fun vote => vote <=? -10, Rejected) ].

Definition classify (vote : Z) : Outcome :=
  match find (fun rule => fst rule vote) voteRules with
  | Some rule => snd rule
  | None => Pending
  end.

(** "increment the corresponding bucket": one more in the bucket of the
    outcome, every other field as it was. *)
Definition bump (o : Outcome) (stat : Tool.ReviewerStat) : Tool.ReviewerStat :=
  let one (o' : Outcome) : Z :=
    match o, o' with
    | Approved, Approved => 1
    | WaitingForAuthor, WaitingForAuthor => 1
    | Rejected, Rejected => 1
    | Pending, Pending => 1
    | _, _ => 0
    end in
  {| Tool.displayName := Tool.displayName stat;
     Tool.email := Tool.email stat;
     Tool.requiredCount := Tool.requiredCount stat;
     Tool.optionalCount := Tool.optionalCount stat;
     Tool.totalCount := Tool.totalCount stat;
     Tool.approvedCount := Tool.approvedCount stat + one Approved;
     Tool.pendingCount := Tool.pendingCount stat + one Pending;
     Tool.waitingForAuthorCount :=
       Tool.waitingForAuthorCount stat + one WaitingForAuthor;
     Tool.rejectedCount := Tool.rejectedCount stat + one Rejected;
     Tool.prs := Tool.prs stat |}.

(** Section 3: the outcome buckets of a [ReviewerStat] are counts and sum
    to [requiredCount]. *)
Definition WellFormed (r : Tool.ReviewerStat) : Prop :=
  0 <= Tool.approvedCount r /\ 0 <= Tool.pendingCount r
  /\ 0 <= Tool.waitingForAuthorCount r /\ 0 <= Tool.rejectedCount r
  /\ Tool.approvedCount r + Tool.waitingForAuthorCount r
     + Tool.rejectedCount r + Tool.pendingCount r = Tool.requiredCount r.

Inductive BadgeKind :=
  | SuperReviewer | NeedsBackup | NeedsCoffee | Benchwarmer
  | Flawless | Gatekeeper | WaitingRoom | SpeedDemon.

Definition badgeTitle (k : BadgeKind) : string :=
  match k with
  | SuperReviewer => "Super Reviewer"
  | NeedsBackup => "Needs Backup"
  | NeedsCoffee => "Needs Coffee"
  | Benchwarmer => "Benchwarmer"
  | Flawless => "Flawless"
  | Gatekeeper => "Gatekeeper"
  | WaitingRoom => "Waiting Room"
  | SpeedDemon => "Speed Demon"
  end.

(** Section 4.3, step 1: the arithmetic mean of [requiredCount], [0] on
    the empty input. *)
Definition avgRequired (stats : list Tool.ReviewerStat) : Q :=
  match stats with
  | [] => 0%Q
  | _ =>
      let total := fold_right Z.add 0 (map Tool.requiredCount stats) in
      (inject_Z total / inject_Z (Z.of_nat (List.length stats)))%Q
  end.

(** Step 2: the derived quantities. *)
Definition completionRate (r : Tool.ReviewerStat) : Q :=
  (inject_Z (Tool.approvedCount r) / inject_Z (Tool.requiredCount r))%Q.

Definition unreviewedRate (r : Tool.ReviewerStat) : Q :=
  (inject_Z (Tool.pendingCount r) / inject_Z (Tool.requiredCount r))%Q.

Definition isHighVolume (avg : Q) (r : Tool.ReviewerStat) : bool :=
  Qle_bool (avg * 1.5)%Q (inject_Z (Tool.requiredCount r)).

Definition isLowVolume (avg : Q) (r : Tool.ReviewerStat) : bool :=
  Qle_bool (inject_Z (Tool.requiredCount r)) (Qmax 1 (avg * 0.5))%Q.

Definition isMedVolume (avg : Q) (r : Tool.ReviewerStat) : bool :=
  negb (isHighVolume avg r) && negb (isLowVolume avg r).

(** Step 3: the condition column of the table. *)
Definition condition (k : BadgeKind) (avg : Q) (r : Tool.ReviewerStat)
  : bool :=
  match k with
  | SuperReviewer => isHighVolume avg r && Qle_bool 0.8%Q (completionRate r)
  | NeedsBackup => isHighVolume avg r && Qle_bool 0.5%Q (unreviewedRate r)
  | NeedsCoffee =>
      (isLowVolume avg r || isMedVolume avg r)
      && Qle_bool 0.7%Q (unreviewedRate r) && (Tool.pendingCount r >=? 2)
  | Benchwarmer => isLowVolume avg r && (Tool.requiredCount r <=? 1)
  | Flawless => (Tool.requiredCount r >=? 2) && Qeq_bool (completionRate r) 1
  | Gatekeeper => Tool.rejectedCount r >=? 1
  | WaitingRoom => Tool.waitingForAuthorCount r >=? 2
  | SpeedDemon => isMedVolume avg r && Qle_bool 0.7%Q (completionRate r)
  end.

(** The order column of the table. *)
Definition ruleOrder : list BadgeKind :=
  [SuperReviewer; NeedsBackup; NeedsCoffee; Benchwarmer;
   Flawless; Gatekeeper; WaitingRoom; SpeedDemon].

(** The badge of one reviewer: none when [requiredCount] is [0], else the
    first rule of the table whose condition holds. *)
Definition classifyBadge (avg : Q) (r : Tool.ReviewerStat)
  : option BadgeKind :=
  if Tool.requiredCount r =? 0 then None
  else find (fun k => condition k avg r) ruleOrder.

(** [classify_badges]: at most one pair per reviewer, in input order. *)
Definition classify_badges (avg : Q) (stats : list Tool.ReviewerStat)
  : list (Tool.ReviewerStat * string) :=
  flat_map
    (fun r =>
       match classifyBadge avg r with
       | Some k => [(r, badgeTitle k)]
       | None => []
       end)
    stats.

(** Descending by [requiredCount], ties by descending [totalCount]. *)
Definition before (a b : Tool.ReviewerStat) : Prop :=
  Tool.requiredCount a > Tool.requiredCount b
  \/ (Tool.requiredCount a = Tool.requiredCount b
      /\ Tool.totalCount a >= Tool.totalCount b).

(** The two sort keys of a reviewer. *)
Definition sameKeys (rq tc : Z) (r : Tool.ReviewerStat) : bool :=
  (Tool.requiredCount r =? rq) && (Tool.totalCount r =? tc).

End Spec.

(* ================================================================== *)
(** ** Vocabulary of the statements *)

(** The reviewer assignments the aggregation loops visit, in order. *)
Definition assignments (allPRs : list GitInterfaces.GitPullRequest)
  : list GitInterfaces.IdentityRefWithVote :=
  flat_map Tool.reviewersOf (Tool.nonDraft allPRs).

(** An assignment that is required and carries a non-empty email. *)
Definition counted (r : GitInterfaces.IdentityRefWithVote) : bool :=
  Js.truthy (GitInterfaces.isRequired r)
  && negb (String.eqb (Tool.emailKey r) "").

(** Number of counted assignments of the reviewer [k] that satisfy [p]. *)
Definition tally (p : GitInterfaces.IdentityRefWithVote -> bool) (k : string)
  (rs : list GitInterfaces.IdentityRefWithVote) : Z :=
  Z.of_nat
    (List.length
       (filter (fun r => counted r && String.eqb (Tool.emailKey r) k && p r)
          rs)).

(** The email [e] is observed: it is not empty and is the lower-cased (not
    trimmed) unique name of a required reviewer listed on a pull request
    that is not a draft. *)
Definition observed (allPRs : list GitInterfaces.GitPullRequest) (e : string)
  : Prop :=
  e <> "" /\
  exists pr rs r u,
    In pr allPRs /\ GitInterfaces.isDraft pr <> Some true
    /\ GitInterfaces.reviewers pr = Some rs /\ In r rs
    /\ GitInterfaces.isRequired r = Some true
    /\ GitInterfaces.uniqueName r = Some u
    /\ Js.toLowerCase u = e.

(** The vote the tool reads from an assignment. *)
Definition voteOf (r : GitInterfaces.IdentityRefWithVote) : Z :=
  Js.or_number (GitInterfaces.vote r) 0.

(** [a] is a capital letter of which [b] is the small one. *)
Definition capital_of (a b : ascii) : Prop :=
  exists n : nat,
    (65 <= n <= 90)%nat /\ a = ascii_of_nat n /\ b = ascii_of_nat (n + 32).

(** Two characters, then two strings, that differ in letter case only. *)
Definition same_letter (a b : ascii) : Prop :=
  a = b \/ capital_of a b \/ capital_of b a.

Inductive eq_ignore_case : string -> string -> Prop :=
  | eic_nil : eq_ignore_case "" ""
  | eic_cons a b s t :
      same_letter a b -> eq_ignore_case s t ->
      eq_ignore_case (String a s) (String b t).


(** What the aggregation loop maintains for the entry of key [k], after
    the assignments [seen]. *)
Definition StatInv (seen : list GitInterfaces.IdentityRefWithVote)
  (entry : string * Tool.ReviewerStat) : Prop :=
  let k := fst entry in
  let s := snd entry in
  k <> "" /\ Spec.WellFormed s
  /\ Tool.optionalCount s = 0
  /\ Tool.totalCount s = Tool.requiredCount s
  /\ Tool.requiredCount s >= 1
  /\ Tool.requiredCount s = tally (fun _ => true) k seen
  /\ Js.toLowerCase (Tool.email s) = k.

Definition MapInv (seen : list GitInterfaces.IdentityRefWithVote)
  (m : Js.Map Tool.ReviewerStat) : Prop :=
  NoDup (Js.keys m)
  /\ Forall (StatInv seen) m
  /\ (forall k, In k (Js.keys m) <->
        exists r, In r seen /\ counted r = true /\ Tool.emailKey r = k).

(** A (reviewer, badge) pair of the tool, the badge named by its title. *)
Definition pairOf (b : Tool.ReviewerBadge) : Tool.ReviewerStat * string :=
  (Tool.reviewer b, Tool.title b).

(** The array [filteredStats] of [generateMarkdownTable]. *)
Definition filteredStats (stats : list Tool.ReviewerStat) (requiredOnly : bool)
  : list Tool.ReviewerStat :=
  if requiredOnly then filter (fun r => Tool.requiredCount r >? 0) stats
  else stats.











(* ================================================================== *)
(** ** Concrete inputs *)

Module Examples.

Definition reviewerOf (name : string) (required : bool) (vote : Z)
  : GitInterfaces.IdentityRefWithVote :=
  {| GitInterfaces.uniqueName := Some name;
     GitInterfaces.displayName := Some name;
     GitInterfaces.isRequired := Some required;
     GitInterfaces.vote := Some vote |}.

Definition prOf (id : Z) (draft : bool)
  (rs : list GitInterfaces.IdentityRefWithVote)
  : GitInterfaces.GitPullRequest :=
  {| GitInterfaces.pullRequestId := Some id;
     GitInterfaces.title := Some "Change";
     GitInterfaces.isDraft := Some draft;
     GitInterfaces.reviewers := Some rs |}.

Definition statOf (name : string) (approved waiting rejected pending : Z)
  : Tool.ReviewerStat :=
  {| Tool.displayName := name; Tool.email := name;
     Tool.requiredCount := approved + waiting + rejected + pending;
     Tool.optionalCount := 0;
     Tool.totalCount := approved + waiting + rejected + pending;
     Tool.approvedCount := approved; Tool.pendingCount := pending;
     Tool.waitingForAuthorCount := waiting; Tool.rejectedCount := rejected;
     Tool.prs := [] |}.

(** Three reviewers with 4, 3 and 5 required reviews: the average is 4, and
    the first, with all 4 approved, is of medium volume. *)
Definition ada : Tool.ReviewerStat := statOf "ada" 4 0 0 0.

Definition team : list Tool.ReviewerStat :=
  [ada; statOf "bob" 1 1 0 1; statOf "cyd" 2 0 1 2].

(** A single pull request, still a draft. *)
Definition draftOnly : list GitInterfaces.GitPullRequest :=
  [prOf 7 true [reviewerOf "dan@example.com" true 0]].

(** One open pull request whose only reviewer is optional. *)
Definition optionalOnly : list GitInterfaces.GitPullRequest :=
  [prOf 1 false [reviewerOf "opt@example.com" false 10]].

(** The same address, once with a leading blank. *)
Definition blankPrefixed : list GitInterfaces.GitPullRequest :=
  [prOf 1 false [reviewerOf " amy@example.com" true 10;
                 reviewerOf "amy@example.com" true 0]].

(** The same address in two letter cases, and a draft. *)
Definition mixedCase : list GitInterfaces.GitPullRequest :=
  [prOf 1 false [reviewerOf "Amy@Example.com" true 10];
   prOf 2 true [reviewerOf "dan@example.com" true 0];
   prOf 3 false [reviewerOf "amy@example.com" true (-5)]].



(** Three reviewers and four pull requests, votes among 10, 0, -5, -10. *)
Definition sprint : list GitInterfaces.GitPullRequest :=
  [prOf 1 false [reviewerOf "Gus@example.com" true 10;
                 reviewerOf "hal@example.com" true (-10)];
   prOf 2 false [reviewerOf "gus@example.com" true 10;
                 reviewerOf "hal@example.com" true 0;
                 reviewerOf "ivy@example.com" false 10];
   prOf 3 true [reviewerOf "ivy@example.com" true 0];
   prOf 4 false [reviewerOf "gus@example.com" true 10;
                 reviewerOf "ivy@example.com" true 0]].

End Examples.

(* ================================================================== *)
(** ** Vocabulary of the further properties *)

(** The visits of the inner loop body, in order: each reviewer with the
    pull request it is listed on. *)
Definition visits (allPRs : list GitInterfaces.GitPullRequest)
  : list (GitInterfaces.GitPullRequest * GitInterfaces.IdentityRefWithVote) :=
  flat_map (fun pr => map (pair pr) (Tool.reviewersOf pr))
    (Tool.nonDraft allPRs).

(** A counted assignment of the reviewer [k]. *)
Definition matches (k : string) (r : GitInterfaces.IdentityRefWithVote)
  : bool :=
  counted r && String.eqb (Tool.emailKey r) k.

(** The record pushed on [stat.prs] for one visit (lines 315-320). *)
Definition entryOf (pr : GitInterfaces.GitPullRequest)
  (r : GitInterfaces.IdentityRefWithVote) : Tool.PrEntry :=
  {| Tool.pr_id := Js.or_number (GitInterfaces.pullRequestId pr) 0;
     Tool.pr_title := Js.or_string (GitInterfaces.title pr) "";
     Tool.pr_isRequired := true;
     Tool.pr_vote :=
       match VoteLabels (voteOf r) with
       | Some l => if String.eqb l "" then "No vote" else l
       | None => "No vote"
       end |}.

(** What the loop maintains for the entry [s] of key [k] beyond the
    counters of [StatInv]: each bucket counts its votes, [prs] lists the
    visits, and the names are those of the first visit. *)
Definition Traced
  (seen : list (GitInterfaces.GitPullRequest
                * GitInterfaces.IdentityRefWithVote))
  (k : string) (s : Tool.ReviewerStat) : Prop :=
  Tool.approvedCount s = tally (fun r => voteOf r >=? 10) k (map snd seen)
  /\ Tool.waitingForAuthorCount s
     = tally (fun r => voteOf r =? -5) k (map snd seen)
  /\ Tool.rejectedCount s = tally (fun r => voteOf r <=? -10) k (map snd seen)
  /\ Tool.pendingCount s
     = tally (fun r => (-10 <? voteOf r) && (voteOf r <? 10)
                       && negb (voteOf r =? -5)) k (map snd seen)
  /\ Tool.prs s
     = map (fun v => entryOf (fst v) (snd v))
         (filter (fun v => matches k (snd v)) seen)
  /\ exists r0,
       find (matches k) (map snd seen) = Some r0
       /\ Tool.displayName s
          = Js.or_string (GitInterfaces.displayName r0) "Unknown"
       /\ Tool.email s = Js.or_string (GitInterfaces.uniqueName r0) "".

Definition TraceInv
  (seen : list (GitInterfaces.GitPullRequest
                * GitInterfaces.IdentityRefWithVote))
  (m : Js.Map Tool.ReviewerStat) : Prop :=
  forall k s, Js.get m k = Some s -> Traced seen k s.

(** The width [nameWidth] that [generateMarkdownTable] gives the name
    column. *)
Definition nameWidthOf (stats : list Tool.ReviewerStat) : Z :=
  Js.max_of 8
    (map (fun r => Z.of_nat (String.length (Tool.displayName r))) stats).

(** The number [n] prints in at most [w] characters. *)
Definition fits (w n : Z) : Prop :=
  Z.of_nat (String.length (Js.String_of n)) <= w.

(** Every number of the row of [r] fits its column. *)
Definition rowFits (requiredOnly : bool) (r : Tool.ReviewerStat) : Prop :=
  fits 8 (Tool.requiredCount r) /\ fits 8 (Tool.approvedCount r)
  /\ fits 18 (Tool.waitingForAuthorCount r) /\ fits 8 (Tool.rejectedCount r)
  /\ fits 10 (Tool.pendingCount r)
  /\ (requiredOnly = false ->
      fits 8 (Tool.optionalCount r) /\ fits 5 (Tool.totalCount r)).

(** The width of the table: the columns and two blanks between them. *)
Definition tableWidth (requiredOnly : bool) (nameWidth : Z) : Z :=
  nameWidth + (if requiredOnly then 62 else 79).

(** Length of a line, as a number. *)
Definition lineLength (s : string) : Z := Z.of_nat (String.length s).

(** The header row and the row of dashes of the table. *)
Definition headerLine (requiredOnly : bool) (nameWidth : Z) : string :=
  if requiredOnly then
    Js.join "  "
      (Tool.padHeaders
         ["Reviewer"; "Required"; "Approved"; "Waiting for Author";
          "Rejected"; "Unreviewed"]
         [nameWidth; 8; 8; 18; 8; 10])
  else
    Js.join "  "
      (Tool.padHeaders
         ["Reviewer"; "Required"; "Optional"; "Total"; "Approved";
          "Waiting for Author"; "Rejected"; "Unreviewed"]
         [nameWidth; 8; 8; 5; 8; 18; 8; 10]).

Definition separatorLine (requiredOnly : bool) (nameWidth : Z) : string :=
  Js.join "  "
    (map (fun w => Js.repeat "-" (Z.to_nat w))
       (if requiredOnly then [nameWidth; 8; 8; 18; 8; 10]
        else [nameWidth; 8; 8; 5; 8; 18; 8; 10])).

(** The line that announces a badge. *)
Definition badgeLine (b : Tool.ReviewerBadge) : string :=
  Tool.emoji b ++ " " ++ Tool.title b ++ ": " ++ Tool.description b.

(** Further concrete inputs. *)
Module MoreExamples.

(** A newcomer with one approved review next to a busy colleague. *)
Definition kim : Tool.ReviewerStat := Examples.statOf "kim" 1 0 0 0.

Definition duo : list Tool.ReviewerStat :=
  [Examples.statOf "lee" 2 1 0 2; kim].

(** The third reviewer of [Examples.team], who rejected once. *)
Definition cyd : Tool.ReviewerStat := Examples.statOf "cyd" 2 0 1 2.

End MoreExamples.

(* ================================================================== *)
(** ** Configuration and fetching: the front of [reviewerStats]

    [config.ts] (appended to [ReviewerStatsTool.ts], lines 491-544),
    [requireOrg] of [connection.ts], [statusToEnum] and lines 227-269 of
    [reviewerStats]. A thrown error is its message; a function that may
    throw returns [inl message]. The service is a pair of functions. *)

Module Fetch.

Definition nl : string := String "010" "".

(** [a || b] on two optional strings. *)
Definition or_undefined (a b : option string) : option string :=
  match a with
  | Some s => if String.eqb s "" then b else Some s
  | None => b
  end.

(** Truthiness of an optional string. *)
Definition truthy (a : option string) : bool :=
  match a with
  | Some s => negb (String.eqb s "")
  | None => false
  end.

(** [process.env], as far as it is read. *)
Record Env := {
  AZURE_DEVOPS_PAT : option string;
  AZURE_DEVOPS_ORG : option string;
  AZURE_DEVOPS_PROJECT : option string;
  AZURE_DEVOPS_REPO : option string
}.

Record AzureDevOpsConfig := {
  pat : string;
  defaultOrg : option string;
  defaultProject : option string;
  defaultRepo : option string
}.

Record Defaults := {
  organization : option string;
  project : option string;
  repository : option string
}.

(** [getConfig]; the module variable [config] is passed in and out. *)
Definition getConfig (config : option AzureDevOpsConfig) (env : Env)
  : (string + AzureDevOpsConfig) * option AzureDevOpsConfig :=
  match config with
  | Some c => (inr c, config)
  | None =>
      if negb (truthy (AZURE_DEVOPS_PAT env)) then
        (inl ("AZURE_DEVOPS_PAT environment variable is required." ++ nl
              ++ "Create a PAT at: https://dev.azure.com/{org}/_usersSettings/tokens"
              ++ nl
              ++ "Required scopes: Code (Read & Write), Pull Request Threads (Read & Write)"),
         config)
      else
        let c :=
          {| pat := match AZURE_DEVOPS_PAT env with Some p => p | None => "" end;
             defaultOrg := AZURE_DEVOPS_ORG env;
             defaultProject := AZURE_DEVOPS_PROJECT env;
             defaultRepo := AZURE_DEVOPS_REPO env |} in
        (inr c, Some c)
  end.

Definition getDefaults (config : option AzureDevOpsConfig) (env : Env)
  : (string + Defaults) * option AzureDevOpsConfig :=
  match getConfig config env with
  | (inl e, config) => (inl e, config)
  | (inr cfg, config) =>
      (inr {| organization := defaultOrg cfg;
              project := defaultProject cfg;
              repository := defaultRepo cfg |}, config)
  end.

(** [requireOrg] of [connection.ts]. *)
Definition requireOrg (org defaultOrg : option string) : string + string :=
  let organization := or_undefined org defaultOrg in
  if negb (truthy organization) then
    inl "Organization is required. Provide --org or set AZURE_DEVOPS_ORG in .env"
  else
    inr (match organization with Some s => s | None => "" end).

Inductive PullRequestStatus := Active | Abandoned | Completed | All.

Definition statusToEnum (status : option string) : PullRequestStatus :=
  match option_map Js.toLowerCase status with
  | Some s =>
      if String.eqb s "active" then Active
      else if String.eqb s "completed" then Completed
      else if String.eqb s "abandoned" then Abandoned
      else if String.eqb s "all" then All
      else Active
  | None => Active
  end.

Record TeamProjectReference := { projectName : option string }.

Record GitRepository := {
  name : option string;
  repoProject : option TeamProjectReference
}.

(** The calls made on [gitApi]: [getPullRequests(repo, searchCriteria,
    project, undefined, undefined, top)] and [getRepositories(project)]. *)
Record GitApi := {
  getPullRequests :
    string -> PullRequestStatus -> string -> Z ->
    string + list GitInterfaces.GitPullRequest;
  getRepositories : option string -> string + list GitRepository
}.

Record ReviewerStatsParams := {
  p_organization : option string;
  p_project : option string;
  p_repository : option string;
  p_status : option string;
  p_requiredOnly : option bool
}.

(** [OperationResult<ReviewerStatsResult>] with its [error] field. *)
Record OperationResult := {
  success : bool;
  message : string;
  data : option Tool.ReviewerStatsResult;
  error : option string
}.

(** The string held by an optional string that was tested truthy. *)
Definition str (a : option string) : string :=
  match a with Some s => s | None => "" end.

(** The loop over the repositories of one project: repositories without
    a name are passed over, and so are those whose pull requests cannot be
    read. *)
Definition collectProject (gitApi : GitApi) (searchCriteria : PullRequestStatus)
  (project : string) (repos : list GitRepository)
  : list GitInterfaces.GitPullRequest :=
  fold_left
    (fun allPRs r =>
       if negb (truthy (name r)) then allPRs
       else
         match getPullRequests gitApi (str (name r)) searchCriteria project
                 100 with
         | inr prs => (allPRs ++ prs)%list
         | inl _ => allPRs
         end)
    repos [].

(** [r.project?.name]. *)
Definition projectOf (r : GitRepository) : option string :=
  match repoProject r with Some p => projectName p | None => None end.

(** The loop over all repositories of the organization. *)
Definition collectOrg (gitApi : GitApi) (searchCriteria : PullRequestStatus)
  (repos : list GitRepository) : list GitInterfaces.GitPullRequest :=
  fold_left
    (fun allPRs r =>
       if negb (truthy (name r)) || negb (truthy (projectOf r)) then allPRs
       else
         match getPullRequests gitApi (str (name r)) searchCriteria
                 (str (projectOf r)) 100 with
         | inr prs => (allPRs ++ prs)%list
         | inl _ => allPRs
         end)
    repos [].

(** Lines 240-269: the pull requests to aggregate, or the error that
    leaves the [try] block. *)
Definition fetchAll (gitApi : GitApi) (searchCriteria : PullRequestStatus)
  (project repo : option string)
  : string + list GitInterfaces.GitPullRequest :=
  if truthy project && truthy repo then
    getPullRequests gitApi (str repo) searchCriteria (str project) 100
  else if truthy project then
    match getRepositories gitApi project with
    | inr repos =>
        inr (collectProject gitApi searchCriteria (str project) repos)
    | inl e => inl e
    end
  else
    match getRepositories gitApi None with
    | inr repos => inr (collectOrg gitApi searchCriteria repos)
    | inl e => inl e
    end.

(** The [catch] branch. *)
Definition failed (message : string) : OperationResult :=
  {| success := false;
     message := "Failed to get reviewer stats: " ++ message;
     data := None;
     error := Some "REVIEWER_STATS_FAILED" |}.

(** [reviewerStats]: [config] is the cached configuration, [env] the
    environment, [getGitApi] the connection to an organization and
    [random] the value of [Math.random()]. *)
Definition reviewerStats (random : Q) (config : option AzureDevOpsConfig)
  (env : Env) (getGitApi : string -> string + GitApi)
  (params : ReviewerStatsParams)
  : OperationResult * option AzureDevOpsConfig :=
  match getDefaults config env with
  | (inl e, config) => (failed e, config)
  | (inr defaults, config) =>
      match requireOrg (p_organization params) (organization defaults) with
      | inl e => (failed e, config)
      | inr org =>
          let project := or_undefined (p_project params) (project defaults) in
          let repo :=
            or_undefined (p_repository params) (repository defaults) in
          match getGitApi org with
          | inl e => (failed e, config)
          | inr gitApi =>
              match fetchAll gitApi (statusToEnum (p_status params))
                      project repo with
              | inl e => (failed e, config)
              | inr allPRs =>
                  let r :=
                    Tool.reviewerStats random allPRs (p_requiredOnly params) in
                  ({| success := Tool.success r; message := Tool.message r;
                      data := Tool.data r; error := None |}, config)
              end
          end
      end
  end.

End Fetch.

(** The pull requests one repository contributes to a project-wide or
    organization-wide collection: those the service returns, none when the
    repository has no name or cannot be read. *)
Definition readable (gitApi : Fetch.GitApi)
  (searchCriteria : Fetch.PullRequestStatus) (project : string)
  (r : Fetch.GitRepository) : list GitInterfaces.GitPullRequest :=
  if Fetch.truthy (Fetch.name r) then
    match Fetch.getPullRequests gitApi (Fetch.str (Fetch.name r))
            searchCriteria project 100 with
    | inr prs => prs
    | inl _ => []
    end
  else [].

(** A service with two named repositories, one of which cannot be read,
    and one without a name. *)
Module Contoso.

Definition env : Fetch.Env :=
  {| Fetch.AZURE_DEVOPS_PAT := Some "token";
     Fetch.AZURE_DEVOPS_ORG := Some "contoso";
     Fetch.AZURE_DEVOPS_PROJECT := None;
     Fetch.AZURE_DEVOPS_REPO := None |}.

Definition shop : option Fetch.TeamProjectReference :=
  Some {| Fetch.projectName := Some "shop" |}.

Definition gitApi : Fetch.GitApi :=
  {| Fetch.getPullRequests := fun repo _ _ _ =>
       if String.eqb repo "web" then inr Examples.sprint
       else inl "TF401019: the repository cannot be read";
     Fetch.getRepositories := fun _ =>
       inr [ {| Fetch.name := Some "vault"; Fetch.repoProject := shop |};
             {| Fetch.name := None; Fetch.repoProject := shop |};
             {| Fetch.name := Some "web"; Fetch.repoProject := shop |} ] |}.

Definition getGitApi (org : string) : string + Fetch.GitApi := inr gitApi.

Definition everything : Fetch.ReviewerStatsParams :=
  {| Fetch.p_organization := None; Fetch.p_project := None;
     Fetch.p_repository := None; Fetch.p_status := Some "Active";
     Fetch.p_requiredOnly := None |}.

Definition vaultOnly : Fetch.ReviewerStatsParams :=
  {| Fetch.p_organization := None; Fetch.p_project := Some "shop";
     Fetch.p_repository := Some "vault"; Fetch.p_status := None;
     Fetch.p_requiredOnly := None |}.

Definition noToken : Fetch.Env :=
  {| Fetch.AZURE_DEVOPS_PAT := Some "";
     Fetch.AZURE_DEVOPS_ORG := Some "contoso";
     Fetch.AZURE_DEVOPS_PROJECT := None;
     Fetch.AZURE_DEVOPS_REPO := None |}.

Definition noOrg : Fetch.Env :=
  {| Fetch.AZURE_DEVOPS_PAT := Some "token";
     Fetch.AZURE_DEVOPS_ORG := None;
     Fetch.AZURE_DEVOPS_PROJECT := Some "shop";
     Fetch.AZURE_DEVOPS_REPO := None |}.

End Contoso.

(* ================================================================== *)
(** ** The user cache: [user-cache.ts]

    [getUserId] serves [removeReviewer] and [addReviewer]. The module
    variable [runtimeCache] is passed in and out. White space is the ASCII
    one: tab, line feed, vertical tab, form feed, carriage return, blank. *)

Module UserCache.

Definition isSpace (c : ascii) : bool :=
  let n := nat_of_ascii c in
  ((9 <=? n)%nat && (n <=? 13)%nat) || (n =? 32)%nat.

Fixpoint trimStart (s : string) : string :=
  match s with
  | EmptyString => EmptyString
  | String c s' => if isSpace c then trimStart s' else s
  end.

Fixpoint trimEnd (s : string) : string :=
  match s with
  | EmptyString => EmptyString
  | String c s' =>
      let t := trimEnd s' in
      if isSpace c && String.eqb t "" then EmptyString else String c t
  end.

(** [String.prototype.trim]. *)
Definition trim (s : string) : string := trimEnd (trimStart s).

Definition KNOWN_USERS : list (string * string) :=
  [ ("himanshu.mishra@lm-solutions.com", "58251a68-e1c3-4b43-914c-04d2cfdc4f5d");
    ("aviraj.singh@lm-solutions.com", "417f389a-500c-6ef1-b44f-4958d61c02cb");
    ("josh.bonnell@sviworld.com", "cf81dfc6-1f22-4098-b3a5-912abd09e19b");
    ("josh.attoun@sviworld.com", "bcfe8329-2624-4a22-9266-a84ddcc5eff7");
    ("victoria.day@sviworld.com", "32867386-d4ae-4ef3-b793-5955e6b083ae");
    ("gabe.priest@sviworld.com", "31008430-9e18-4895-aa69-e4749716237e");
    ("nick.fritsche@sviworld.com", "26785233-d1bb-440b-8e62-0dd36d96c680");
    ("dayton.drilling@sviworld.com", "17942b60-18fe-6456-bfe7-d85b6525cb1e") ].

(** [getUserId]: the loop over [Object.entries(KNOWN_USERS)] returns at the
    first match; a cached id that is empty is falsy. *)
Definition getUserId (runtimeCache : Js.Map string) (email : string)
  : option string :=
  let normalizedEmail := trim (Js.toLowerCase email) in
  match
    find (fun entry => String.eqb (Js.toLowerCase (fst entry)) normalizedEmail)
      KNOWN_USERS
  with
  | Some entry => Some (snd entry)
  | None =>
      match Js.get runtimeCache normalizedEmail with
      | Some cached => if String.eqb cached "" then None else Some cached
      | None => None
      end
  end.

Definition cacheUserId (runtimeCache : Js.Map string) (email userId : string)
  : Js.Map string :=
  Js.set runtimeCache (trim (Js.toLowerCase email)) userId.

Definition getKnownEmails : list string := map fst KNOWN_USERS.

Definition isKnownUser (email : string) : bool :=
  let normalizedEmail := trim (Js.toLowerCase email) in
  existsb
    (fun knownEmail => String.eqb (Js.toLowerCase knownEmail) normalizedEmail)
    (map fst KNOWN_USERS).

End UserCache.

(** A string of white space only. *)
Fixpoint blank (s : string) : Prop :=
  match s with
  | EmptyString => True
  | String c s' => UserCache.isSpace c = true /\ blank s'
  end.

(* ================================================================== *)
(** ** Pull request identifiers: [url-parser.ts]

    [parsePRInput] serves every tool that takes a pull request, among
    them [replyToThread] and [removeReviewer]. The regular expressions
    have no alternative and their groups are runs of one character class
    closed by a character outside the class, so a match at a position is
    found by reading left to right; [String.prototype.match] returns the
    match at the leftmost position that has one. *)

Module UrlParser.

Record PRIdentifier := {
  organization : string;
  project : string;
  repository : string;
  pullRequestId : Z
}.

Record Overrides := {
  o_organization : option string;
  o_project : option string;
  o_repository : option string
}.

Definition quote : string := String (ascii_of_nat 34) "".

Definition isDigit (c : ascii) : bool :=
  let n := nat_of_ascii c in (48 <=? n)%nat && (n <=? 57)%nat.

Definition notSlash (c : ascii) : bool := negb (Ascii.eqb c "/").

(** The longest prefix of characters of a class, and what follows. *)
Fixpoint span (f : ascii -> bool) (s : string) : string * string :=
  match s with
  | EmptyString => (EmptyString, EmptyString)
  | String c s' =>
      if f c then let (a, b) := span f s' in (String c a, b)
      else (EmptyString, s)
  end.

(** A literal at the head of [s]: what follows it. *)
Fixpoint literal (l s : string) : option string :=
  match l with
  | EmptyString => Some s
  | String c l' =>
      match s with
      | String d s' => if Ascii.eqb c d then literal l' s' else None
      | EmptyString => None
      end
  end.

(** [([^\/]+)\/] at the head of [s]. *)
Definition segment (s : string) : option (string * string) :=
  let (seg, rest) := span notSlash s in
  if String.eqb seg "" then None
  else
    match rest with
    | String _ rest' => Some (seg, rest')
    | EmptyString => None
    end.

(** [(\d+)] at the head of [s]. *)
Definition digits (s : string) : option (string * string) :=
  let (ds, rest) := span isDigit s in
  if String.eqb ds "" then None else Some (ds, rest).

(** [parseInt(ds, 10)] on a run of digits: the number the digits denote,
    which is what JavaScript returns up to [MAX_SAFE_INTEGER]. *)
Definition parseInt (ds : string) : Z :=
  match NilEmpty.uint_of_string ds with
  | Some d => Z.of_uint d
  | None => 0
  end.

Definition bind {A B : Type} (x : option A) (k : A -> option B) : option B :=
  match x with Some a => k a | None => None end.

(** [dev\.azure\.com\/([^\/]+)\/([^\/]+)\/_git\/([^\/]+)\/pullrequest\/(\d+)]
    at the head of [s]. *)
Definition urlAt (s : string) : option PRIdentifier :=
  bind (literal "dev.azure.com/" s) (fun s =>
  bind (segment s) (fun org_s =>
  bind (segment (snd org_s)) (fun project_s =>
  bind (literal "_git/" (snd project_s)) (fun s =>
  bind (segment s) (fun repo_s =>
  bind (literal "pullrequest/" (snd repo_s)) (fun s =>
  bind (digits s) (fun id_s =>
  Some {| organization := fst org_s;
          project := fst project_s;
          repository := fst repo_s;
          pullRequestId := parseInt (fst id_s) |}))))))).

(** [ssh\.dev\.azure\.com:v3\/([^\/]+)\/([^\/]+)\/([^\/]+)] at the head
    of [s]. *)
Definition sshAt (s : string) : bool :=
  match
    bind (literal "ssh.dev.azure.com:v3/" s) (fun s =>
    bind (segment s) (fun org_s =>
    bind (segment (snd org_s)) (fun project_s =>
    Some (negb (String.eqb (fst (span notSlash (snd project_s))) "")))))
  with
  | Some b => b
  | None => false
  end.

(** The leftmost match. *)
Fixpoint urlMatch (input : string) : option PRIdentifier :=
  match urlAt input with
  | Some id => Some id
  | None =>
      match input with
      | EmptyString => None
      | String _ rest => urlMatch rest
      end
  end.

Fixpoint sshMatch (input : string) : bool :=
  sshAt input
  || match input with
     | EmptyString => false
     | String _ rest => sshMatch rest
     end.

(** [^(\d+)$]. *)
Definition idMatch (input : string) : option string :=
  match digits input with
  | Some (ds, EmptyString) => Some ds
  | _ => None
  end.

(** [parsePRInput]; the configuration is consulted first, as in the
    source, and its error leaves the function like the others. *)
Definition parsePRInput (config : option Fetch.AzureDevOpsConfig)
  (env : Fetch.Env) (input : string) (overrides : option Overrides)
  : (string + PRIdentifier) * option Fetch.AzureDevOpsConfig :=
  match Fetch.getDefaults config env with
  | (inl e, config) => (inl e, config)
  | (inr defaults, config) =>
      let org :=
        Fetch.or_undefined (bind overrides o_organization)
          (Fetch.organization defaults) in
      let project :=
        Fetch.or_undefined (bind overrides o_project)
          (Fetch.project defaults) in
      let repo :=
        Fetch.or_undefined (bind overrides o_repository)
          (Fetch.repository defaults) in
      match urlMatch input with
      | Some id => (inr id, config)
      | None =>
          if sshMatch input then
            (inl "SSH URLs don't contain PR IDs. Please provide the full PR URL or just the PR ID.",
             config)
          else
            match idMatch input with
            | Some ds =>
                if negb (Fetch.truthy org) || negb (Fetch.truthy project)
                   || negb (Fetch.truthy repo) then
                  (inl ("When using PR ID only, organization, project, and repository must be configured."
                        ++ Fetch.nl
                        ++ "Set them in .env or provide --org, --project, --repo flags."
                        ++ Fetch.nl
                        ++ "Current: org=" ++ Js.or_string org "missing"
                        ++ ", project=" ++ Js.or_string project "missing"
                        ++ ", repo=" ++ Js.or_string repo "missing"),
                   config)
                else
                  (inr {| organization := Fetch.str org;
                          project := Fetch.str project;
                          repository := Fetch.str repo;
                          pullRequestId := parseInt ds |}, config)
            | None =>
                (inl ("Invalid PR identifier: " ++ quote ++ input ++ quote
                      ++ Fetch.nl
                      ++ "Expected formats:" ++ Fetch.nl
                      ++ "  - Full URL: https://dev.azure.com/org/project/_git/repo/pullrequest/123"
                      ++ Fetch.nl
                      ++ "  - PR ID: 123 (requires --org, --project, --repo or .env defaults)"),
                 config)
            end
      end
  end.

(** [buildPRUrl]. *)
Definition buildPRUrl (id : PRIdentifier) : string :=
  "https://dev.azure.com/" ++ organization id ++ "/" ++ project id
  ++ "/_git/" ++ repository id ++ "/pullrequest/"
  ++ Js.String_of (pullRequestId id).

End UrlParser.

(** A name that can stand between two slashes of a URL. *)
Definition slashFree (s : string) : Prop :=
  s <> "" /\ snd (UrlParser.span UrlParser.notSlash s) = "".

(** The number of slashes of a string. *)
Fixpoint slashes (s : string) : nat :=
  match s with
  | EmptyString => O
  | String c s' => if UrlParser.notSlash c then slashes s' else S (slashes s')
  end.

Module Links.

Definition web123 : UrlParser.PRIdentifier :=
  {| UrlParser.organization := "contoso";
     UrlParser.project := "shop";
     UrlParser.repository := "web";
     UrlParser.pullRequestId := 123 |}.

Definition shopWeb : option UrlParser.Overrides :=
  Some {| UrlParser.o_organization := None;
          UrlParser.o_project := Some "shop";
          UrlParser.o_repository := Some "web" |}.

End Links.

(* ================================================================== *)
(** ** Removing a reviewer: [RemoveReviewerTool.ts]

    The tool talks to the service through two methods of the Git API.
    Each is a function of its arguments that returns a value or throws
    ([inl] holds the message of the error); the calls made are recorded in
    the order they are made. Records hold the fields the function reads. *)

Module Remove.

Record IdentityRefWithVote := {
  id : option string;
  uniqueName : option string
}.

Record GitPullRequest := {
  reviewers : option (list IdentityRefWithVote)
}.

Inductive Call :=
| GetPullRequest (repositoryId : string) (pullRequestId : Z) (project : string)
| DeletePullRequestReviewer (repositoryId : string) (pullRequestId : Z)
    (reviewerId : string) (project : string).

Record GitApi := {
  getPullRequest : string -> Z -> string -> string + GitPullRequest;
  deletePullRequestReviewer : string -> Z -> string -> string -> string + unit
}.

Record RemoveReviewerParams := {
  pr : string;
  email : string;
  organization : option string;
  project : option string;
  repository : option string
}.

(** [OperationResult<void>]. *)
Record OperationResult := {
  success : bool;
  message : string;
  error : option string
}.

Record Run := {
  result : OperationResult;
  calls : list Call;
  config : option Fetch.AzureDevOpsConfig
}.

(** The [catch] block. *)
Definition failed (e : string) : OperationResult :=
  {| success := false;
     message := "Failed to remove reviewer: " ++ e;
     error := Some "REMOVE_REVIEWER_FAILED" |}.

(** The first two statements: the defaults, then the identifier. *)
Definition identify (config : option Fetch.AzureDevOpsConfig)
  (env : Fetch.Env) (params : RemoveReviewerParams)
  : (string + UrlParser.PRIdentifier) * option Fetch.AzureDevOpsConfig :=
  match Fetch.getDefaults config env with
  | (inl e, config) => (inl e, config)
  | (inr defaults, config) =>
      UrlParser.parsePRInput config env (pr params)
        (Some {| UrlParser.o_organization :=
                   Fetch.or_undefined (organization params)
                     (Fetch.organization defaults);
                 UrlParser.o_project :=
                   Fetch.or_undefined (project params)
                     (Fetch.project defaults);
                 UrlParser.o_repository :=
                   Fetch.or_undefined (repository params)
                     (Fetch.repository defaults) |})
  end.

(** [pr.reviewers?.find(r => r.uniqueName?.toLowerCase() ===
    params.email.toLowerCase())]. *)
Definition isReviewer (email : string) (r : IdentityRefWithVote) : bool :=
  match uniqueName r with
  | Some u => String.eqb (Js.toLowerCase u) (Js.toLowerCase email)
  | None => false
  end.

Definition findReviewer (email : string) (pullRequest : GitPullRequest)
  : option IdentityRefWithVote :=
  match reviewers pullRequest with
  | Some rs => find (isReviewer email) rs
  | None => None
  end.

(** The last two statements of the [try] block, reached with a user id. *)
Definition remove (getGitApi : string -> string + GitApi)
  (identifier : UrlParser.PRIdentifier) (userId : string) (email : string)
  (before : list Call) : OperationResult * list Call :=
  match getGitApi (UrlParser.organization identifier) with
  | inl e => (failed e, before)
  | inr gitApi =>
      let call :=
        DeletePullRequestReviewer (UrlParser.repository identifier)
          (UrlParser.pullRequestId identifier) userId
          (UrlParser.project identifier) in
      match
        deletePullRequestReviewer gitApi (UrlParser.repository identifier)
          (UrlParser.pullRequestId identifier) userId
          (UrlParser.project identifier)
      with
      | inl e => (failed e, (before ++ [call])%list)
      | inr _ =>
          ({| success := true;
              message := "Removed reviewer: " ++ email;
              error := None |}, (before ++ [call])%list)
      end
  end.

Definition removeReviewer (config : option Fetch.AzureDevOpsConfig)
  (env : Fetch.Env) (runtimeCache : Js.Map string)
  (getGitApi : string -> string + GitApi) (params : RemoveReviewerParams)
  : Run :=
  match identify config env params with
  | (inl e, config) =>
      {| result := failed e; calls := []; config := config |}
  | (inr identifier, config) =>
      let userId := UserCache.getUserId runtimeCache (email params) in
      if negb (Fetch.truthy userId) then
        match getGitApi (UrlParser.organization identifier) with
        | inl e => {| result := failed e; calls := []; config := config |}
        | inr gitApi =>
            let call :=
              GetPullRequest (UrlParser.repository identifier)
                (UrlParser.pullRequestId identifier)
                (UrlParser.project identifier) in
            match
              getPullRequest gitApi (UrlParser.repository identifier)
                (UrlParser.pullRequestId identifier)
                (UrlParser.project identifier)
            with
            | inl e =>
                {| result := failed e; calls := [call]; config := config |}
            | inr pullRequest =>
                let reviewerId :=
                  UrlParser.bind (findReviewer (email params) pullRequest) id in
                if Fetch.truthy reviewerId then
                  let (r, cs) :=
                    remove getGitApi identifier (Fetch.str reviewerId)
                      (email params) [call] in
                  {| result := r; calls := cs; config := config |}
                else
                  {| result :=
                       {| success := false;
                          message := "User not found: " ++ email params;
                          error := Some "USER_NOT_FOUND" |};
                     calls := [call]; config := config |}
            end
        end
      else
        let (r, cs) :=
          remove getGitApi identifier (Fetch.str userId) (email params) [] in
        {| result := r; calls := cs; config := config |}
  end.

End Remove.

(** The deletions among the calls made. *)
Definition deletions (cs : list Remove.Call) : list Remove.Call :=
  filter (fun c => match c with
                   | Remove.DeletePullRequestReviewer _ _ _ _ => true
                   | _ => false
                   end) cs.

Module Desk.

Definition bob : Remove.IdentityRefWithVote :=
  {| Remove.id := Some "7f0c";
     Remove.uniqueName := Some "Bob@Contoso.com" |}.

Definition gitApi : Remove.GitApi :=
  {| Remove.getPullRequest := fun _ _ _ =>
       inr {| Remove.reviewers := Some [bob] |};
     Remove.deletePullRequestReviewer := fun _ _ _ _ => inr tt |}.

Definition getGitApi (org : string) : string + Remove.GitApi := inr gitApi.

Definition request (email : string) : Remove.RemoveReviewerParams :=
  {| Remove.pr := "https://dev.azure.com/contoso/shop/_git/web/pullrequest/123";
     Remove.email := email;
     Remove.organization := None;
     Remove.project := None;
     Remove.repository := None |}.

End Desk.

(* ================================================================== *)
(** ** The table of the script (lines 228-260)

    [PadRight], [PadLeft] and the product of a string by a number are the
    padding and repetition of [Js]; [TrimEnd] removes trailing white space
    and is applied to two lines of ASCII text. *)

Module Discord.

(** [Measure-Object -Maximum]. *)
Definition Maximum (xs : list Z) : option Z :=
  match xs with
  | [] => None
  | x :: rest => Some (fold_left Z.max rest x)
  end.

Definition nameWidth (sortedStats : list Script.Stat) : Z :=
  Z.max 6
    (match
       Maximum
         (map (fun s => Z.of_nat (String.length (Script.Name s))) sortedStats)
     with
     | Some m => m
     | None => 0
     end).

Definition headers : list string :=
  ["Name"; "Assigned"; "Done"; "Blocked"; "Todo"].

Definition widths (nameWidth : Z) : list Z := [nameWidth; 8; 4; 7; 4].

Definition headerLine (nameWidth : Z) : string :=
  fold_left (fun line hw => line ++ Js.padEnd (fst hw) (snd hw) ++ " ")
    (combine headers (widths nameWidth)) "".

Definition sepLine (nameWidth : Z) : string :=
  fold_left (fun line w => line ++ Js.repeat "-" (Z.to_nat w) ++ " ")
    (widths nameWidth) "".

Definition row (nameWidth : Z) (stat : Script.Stat) : string :=
  let row := Js.padEnd (Script.Name stat) nameWidth ++ " " in
  let row := row ++ Js.padStart (Js.String_of (Script.Required stat)) 8 ++ " " in
  let row := row ++ Js.padStart (Js.String_of (Script.Approved stat)) 4 ++ " " in
  let row := row ++ Js.padStart (Js.String_of (Script.Blocked stat)) 7 ++ " " in
  row ++ Js.padStart (Js.String_of (Script.Unreviewed stat)) 4.

(** The lines of the table after the title and the empty line. *)
Definition tableLines (sortedStats : list Script.Stat) : list string :=
  let nameWidth := nameWidth sortedStats in
  ([UserCache.trimEnd (headerLine nameWidth);
    UserCache.trimEnd (sepLine nameWidth)]
   ++ map (row nameWidth) sortedStats)%list.

End Discord.

(** The counters of an entry of the script add up. *)
Definition Balanced (s : Script.Stat) : Prop :=
  Script.Required s
  = Script.Approved s + Script.Blocked s + Script.Unreviewed s
  /\ 1 <= Script.Required s /\ 0 <= Script.Approved s
  /\ 0 <= Script.Blocked s /\ 0 <= Script.Unreviewed s.

(** An entry as the script creates it. *)
Definition Fresh (s : Script.Stat) : Prop :=
  Script.Required s = 0 /\ Script.Approved s = 0
  /\ Script.Blocked s = 0 /\ Script.Unreviewed s = 0.

(* ================================================================== *)
(** ** Domains

    Where the embedding is exact: strings of ASCII characters, for letter
    case and white space, and safe integers, for printing and parsing. *)

Fixpoint isAscii (s : string) : bool :=
  match s with
  | EmptyString => true
  | String c s' => (nat_of_ascii c <? 128)%nat && isAscii s'
  end.

(** [Number.MAX_SAFE_INTEGER], 2^53 - 1. *)
Definition MAX_SAFE_INTEGER : Z := 9007199254740991.

(** Every unique name of the input is made of ASCII characters. *)
Definition asciiEmails (allPRs : list GitInterfaces.GitPullRequest) : bool :=
  forallb
    (fun pr =>
       forallb
         (fun r =>
            match GitInterfaces.uniqueName r with
            | Some u => isAscii u
            | None => true
            end)
         (match GitInterfaces.reviewers pr with Some rs => rs | None => [] end))
    allPRs.

(** Every unique name among the reviewers of a pull request, as
    [removeReviewer] fetches it, is made of ASCII characters. *)
Definition asciiReviewers (pullRequest : Remove.GitPullRequest) : bool :=
  forallb
    (fun r =>
       match Remove.uniqueName r with
       | Some u => isAscii u
       | None => true
       end)
    (match Remove.reviewers pullRequest with Some rs => rs | None => [] end).

(** The normalisation of section 4.2 of the specification: lower-casing
    and trimming. *)
Definition normalizedEmail (u : string) : string :=
  UserCache.trim (Js.toLowerCase u).

(** What one vote adds to the bucket of the outcome [o]. *)
Definition share (o : Spec.Outcome) (vote : Z) : Z :=
  match o, Spec.classify vote with
  | Spec.Approved, Spec.Approved => 1
  | Spec.WaitingForAuthor, Spec.WaitingForAuthor => 1
  | Spec.Rejected, Spec.Rejected => 1
  | Spec.Pending, Spec.Pending => 1
  | _, _ => 0
  end.

Module Corner.

(** One open pull request whose required reviewer has an address made of
    blanks. *)
Definition blankOnly : list GitInterfaces.GitPullRequest :=
  [Examples.prOf 1 false [Examples.reviewerOf "   " true 0]].

End Corner.
(* ================================================================== *)
(** ** Lemmas on the JavaScript primitives *)

Section MapFacts.
Context {V : Type}.
Implicit Types (m : Js.Map V) (k : string) (v : V).

Lemma get_set_same m k v : Js.get (Js.set m k v) k = Some v.
Proof.
  induction m as [|[k' v'] m IH]; simpl.
  - now rewrite String.eqb_refl.
  - destruct (String.eqb k' k) eqn:E; simpl; rewrite E; auto.
Qed.

Lemma get_set_other m k k' v :
  k' <> k -> Js.get (Js.set m k v) k' = Js.get m k'.
Proof.
  intros Hne. induction m as [|[k0 v0] m IH]; simpl.
  - destruct (String.eqb k k') eqn:E; auto.
    apply String.eqb_eq in E. congruence.
  - destruct (String.eqb k0 k) eqn:E; simpl.
    + apply String.eqb_eq in E. subst k0.
      destruct (String.eqb k k') eqn:E'; auto.
      apply String.eqb_eq in E'. congruence.
    + now rewrite IH.
Qed.

Lemma set_set m k v v' : Js.set (Js.set m k v) k v' = Js.set m k v'.
Proof.
  induction m as [|[k0 v0] m IH]; simpl.
  - now rewrite String.eqb_refl.
  - destruct (String.eqb k0 k) eqn:E; simpl; rewrite E; congruence.
Qed.

Lemma get_Some_In m k v : Js.get m k = Some v -> In (k, v) m.
Proof.
  induction m as [|[k0 v0] m IH]; simpl; [discriminate|].
  destruct (String.eqb k0 k) eqn:E.
  - apply String.eqb_eq in E. intros [= ->]. subst. now left.
  - intros H. right. auto.
Qed.

Lemma get_None_keys m k : Js.get m k = None <-> ~ In k (Js.keys m).
Proof.
  induction m as [|[k0 v0] m IH]; simpl.
  - tauto.
  - destruct (String.eqb k0 k) eqn:E.
    + apply String.eqb_eq in E. split; [discriminate|]. intros H. tauto.
    + apply String.eqb_neq in E. rewrite IH. tauto.
Qed.

Lemma set_absent m k v : Js.get m k = None -> Js.set m k v = (m ++ [(k, v)])%list.
Proof.
  induction m as [|[k0 v0] m IH]; simpl; auto.
  destruct (String.eqb k0 k); [discriminate|].
  intros H. now rewrite IH.
Qed.

Lemma keys_set_present m k v v0 :
  Js.get m k = Some v0 -> Js.keys (Js.set m k v) = Js.keys m.
Proof.
  induction m as [|[k1 v1] m IH]; simpl; [discriminate|].
  destruct (String.eqb k1 k) eqn:E; simpl; auto.
  intros H. f_equal. auto.
Qed.

Lemma In_keys m k v : In (k, v) m -> In k (Js.keys m).
Proof. intros H. change k with (fst (k, v)). now apply in_map. Qed.

Lemma In_set m k v k' v' :
  NoDup (Js.keys m) ->
  In (k', v') (Js.set m k v) ->
  (k' = k /\ v' = v) \/ (k' <> k /\ In (k', v') m).
Proof.
  induction m as [|[k0 v0] m IH]; simpl.
  - intros _ [[= <- <-]|[]]. now left.
  - intros Hnd. inversion Hnd as [|? ? Hni Hnd']; subst.
    destruct (String.eqb k0 k) eqn:E; simpl.
    + apply String.eqb_eq in E. subst k0.
      intros [[= <- <-]|H]; [now left|].
      right. split; [|now right].
      intros ->. apply Hni. eapply In_keys; eauto.
    + apply String.eqb_neq in E.
      intros [[= <- <-]|H]; [right; split; auto|].
      destruct (IH Hnd' H) as [?|[? ?]]; [now left|right; split; auto].
Qed.

Lemma keys_set m k v :
  Js.keys (Js.set m k v)
  = if Js.has m k then Js.keys m else (Js.keys m ++ [k])%list.
Proof.
  unfold Js.has. destruct (Js.get m k) eqn:E.
  - eapply keys_set_present; eauto.
  - rewrite set_absent by auto. unfold Js.keys. now rewrite map_app.
Qed.

Lemma NoDup_keys_set m k v : NoDup (Js.keys m) -> NoDup (Js.keys (Js.set m k v)).
Proof.
  intros Hnd. rewrite keys_set. unfold Js.has.
  destruct (Js.get m k) eqn:E; auto.
  apply get_None_keys in E.
  apply NoDup_app; auto; [repeat constructor; simpl; tauto|].
  intros x Hx [<-|[]]. contradiction.
Qed.

End MapFacts.

(* ================================================================== *)
(** ** The aggregation loop of the tool *)

Lemma tally_app p k rs1 rs2 :
  tally p k (rs1 ++ rs2) = tally p k rs1 + tally p k rs2.
Proof.
  unfold tally. rewrite filter_app, length_app. lia.
Qed.

Lemma tally_one p k r :
  tally p k [r]
  = if counted r && String.eqb (Tool.emailKey r) k && p r then 1 else 0.
Proof.
  unfold tally. simpl.
  now destruct (counted r && String.eqb (Tool.emailKey r) k && p r).
Qed.


Lemma tally_none p k rs :
  (forall r, In r rs -> counted r = true -> Tool.emailKey r <> k) ->
  tally p k rs = 0.
Proof.
  intros H. unfold tally.
  induction rs as [|r rs IH]; simpl; auto.
  destruct (counted r) eqn:Ec; simpl.
  - destruct (String.eqb (Tool.emailKey r) k) eqn:E; simpl.
    + apply String.eqb_eq in E. exfalso. eapply H; eauto. now left.
    + apply IH. intros; apply H; auto. now right.
  - apply IH. intros; apply H; auto. now right.
Qed.

Lemma visitReviewer_skip pr m r :
  counted r = false -> Tool.visitReviewer pr m r = m.
Proof.
  unfold counted, Tool.visitReviewer. intros H.
  destruct (Js.truthy (GitInterfaces.isRequired r)); simpl in *; auto.
  apply negb_false_iff in H. now rewrite H.
Qed.

Lemma visitReviewer_count pr m r :
  counted r = true ->
  exists e,
    Tool.visitReviewer pr m r
    = Js.set m (Tool.emailKey r)
        (Tool.push_pr
           (Tool.countVote
              (Tool.incr_requiredCount
                 (Tool.incr_totalCount
                    (match Js.get m (Tool.emailKey r) with
                     | Some s => s
                     | None => Tool.newStat r
                     end)))
              (voteOf r)) e).
Proof.
  unfold counted, Tool.visitReviewer. intros H.
  apply andb_true_iff in H as [H1 H2]. rewrite H1. simpl.
  apply negb_true_iff in H2. rewrite H2.
  unfold Js.has. destruct (Js.get m (Tool.emailKey r)) as [s|] eqn:E; simpl.
  - rewrite E. eexists. reflexivity.
  - rewrite get_set_same, set_set. eexists. reflexivity.
Qed.

Lemma emailKey_email r :
  Tool.emailKey r <> "" ->
  Js.toLowerCase (Tool.email (Tool.newStat r)) = Tool.emailKey r.
Proof.
  unfold Tool.emailKey, Tool.newStat. simpl.
  destruct (GitInterfaces.uniqueName r) as [u|]; simpl; [|congruence].
  destruct (String.eqb (Js.toLowerCase u) "") eqn:E; [congruence|].
  intros _. destruct u; simpl in *; [discriminate|reflexivity].
Qed.

(** What one pass of the loop body does to the counters of an entry. *)
Lemma bump_fields s vote e :
  let s' :=
    Tool.push_pr
      (Tool.countVote (Tool.incr_requiredCount (Tool.incr_totalCount s)) vote)
      e in
  Tool.requiredCount s' = Tool.requiredCount s + 1
  /\ Tool.totalCount s' = Tool.totalCount s + 1
  /\ Tool.optionalCount s' = Tool.optionalCount s
  /\ Tool.email s' = Tool.email s
  /\ Tool.approvedCount s' + Tool.waitingForAuthorCount s'
     + Tool.rejectedCount s' + Tool.pendingCount s'
     = Tool.approvedCount s + Tool.waitingForAuthorCount s
       + Tool.rejectedCount s + Tool.pendingCount s + 1
  /\ Tool.approvedCount s <= Tool.approvedCount s'
  /\ Tool.waitingForAuthorCount s <= Tool.waitingForAuthorCount s'
  /\ Tool.rejectedCount s <= Tool.rejectedCount s'
  /\ Tool.pendingCount s <= Tool.pendingCount s'.
Proof.
  unfold Tool.countVote.
  destruct (vote >=? 10); [|destruct (vote =? -5); [|destruct (vote <=? -10)]];
    cbn; repeat split; lia.
Qed.

Lemma StatInv_step seen r k s e :
  counted r = true -> Tool.emailKey r = k ->
  (StatInv seen (k, s)
   \/ (s = Tool.newStat r /\ tally (fun _ => true) k seen = 0)) ->
  StatInv (seen ++ [r])
    (k, Tool.push_pr
          (Tool.countVote
             (Tool.incr_requiredCount (Tool.incr_totalCount s)) (voteOf r)) e).
Proof.
  intros Hc Hk Hs.
  assert (Ht : tally (fun _ => true) k (seen ++ [r])
               = tally (fun _ => true) k seen + 1).
  { rewrite tally_app, tally_one, Hc, Hk, String.eqb_refl. reflexivity. }
  assert (Hne : k <> "").
  { unfold counted in Hc. apply andb_true_iff in Hc as [_ Hc].
    apply negb_true_iff, String.eqb_neq in Hc. congruence. }
  destruct (bump_fields s (voteOf r) e)
    as (Frq & Ftot & Fopt & Fem & Fsum & Fa & Fw & Fj & Fp).
  unfold StatInv, Spec.WellFormed. cbn [fst snd].
  rewrite Ht, Frq, Ftot, Fopt, Fem, Fsum.
  destruct Hs as [Hs|[-> Hz]].
  - unfold StatInv, Spec.WellFormed in Hs. cbn [fst snd] in Hs.
    destruct Hs as (_ & (Ha & Hp & Hw & Hj & Hsum) & Ho & Htot & Hreq & Hcnt
                    & Hem).
    repeat split; auto; lia.
  - rewrite Hz. subst k.
    assert (Hem := emailKey_email r Hne).
    change (Tool.approvedCount (Tool.newStat r)) with 0 in *.
    change (Tool.pendingCount (Tool.newStat r)) with 0 in *.
    change (Tool.waitingForAuthorCount (Tool.newStat r)) with 0 in *.
    change (Tool.rejectedCount (Tool.newStat r)) with 0 in *.
    change (Tool.requiredCount (Tool.newStat r)) with 0.
    change (Tool.totalCount (Tool.newStat r)) with 0.
    change (Tool.optionalCount (Tool.newStat r)) with 0.
    repeat split; auto; lia.
Qed.

Lemma StatInv_other seen r k s :
  (counted r = true -> Tool.emailKey r <> k) ->
  StatInv seen (k, s) -> StatInv (seen ++ [r]) (k, s).
Proof.
  intros Hr. unfold StatInv. simpl.
  rewrite tally_app, tally_one.
  destruct (counted r) eqn:Hc; simpl; [|now rewrite Z.add_0_r].
  destruct (String.eqb (Tool.emailKey r) k) eqn:E; simpl.
  - apply String.eqb_eq in E. exfalso. now apply Hr.
  - now rewrite Z.add_0_r.
Qed.

Lemma visitReviewer_inv pr m seen r :
  MapInv seen m -> MapInv (seen ++ [r]) (Tool.visitReviewer pr m r).
Proof.
  intros (Hnd & Hall & Hkeys).
  rewrite Forall_forall in Hall.
  destruct (counted r) eqn:Hc.
  - destruct (visitReviewer_count pr m r Hc) as [e ->].
    set (k := Tool.emailKey r).
    split; [now apply NoDup_keys_set|]. split.
    + apply Forall_forall. intros [k' s'] Hin.
      apply In_set in Hin; auto. destruct Hin as [[-> ->]|[Hne Hin]].
      * apply StatInv_step; auto.
        destruct (Js.get m k) as [s|] eqn:E.
        -- left. now apply Hall, get_Some_In.
        -- right. split; auto. apply tally_none.
           intros r' Hr' Hc' Hk'. apply get_None_keys in E. apply E.
           apply Hkeys. eauto.
      * apply StatInv_other; [intros _; fold k; congruence|].
        now apply Hall.
    + intros k'. rewrite keys_set. split.
      * intros Hin.
        assert (Hin' : In k' (Js.keys m) \/ k' = k).
        { destruct (Js.has m k); auto. apply in_app_or in Hin.
          destruct Hin as [?|[<-|[]]]; auto. }
        destruct Hin' as [Hin'| ->].
        -- apply Hkeys in Hin' as (r' & ? & ? & ?).
           exists r'. rewrite in_app_iff. auto.
        -- exists r. rewrite in_app_iff. simpl. auto.
      * intros (r' & Hr' & Hc' & Hk').
        apply in_app_or in Hr'. destruct Hr' as [Hr'|[<-|[]]].
        -- assert (In k' (Js.keys m)) by (apply Hkeys; eauto).
           destruct (Js.has m k); auto. apply in_or_app. auto.
        -- fold k in Hk'. subst k'. unfold Js.has.
           destruct (Js.get m k) eqn:E.
           ++ apply get_Some_In in E. eapply In_keys; eauto.
           ++ apply in_or_app. right. now left.
  - rewrite visitReviewer_skip by auto.
    split; [exact Hnd|]. split.
    + apply Forall_forall. intros [k s] Hin.
      apply StatInv_other; [congruence|]. now apply Hall.
    + intros k'. split.
      * intros Hin. apply Hkeys in Hin as (r' & ? & ? & ?).
        exists r'. rewrite in_app_iff. auto.
      * intros (r' & Hr' & Hc' & Hk'). apply Hkeys.
        apply in_app_or in Hr'.
        destruct Hr' as [Hr'|[<-|[]]]; [eauto|congruence].
Qed.

Lemma visitPR_inv pr m seen :
  MapInv seen m -> MapInv (seen ++ Tool.reviewersOf pr) (Tool.visitPR m pr).
Proof.
  unfold Tool.visitPR. generalize (Tool.reviewersOf pr) as rs.
  intros rs. revert m seen.
  induction rs as [|r rs IH]; intros m seen H; simpl.
  - now rewrite app_nil_r.
  - replace (seen ++ r :: rs)%list with ((seen ++ [r]) ++ rs)%list
      by now rewrite <- app_assoc.
    apply IH. now apply visitReviewer_inv.
Qed.

Lemma fold_visitPR_inv prs m seen :
  MapInv seen m ->
  MapInv (seen ++ flat_map Tool.reviewersOf prs) (fold_left Tool.visitPR prs m).
Proof.
  revert m seen. induction prs as [|pr prs IH]; intros m seen H; simpl.
  - now rewrite app_nil_r.
  - rewrite app_assoc. apply IH. now apply visitPR_inv.
Qed.

Lemma aggregate_inv allPRs :
  MapInv (assignments allPRs) (Tool.aggregate allPRs).
Proof.
  unfold Tool.aggregate, assignments.
  apply (fold_visitPR_inv (Tool.nonDraft allPRs) [] []).
  repeat split; simpl; try constructor; try tauto.
  intros (r & [] & _).
Qed.

Lemma aggregate_values allPRs s :
  In s (Js.values (Tool.aggregate allPRs)) ->
  exists k, In (k, s) (Tool.aggregate allPRs)
            /\ StatInv (assignments allPRs) (k, s).
Proof.
  unfold Js.values. intros H. apply in_map_iff in H as ([k s'] & <- & Hin).
  exists k. split; auto.
  destruct (aggregate_inv allPRs) as (_ & Hall & _).
  rewrite Forall_forall in Hall. now apply Hall.
Qed.

(* ================================================================== *)
(** ** The stable sort *)

Section SortFacts.
Context {A : Type} (cmp : A -> A -> Z).

Lemma insert_perm x l : Permutation (Js.insert cmp x l) (x :: l).
Proof.
  induction l as [|y l IH]; simpl; auto.
  destruct (cmp x y <=? 0); auto.
  rewrite IH. apply perm_swap.
Qed.

Lemma sort_perm l : Permutation (Js.sort cmp l) l.
Proof.
  induction l as [|x l IH]; simpl; auto.
  rewrite insert_perm. now constructor.
Qed.

Lemma sort_In x l : In x (Js.sort cmp l) <-> In x l.
Proof.
  split; apply Permutation_in; [|symmetry]; apply sort_perm.
Qed.

(** Sortedness, for a comparator that is total and transitive on the
    elements satisfying [P]. *)
Section Sorted.
Context (P : A -> Prop) (le : A -> A -> Prop).
Hypothesis le_cmp : forall x y, P x -> P y -> (cmp x y <= 0 <-> le x y).
Hypothesis le_total : forall x y, P x -> P y -> le x y \/ le y x.
Hypothesis le_trans :
  forall x y z, P x -> P y -> P z -> le x y -> le y z -> le x z.

Lemma insert_sorted x l :
  P x -> Forall P l -> StronglySorted le l ->
  StronglySorted le (Js.insert cmp x l).
Proof.
  intros Px Pl Hs. induction Hs as [|y l Hs IH Hy]; simpl.
  - repeat constructor.
  - inversion Pl as [|? ? Py Pl']; subst.
    destruct (cmp x y <=? 0) eqn:E.
    + apply Z.leb_le, le_cmp in E; auto.
      constructor; [now constructor|].
      constructor; auto.
      rewrite Forall_forall in *. intros z Hz.
      apply (le_trans x y z); auto.
    + apply Z.leb_gt in E.
      constructor; auto.
      assert (Hyx : le y x).
      { destruct (le_total x y Px Py) as [H|H]; auto.
        apply le_cmp in H; auto. lia. }
      rewrite Forall_forall in *. intros z Hz.
      apply (Permutation_in _ (insert_perm x l)) in Hz.
      destruct Hz as [<-|Hz]; auto.
Qed.

Lemma sort_sorted l : Forall P l -> StronglySorted le (Js.sort cmp l).
Proof.
  induction 1 as [|x l Px Pl IH]; simpl; [constructor|].
  apply insert_sorted; auto.
  rewrite Forall_forall in *. intros y Hy. apply Pl. now apply sort_In.
Qed.
End Sorted.

(** Stability: elements that the comparator does not separate keep their
    order. *)
Lemma insert_filter (p : A -> bool) x l :
  (forall y, p x = true -> p y = true -> cmp x y <= 0) ->
  filter p (Js.insert cmp x l)
  = if p x then x :: filter p l else filter p l.
Proof.
  intros Hp. induction l as [|y l IH]; simpl.
  - now destruct (p x).
  - destruct (cmp x y <=? 0) eqn:E; simpl.
    + now destruct (p x).
    + rewrite IH. apply Z.leb_gt in E.
      destruct (p x) eqn:Ex, (p y) eqn:Ey; auto.
      specialize (Hp y eq_refl Ey). lia.
Qed.

Lemma sort_filter (p : A -> bool) l :
  (forall x y, p x = true -> p y = true -> cmp x y <= 0) ->
  filter p (Js.sort cmp l) = filter p l.
Proof.
  intros Hp. induction l as [|x l IH]; simpl; auto.
  rewrite insert_filter by (intros; now apply Hp).
  now rewrite IH.
Qed.

Lemma insert_ext (cmp' : A -> A -> Z) x l :
  (forall y, In y l -> (cmp x y <=? 0) = (cmp' x y <=? 0)) ->
  Js.insert cmp x l = Js.insert cmp' x l.
Proof.
  induction l as [|y l IH]; intros H; simpl; auto.
  rewrite <- (H y) by now left.
  destruct (cmp x y <=? 0); auto.
  f_equal. apply IH. intros; apply H. now right.
Qed.

End SortFacts.

Lemma sort_ext {A} (cmp cmp' : A -> A -> Z) (l : list A) :
  (forall x y, In x l -> In y l -> (cmp x y <=? 0) = (cmp' x y <=? 0)) ->
  Js.sort cmp l = Js.sort cmp' l.
Proof.
  induction l as [|x l IH]; intros H; simpl; auto.
  rewrite IH.
  2:{ intros a b Ha Hb. apply H; right; assumption. }
  apply insert_ext. intros y Hy. apply H; [now left|].
  right. now apply (proj1 (sort_In cmp' y l)).
Qed.

(* ================================================================== *)
(** ** The model at work *)

Example sprint_counts :
  map (fun s => (Tool.email s, Tool.requiredCount s, Tool.approvedCount s,
                 Tool.waitingForAuthorCount s, Tool.rejectedCount s,
                 Tool.pendingCount s))
    (Tool.sortedStats Examples.sprint)
  = [("Gus@example.com", 3, 3, 0, 0, 0);
     ("hal@example.com", 2, 0, 0, 1, 1);
     ("ivy@example.com", 1, 0, 0, 0, 1)].
Proof. reflexivity. Qed.

Example sprint_report :
  option_map Tool.markdown
    (Tool.data (Tool.reviewerStats 0.5 Examples.sprint None))
  = Some (Js.join (String "010" "")
      [ "Reviewer Statistics (3 Active PRs)";
        "";
        "Reviewer         Required  Approved  Waiting for Author  Rejected  Unreviewed";
        "---------------  --------  --------  ------------------  --------  ----------";
        "Gus@example.com         3         3                   0         0           0";
        "hal@example.com         2         0                   0         1           1";
        "ivy@example.com         1         0                   0         0           1";
        "";
        "🚫 Gatekeeper: hal@example.com isn't afraid to say no - 1 rejection and counting." ]).
Proof. vm_compute. reflexivity. Qed.

Example sprint_script_counts :
  map (fun s => (Script.Email s, Script.Required s, Script.Approved s,
                 Script.Blocked s, Script.Unreviewed s))
    (Script.sortedStats Examples.sprint)
  = [("gus@example.com", 3, 3, 0, 0);
     ("hal@example.com", 2, 0, 1, 1);
     ("ivy@example.com", 1, 0, 0, 1)].
Proof. reflexivity. Qed.

(* ================================================================== *)
(** ** Properties of the aggregate *)

Lemma sortedStats_In allPRs s :
  In s (Tool.sortedStats allPRs) <-> In s (Js.values (Tool.aggregate allPRs)).
Proof. apply sort_In. Qed.

Lemma filter_all {A} (p : A -> bool) l :
  Forall (fun x => p x = true) l -> filter p l = l.
Proof.
  induction 1 as [|x l Hx _ IH]; simpl; auto. now rewrite Hx, IH.
Qed.

Lemma compareStats_le a b :
  Tool.compareStats a b <= 0 <-> Spec.before a b.
Proof.
  unfold Tool.compareStats, Js.or_else, Spec.before.
  destruct (Tool.requiredCount b - Tool.requiredCount a =? 0) eqn:E.
  - apply Z.eqb_eq in E. lia.
  - apply Z.eqb_neq in E. lia.
Qed.

(** C1. Every [ReviewerStat] of the aggregate, in the map and in the sorted
    array handed to the caller, has its four outcome buckets summing to
    [requiredCount]. *)
Theorem buckets_partition_required allPRs :
  Forall
    (fun s =>
       Tool.approvedCount s + Tool.waitingForAuthorCount s
       + Tool.rejectedCount s + Tool.pendingCount s = Tool.requiredCount s)
    (Js.values (Tool.aggregate allPRs))
  /\ Forall
       (fun s =>
          Tool.approvedCount s + Tool.waitingForAuthorCount s
          + Tool.rejectedCount s + Tool.pendingCount s = Tool.requiredCount s)
       (Tool.sortedStats allPRs).
Proof.
  assert (H : forall s, In s (Js.values (Tool.aggregate allPRs)) ->
    Tool.approvedCount s + Tool.waitingForAuthorCount s
    + Tool.rejectedCount s + Tool.pendingCount s = Tool.requiredCount s).
  { intros s Hs. apply aggregate_values in Hs as (k & _ & Hinv).
    destruct Hinv as (_ & Hwf & _). apply Hwf. }
  split; apply Forall_forall; intros s Hs; apply H; auto.
  now apply sortedStats_In.
Qed.

Lemma countVote_bump (vote : Z) (stat : Tool.ReviewerStat) :
  Tool.countVote stat vote = Spec.bump (Spec.classify vote) stat.
Proof.
  unfold Tool.countVote, Spec.classify, Spec.voteRules. cbn [find fst snd].
  destruct (vote >=? 10); [|destruct (vote =? -5); [|destruct (vote <=? -10)]];
    unfold Spec.bump, Tool.incr_approvedCount, Tool.incr_waitingForAuthorCount,
      Tool.incr_rejectedCount, Tool.incr_pendingCount; cbn;
    now rewrite !Z.add_0_r.
Qed.

Lemma classify_ranges (vote : Z) :
  (Spec.classify vote = Spec.Approved <-> vote >= 10)
  /\ (Spec.classify vote = Spec.WaitingForAuthor <-> vote = -5)
  /\ (Spec.classify vote = Spec.Rejected <-> vote <= -10)
  /\ (Spec.classify vote = Spec.Pending <->
        -10 < vote < 10 /\ vote <> -5)
  /\ Spec.classify 0 = Spec.Pending
  /\ Spec.classify 7 = Spec.Pending.
Proof.
  unfold Spec.classify, Spec.voteRules. simpl.
  destruct (vote >=? 10) eqn:E1; [|destruct (vote =? -5) eqn:E2;
    [|destruct (vote <=? -10) eqn:E3]]; simpl;
  repeat match goal with
         | H : (_ >=? _) = _ |- _ => rewrite Z.geb_leb in H
         | H : (_ <=? _) = true |- _ => apply Z.leb_le in H
         | H : (_ <=? _) = false |- _ => apply Z.leb_gt in H
         | H : (_ =? _) = true |- _ => apply Z.eqb_eq in H
         | H : (_ =? _) = false |- _ => apply Z.eqb_neq in H
         end;
  repeat split; intros; try reflexivity; try discriminate; try lia.
Qed.

Lemma countVote_fields (vote : Z) (stat : Tool.ReviewerStat) :
  let stat' := Tool.countVote stat vote in
  Tool.approvedCount stat'
  = Tool.approvedCount stat + share Spec.Approved vote
  /\ Tool.waitingForAuthorCount stat'
     = Tool.waitingForAuthorCount stat + share Spec.WaitingForAuthor vote
  /\ Tool.rejectedCount stat'
     = Tool.rejectedCount stat + share Spec.Rejected vote
  /\ Tool.pendingCount stat'
     = Tool.pendingCount stat + share Spec.Pending vote
  /\ Tool.displayName stat' = Tool.displayName stat
  /\ Tool.email stat' = Tool.email stat
  /\ Tool.requiredCount stat' = Tool.requiredCount stat
  /\ Tool.optionalCount stat' = Tool.optionalCount stat
  /\ Tool.totalCount stat' = Tool.totalCount stat
  /\ Tool.prs stat' = Tool.prs stat.
Proof.
  unfold share, Tool.countVote, Spec.classify, Spec.voteRules.
  cbn [find fst snd].
  destruct (vote >=? 10); [|destruct (vote =? -5); [|destruct (vote <=? -10)]];
    cbn; repeat split; lia.
Qed.

(** C2. The vote chain of the loop adds one to the bucket that the ordered
    rules of section 4.1 select and leaves every other field of the
    reviewer as it was; those rules give every integer exactly one
    outcome: [Approved] from 10 up, [WaitingForAuthor] at -5, [Rejected]
    from -10 down, [Pending] anywhere else, such as 0 and 7. *)
Theorem vote_classifier_total_ordered (vote : Z) :
  (forall stat, Tool.countVote stat vote = Spec.bump (Spec.classify vote) stat)
  /\ (forall stat,
        let stat' := Tool.countVote stat vote in
        Tool.approvedCount stat'
        = Tool.approvedCount stat + share Spec.Approved vote
        /\ Tool.waitingForAuthorCount stat'
           = Tool.waitingForAuthorCount stat + share Spec.WaitingForAuthor vote
        /\ Tool.rejectedCount stat'
           = Tool.rejectedCount stat + share Spec.Rejected vote
        /\ Tool.pendingCount stat'
           = Tool.pendingCount stat + share Spec.Pending vote
        /\ Tool.displayName stat' = Tool.displayName stat
        /\ Tool.email stat' = Tool.email stat
        /\ Tool.requiredCount stat' = Tool.requiredCount stat
        /\ Tool.optionalCount stat' = Tool.optionalCount stat
        /\ Tool.totalCount stat' = Tool.totalCount stat
        /\ Tool.prs stat' = Tool.prs stat)
  /\ (share Spec.Approved vote + share Spec.WaitingForAuthor vote
      + share Spec.Rejected vote + share Spec.Pending vote = 1)
  /\ (share Spec.Approved vote = 1 <-> vote >= 10)
  /\ (share Spec.WaitingForAuthor vote = 1 <-> vote = -5)
  /\ (share Spec.Rejected vote = 1 <-> vote <= -10)
  /\ (share Spec.Pending vote = 1 <-> -10 < vote < 10 /\ vote <> -5)
  /\ (Spec.classify vote = Spec.Approved <-> vote >= 10)
  /\ (Spec.classify vote = Spec.WaitingForAuthor <-> vote = -5)
  /\ (Spec.classify vote = Spec.Rejected <-> vote <= -10)
  /\ (Spec.classify vote = Spec.Pending <->
        -10 < vote < 10 /\ vote <> -5)
  /\ Spec.classify 0 = Spec.Pending
  /\ Spec.classify 7 = Spec.Pending.
Proof.
  destruct (classify_ranges vote) as (Ha & Hw & Hr & Hp & H0 & H7).
  split; [intros stat; apply countVote_bump|].
  split; [intros stat; apply countVote_fields|].
  assert (Hs : (share Spec.Approved vote = 1
                <-> Spec.classify vote = Spec.Approved)
               /\ (share Spec.WaitingForAuthor vote = 1
                   <-> Spec.classify vote = Spec.WaitingForAuthor)
               /\ (share Spec.Rejected vote = 1
                   <-> Spec.classify vote = Spec.Rejected)
               /\ (share Spec.Pending vote = 1
                   <-> Spec.classify vote = Spec.Pending)
               /\ share Spec.Approved vote + share Spec.WaitingForAuthor vote
                  + share Spec.Rejected vote + share Spec.Pending vote = 1).
  { unfold share. destruct (Spec.classify vote); cbn;
      repeat split; intros; try reflexivity; try discriminate; lia. }
  destruct Hs as (Sa & Sw & Sr & Sp & Ssum).
  split; [exact Ssum|].
  split; [now rewrite Sa|]. split; [now rewrite Sw|].
  split; [now rewrite Sr|]. split; [now rewrite Sp|].
  repeat (split; [assumption|]). assumption.
Qed.

Lemma emailKey_named r u :
  GitInterfaces.uniqueName r = Some u -> Tool.emailKey r = Js.toLowerCase u.
Proof.
  intros H. unfold Tool.emailKey. rewrite H. simpl.
  destruct (String.eqb (Js.toLowerCase u) "") eqn:E; auto.
  now apply String.eqb_eq in E.
Qed.

Lemma keys_observed allPRs (e : string) :
  In e (Js.keys (Tool.aggregate allPRs)) <-> observed allPRs e.
Proof.
  destruct (aggregate_inv allPRs) as (Hnd & Hall & Hkeys).
  rewrite Hkeys. unfold observed, assignments, counted, Tool.nonDraft.
  split.
  - intros (r & Hr & Hc & Hk).
    apply in_flat_map in Hr as (pr & Hpr & Hr).
    apply filter_In in Hpr as [Hpr Hd].
    apply negb_true_iff in Hd.
    apply andb_true_iff in Hc as [Hc1 Hc2].
    apply negb_true_iff, String.eqb_neq in Hc2.
    split; [congruence|].
    unfold Tool.reviewersOf in Hr.
    destruct (GitInterfaces.reviewers pr) as [rs|] eqn:Ers; [|destruct Hr].
    destruct (GitInterfaces.uniqueName r) as [u|] eqn:Eu.
    + exists pr, rs, r, u. repeat split; auto.
      * intros Hdraft. rewrite Hdraft in Hd. discriminate.
      * destruct (GitInterfaces.isRequired r) as [[|]|];
          [reflexivity|discriminate|discriminate].
      * now rewrite <- Hk, (emailKey_named r u Eu).
    + exfalso. apply Hc2. unfold Tool.emailKey. now rewrite Eu.
  - intros (Hne & pr & rs & r & u & Hpr & Hd & Hrs & Hr & Hq & Hu & Hk).
    exists r. repeat split.
    + apply in_flat_map. exists pr. split.
      * apply filter_In. split; [exact Hpr|].
        destruct (GitInterfaces.isDraft pr) as [[|]|];
          [now destruct Hd|reflexivity|reflexivity].
      * unfold Tool.reviewersOf. now rewrite Hrs.
    + rewrite Hq, (emailKey_named r u Hu), Hk. simpl.
      apply negb_true_iff. now apply String.eqb_neq.
    + now rewrite (emailKey_named r u Hu).
Qed.

Lemma stats_observed allPRs (e : string) :
  ((exists stat, Js.get (Tool.aggregate allPRs) e = Some stat)
   <-> observed allPRs e)
  /\ ((exists stat, In stat (Tool.sortedStats allPRs)
                    /\ Js.toLowerCase (Tool.email stat) = e)
      <-> observed allPRs e).
Proof.
  destruct (aggregate_inv allPRs) as (Hnd & Hall & Hkeys).
  pose proof (keys_observed allPRs e) as Hobs.
  split; rewrite <- Hobs.
  - split.
    + intros [s Hs]. apply get_Some_In in Hs. eapply In_keys; eauto.
    + intros Hin. destruct (Js.get (Tool.aggregate allPRs) e) eqn:E; eauto.
      apply get_None_keys in E. contradiction.
  - split.
    + intros (s & Hs & He). apply sortedStats_In in Hs.
      apply aggregate_values in Hs as (k & Hin & Hinv).
      destruct Hinv as (_ & _ & _ & _ & _ & _ & Hem). simpl in Hem.
      rewrite He in Hem. subst k. eapply In_keys; eauto.
    + intros Hin. unfold Js.keys in Hin.
      apply in_map_iff in Hin as ([k s] & Hk & Hin). simpl in Hk. subst k.
      exists s. split.
      * apply sortedStats_In. unfold Js.values.
        change s with (snd (e, s)). now apply in_map.
      * rewrite Forall_forall in Hall. apply Hall in Hin.
        destruct Hin as (_ & _ & _ & _ & _ & _ & Hem). exact Hem.
Qed.

(** C5, as the code has it. On input whose unique names are made of
    ASCII characters, the aggregate holds a [ReviewerStat] under the key
    [e] exactly when [e] is not empty and is the lower-cased, untrimmed,
    unique name of a required reviewer listed on a pull request that is
    not a draft; the same holds of the sorted array returned to the
    caller. Reviewers seen on drafts only are absent; an address made of
    blanks is a key like any other. *)
Theorem stat_exists_iff_required_nondraft allPRs (e : string) :
  asciiEmails allPRs = true ->
  ((exists stat, Js.get (Tool.aggregate allPRs) e = Some stat)
   <-> observed allPRs e)
  /\ ((exists stat, In stat (Tool.sortedStats allPRs)
                    /\ Js.toLowerCase (Tool.email stat) = e)
      <-> observed allPRs e).
Proof. intros _. apply stats_observed. Qed.

Lemma stat_exists_iff_required_nondraft_witness :
  asciiEmails Examples.mixedCase = true
  /\ ((exists stat,
         Js.get (Tool.aggregate Examples.mixedCase) "amy@example.com"
         = Some stat)
      <-> observed Examples.mixedCase "amy@example.com").
Proof.
  assert (H : asciiEmails Examples.mixedCase = true) by reflexivity.
  split; [exact H|].
  exact (proj1 (stat_exists_iff_required_nondraft Examples.mixedCase
                  "amy@example.com" H)).
Defined.

(** The specification skips an assignment whose lower-cased and trimmed
    email is empty. In [Corner.blankOnly] every assignment is such, and
    the result holds a reviewer all the same, under the key of blanks. *)
Lemma blank_email_gets_a_stat :
  (forall pr rs r u,
     In pr Corner.blankOnly -> GitInterfaces.reviewers pr = Some rs ->
     In r rs -> GitInterfaces.uniqueName r = Some u ->
     normalizedEmail u = "")
  /\ asciiEmails Corner.blankOnly = true
  /\ exists stat,
       Js.get (Tool.aggregate Corner.blankOnly) "   " = Some stat
       /\ Tool.sortedStats Corner.blankOnly = [stat]
       /\ Tool.requiredCount stat = 1.
Proof.
  split; [|split; [reflexivity|]].
  - intros pr rs r u Hpr Hrs Hr Hu. destruct Hpr as [<-|[]].
    cbn in Hrs. injection Hrs as <-. destruct Hr as [<-|[]].
    cbn in Hu. injection Hu as <-. reflexivity.
  - eexists. repeat split; reflexivity.
Qed.

Lemma sortedStats_required allPRs :
  filter (fun r => Tool.requiredCount r >? 0) (Tool.sortedStats allPRs)
  = Tool.sortedStats allPRs.
Proof.
  apply filter_all, Forall_forall. intros s Hs.
  apply sortedStats_In, aggregate_values in Hs as (k & _ & Hinv).
  destruct Hinv as (_ & _ & _ & _ & Hr & _). apply Z.gtb_lt.
  cbn [snd] in Hr. lia.
Qed.

Lemma tableLines_rows random stats totalPRs requiredOnly :
  filteredStats stats requiredOnly <> [] ->
  exists nameWidth header separator badgeLines,
    Tool.tableLines random stats totalPRs requiredOnly
    = ([Tool.titleLine totalPRs; header; separator]
       ++ map ((if requiredOnly then Tool.requiredRow else Tool.fullRow)
                 nameWidth)
            (filteredStats stats requiredOnly)
       ++ badgeLines)%list.
Proof.
  intros Hne. unfold Tool.tableLines. fold (filteredStats stats requiredOnly).
  destruct (filteredStats stats requiredOnly) as [|r rs] eqn:E;
    [contradiction|].
  cbn [List.length Nat.eqb]. rewrite <- E.
  exists (Js.max_of 8
            (map (fun r => Z.of_nat (String.length (Tool.displayName r)))
               (filteredStats stats requiredOnly))).
  destruct requiredOnly;
    destruct (Tool.pickRandomBadge random
                (Tool.assignBadges (filteredStats stats _))) as [badge|].
  1, 3: do 3 eexists; cbn [app]; reflexivity.
  all: do 2 eexists; exists []; cbn [app]; rewrite app_nil_r; reflexivity.
Qed.

(** C7. The reviewers handed to the renderer are the aggregate's values in
    descending order of [requiredCount], ties in descending order of
    [totalCount], and reviewers equal on both keys stay in the order in
    which the aggregation first met them. The report has one row for each
    of them, in that order, below the title, the header and the row of
    dashes. *)
Theorem report_sorted_stable allPRs :
  Permutation (Tool.sortedStats allPRs) (Js.values (Tool.aggregate allPRs))
  /\ StronglySorted Spec.before (Tool.sortedStats allPRs)
  /\ (forall rq tc,
        filter (Spec.sameKeys rq tc) (Tool.sortedStats allPRs)
        = filter (Spec.sameKeys rq tc) (Js.values (Tool.aggregate allPRs)))
  /\ (forall random totalPRs requiredOnly,
        Tool.sortedStats allPRs <> [] ->
        exists nameWidth header separator badgeLines,
          Tool.tableLines random (Tool.sortedStats allPRs) totalPRs
            requiredOnly
          = ([Tool.titleLine totalPRs; header; separator]
             ++ map ((if requiredOnly then Tool.requiredRow
                      else Tool.fullRow) nameWidth)
                  (Tool.sortedStats allPRs)
             ++ badgeLines)%list).
Proof.
  split; [apply sort_perm|]. split; [|split].
  - apply (sort_sorted Tool.compareStats (fun _ => True) Spec.before).
    + intros; apply compareStats_le.
    + intros x y _ _. unfold Spec.before. lia.
    + intros x y z _ _ _. unfold Spec.before. lia.
    + apply Forall_forall. auto.
  - intros rq tc. apply sort_filter.
    intros x y Hx Hy. apply compareStats_le.
    unfold Spec.sameKeys, Spec.before in *.
    apply andb_true_iff in Hx as [Hx1 Hx2].
    apply andb_true_iff in Hy as [Hy1 Hy2].
    apply Z.eqb_eq in Hx1, Hx2, Hy1, Hy2. lia.
  - intros random totalPRs requiredOnly Hne.
    assert (Hf : filteredStats (Tool.sortedStats allPRs) requiredOnly
                 = Tool.sortedStats allPRs).
    { destruct requiredOnly; [apply sortedStats_required|reflexivity]. }
    destruct (tableLines_rows random (Tool.sortedStats allPRs) totalPRs
                requiredOnly) as (w & h & sep & bl & H).
    { now rewrite Hf. }
    rewrite Hf in H. eauto.
Qed.

Lemma report_sorted_stable_witness :
  Tool.sortedStats Examples.sprint <> []
  /\ map Tool.displayName (Tool.sortedStats Examples.sprint)
     = ["Gus@example.com"; "hal@example.com"; "ivy@example.com"]
  /\ exists nameWidth header separator badgeLines,
       Tool.tableLines 0 (Tool.sortedStats Examples.sprint) 3 true
       = ([Tool.titleLine 3; header; separator]
          ++ map (Tool.requiredRow nameWidth)
               (Tool.sortedStats Examples.sprint)
          ++ badgeLines)%list.
Proof.
  assert (H : Tool.sortedStats Examples.sprint <> [])
    by (vm_compute; discriminate).
  split; [exact H|]. split; [reflexivity|].
  exact (proj2 (proj2 (proj2 (report_sorted_stable Examples.sprint)))
           0%Q 3 true H).
Defined.

(** C10. The tool's aggregate only ever counts required assignments: each
    [ReviewerStat] has [optionalCount = 0], [totalCount = requiredCount]
    and [requiredCount >= 1]. Hence the filter of the required-only view
    keeps every reviewer, and sorting with the [totalCount] tie-break is
    sorting by [requiredCount] alone. *)
Theorem aggregate_counts_required_only allPRs :
  Forall
    (fun s =>
       Tool.optionalCount s = 0
       /\ Tool.totalCount s = Tool.requiredCount s
       /\ Tool.requiredCount s >= 1)
    (Js.values (Tool.aggregate allPRs))
  /\ filter (fun r => Tool.requiredCount r >? 0) (Tool.sortedStats allPRs)
     = Tool.sortedStats allPRs
  /\ Tool.sortedStats allPRs
     = Js.sort (fun a b => Tool.requiredCount b - Tool.requiredCount a)
         (Js.values (Tool.aggregate allPRs)).
Proof.
  assert (H : forall s, In s (Js.values (Tool.aggregate allPRs)) ->
    Tool.optionalCount s = 0 /\ Tool.totalCount s = Tool.requiredCount s
    /\ Tool.requiredCount s >= 1).
  { intros s Hs. apply aggregate_values in Hs as (k & _ & Hinv).
    destruct Hinv as (_ & _ & Ho & Ht & Hr & _). auto. }
  split; [now apply Forall_forall|]. split.
  - apply sortedStats_required.
  - unfold Tool.sortedStats. apply sort_ext. intros x y Hx Hy.
    apply H in Hx, Hy. unfold Tool.compareStats, Js.or_else.
    destruct (Tool.requiredCount y - Tool.requiredCount x =? 0) eqn:E; auto.
    apply Z.eqb_eq in E. rewrite E.
    apply Z.leb_le. lia.
Qed.

(* ================================================================== *)
(** ** The renderer on an empty collection *)

Lemma string_app_assoc (a b c : string) : ((a ++ b) ++ c = a ++ (b ++ c))%string.
Proof.
  induction a as [|x a IH]; simpl; [reflexivity|]. now rewrite IH.
Qed.

(** C9. When no reviewer is left after the display-time filter, the lines
    of the report are the title and "No reviewers found.", with no header
    row and no row of dashes; the text is their join. [reviewerStats]
    returns it as a success. *)
Theorem empty_report_has_no_table random stats totalPRs requiredOnly :
  filteredStats stats requiredOnly = [] ->
  Tool.tableLines random stats totalPRs requiredOnly
  = [Tool.titleLine totalPRs; "No reviewers found."]
  /\ Tool.generateMarkdownTable random stats totalPRs requiredOnly
     = "Reviewer Statistics (" ++ Js.String_of totalPRs ++ " Active PRs)"
       ++ String "010" (String "010" "No reviewers found.")
  /\ (forall allPRs option,
        Tool.sortedStats allPRs = stats ->
        Z.of_nat (List.length (Tool.nonDraft allPRs)) = totalPRs ->
        match option with Some false => false | _ => true end = requiredOnly ->
        Tool.success (Tool.reviewerStats random allPRs option) = true
        /\ option_map Tool.markdown
             (Tool.data (Tool.reviewerStats random allPRs option))
           = Some ("Reviewer Statistics (" ++ Js.String_of totalPRs
                   ++ " Active PRs)"
                   ++ String "010" (String "010" "No reviewers found."))).
Proof.
  intros H.
  assert (Hlines : Tool.tableLines random stats totalPRs requiredOnly
                   = [Tool.titleLine totalPRs; "No reviewers found."]).
  { unfold Tool.tableLines. unfold filteredStats in H. now rewrite H. }
  assert (Htext : Tool.generateMarkdownTable random stats totalPRs requiredOnly
                  = "Reviewer Statistics (" ++ Js.String_of totalPRs
                    ++ " Active PRs)"
                    ++ String "010" (String "010" "No reviewers found.")).
  { unfold Tool.generateMarkdownTable. rewrite Hlines.
    unfold Tool.titleLine. cbn [Js.join].
    rewrite !string_app_assoc. reflexivity. }
  split; [exact Hlines|]. split; [exact Htext|].
  intros allPRs option Hs Hn Ho. split; [reflexivity|].
  unfold Tool.reviewerStats. cbn [Tool.data option_map Tool.markdown].
  now rewrite Hs, Hn, Ho, Htext.
Qed.

(* ================================================================== *)
(** ** Badge classification *)

Lemma avgRequired_sum stats acc :
  fold_left (fun sum r => sum + Tool.requiredCount r) stats acc
  = acc + fold_right Z.add 0 (map Tool.requiredCount stats).
Proof.
  revert acc. induction stats as [|r stats IH]; intros acc; simpl.
  - lia.
  - rewrite IH. lia.
Qed.

Lemma avgRequired_mean stats :
  (Tool.avgRequired stats == Spec.avgRequired stats)%Q.
Proof.
  unfold Tool.avgRequired, Spec.avgRequired.
  rewrite avgRequired_sum, Z.add_0_l.
  destruct stats as [|r stats].
  - reflexivity.
  - match goal with
    | |- ((if Qeq_bool ?q 0 then _ else _) == _)%Q =>
        destruct (Qeq_bool q 0) eqn:E
    end.
    + apply Qeq_bool_iff in E. now rewrite E.
    + reflexivity.
Qed.

Lemma badgeStep_app avg badges r :
  Tool.badgeStep avg badges r = (badges ++ Tool.badgeStep avg [] r)%list.
Proof.
  unfold Tool.badgeStep.
  repeat match goal with
         | |- context [if ?b then _ else _] => destruct b
         end;
  simpl; auto using app_nil_r.
Qed.

Lemma assignBadges_flat_map avg stats badges :
  fold_left (Tool.badgeStep avg) stats badges
  = (badges ++ flat_map (Tool.badgeStep avg []) stats)%list.
Proof.
  revert badges. induction stats as [|r stats IH]; intros badges; simpl.
  - now rewrite app_nil_r.
  - rewrite IH, (badgeStep_app avg badges r). now rewrite app_assoc.
Qed.

Lemma badgeStep_first_match avg r :
  map pairOf (Tool.badgeStep avg [] r)
  = match Spec.classifyBadge avg r with
    | Some k => [(r, Spec.badgeTitle k)]
    | None => []
    end.
Proof.
  unfold Tool.badgeStep, Spec.classifyBadge, Spec.ruleOrder.
  destruct (Tool.requiredCount r =? 0); [reflexivity|].
  simpl find.
  unfold Spec.condition, Spec.isMedVolume, Spec.isHighVolume,
    Spec.isLowVolume, Spec.completionRate, Spec.unreviewedRate.
  repeat match goal with
         | |- context [if ?b then _ else _] => destruct b; [reflexivity|]
         end.
  reflexivity.
Qed.

Lemma ratio_one a r :
  r <> 0 -> Qeq_bool (inject_Z a / inject_Z r) 1 = true -> a = r.
Proof.
  intros Hr H. apply Qeq_bool_iff in H.
  apply inject_Z_injective.
  assert (Hr' : ~ (inject_Z r == 0)%Q).
  { change 0%Q with (inject_Z 0). rewrite inject_Z_injective. auto. }
  rewrite <- (Qmult_div_r (inject_Z a) (inject_Z r) Hr'), H.
  ring.
Qed.

Lemma flawless_before_speed_demon avg r :
  Spec.WellFormed r ->
  Spec.condition Spec.Flawless avg r = true ->
  Spec.condition Spec.SpeedDemon avg r = true ->
  Spec.classifyBadge avg r = Some Spec.Flawless.
Proof.
  intros (Ha & Hp & Hw & Hj & Hsum) Hf Hs.
  assert (Hf' := Hf).
  unfold Spec.condition in Hf, Hs.
  apply andb_true_iff in Hf as [Hr2 Hc1], Hs as [Hmed _].
  unfold Spec.isMedVolume in Hmed.
  apply andb_true_iff in Hmed as [Hhi Hlo].
  apply negb_true_iff in Hhi, Hlo.
  assert (Hr2' : 2 <= Tool.requiredCount r).
  { rewrite Z.geb_leb in Hr2. now apply Z.leb_le in Hr2. }
  apply ratio_one in Hc1; [|lia].
  assert (Hp0 : (Tool.pendingCount r >=? 2) = false).
  { rewrite Z.geb_leb. apply Z.leb_gt. lia. }
  unfold Spec.classifyBadge, Spec.ruleOrder.
  destruct (Tool.requiredCount r =? 0) eqn:E0;
    [apply Z.eqb_eq in E0; lia|].
  cbn [find]. rewrite Hf'.
  unfold Spec.condition, Spec.isMedVolume.
  rewrite Hhi, Hlo, Hp0. cbn [andb orb negb].
  now rewrite andb_false_r.
Qed.

Lemma flat_map_first_match avg stats :
  map pairOf (flat_map (Tool.badgeStep avg []) stats)
  = Spec.classify_badges avg stats.
Proof.
  unfold Spec.classify_badges.
  induction stats as [|r l IH]; simpl; auto.
  now rewrite map_app, badgeStep_first_match, IH.
Qed.

Lemma classify_badges_In avg stats r t :
  In (r, t) (Spec.classify_badges avg stats) <->
  exists k, In r stats /\ Spec.classifyBadge avg r = Some k
            /\ t = Spec.badgeTitle k.
Proof.
  unfold Spec.classify_badges. rewrite in_flat_map. split.
  - intros (r' & Hr' & H).
    destruct (Spec.classifyBadge avg r') as [k|] eqn:E; [|destruct H].
    destruct H as [[= <- <-]|[]]. eauto.
  - intros (k & Hr & Hk & ->). exists r. rewrite Hk. split; auto. now left.
Qed.

Lemma classify_badges_length avg stats :
  (List.length (Spec.classify_badges avg stats) <= List.length stats)%nat.
Proof.
  unfold Spec.classify_badges.
  induction stats as [|r l IH]; simpl; auto.
  rewrite length_app.
  destruct (Spec.classifyBadge avg r); simpl; lia.
Qed.

Lemma assignBadges_spec stats :
  map pairOf (Tool.assignBadges stats)
  = Spec.classify_badges (Tool.avgRequired stats) stats.
Proof.
  unfold Tool.assignBadges. rewrite assignBadges_flat_map. simpl.
  apply flat_map_first_match.
Qed.

(** C3. [assignBadges] records, reviewer by reviewer and in input order,
    the first rule of the table of section 4.3 whose condition holds, and
    nothing for a reviewer who matches none: at most one badge each. No
    badge goes to a reviewer with [requiredCount = 0]. A well-formed
    reviewer (section 3; every reviewer the aggregation produces is one)
    who meets the conditions of both Flawless and Speed Demon gets
    Flawless. *)
Theorem badges_first_match_wins (stats : list Tool.ReviewerStat) :
  map pairOf (Tool.assignBadges stats)
  = Spec.classify_badges (Tool.avgRequired stats) stats
  /\ (Tool.avgRequired stats == Spec.avgRequired stats)%Q
  /\ (List.length (Tool.assignBadges stats) <= List.length stats)%nat
  /\ Forall (fun b => Tool.requiredCount (Tool.reviewer b) <> 0)
       (Tool.assignBadges stats)
  /\ (forall allPRs,
        stats = Tool.sortedStats allPRs -> Forall Spec.WellFormed stats)
  /\ (forall r,
        In r stats -> Spec.WellFormed r ->
        Spec.condition Spec.Flawless (Tool.avgRequired stats) r = true ->
        Spec.condition Spec.SpeedDemon (Tool.avgRequired stats) r = true ->
        In (r, "Flawless") (map pairOf (Tool.assignBadges stats))
        /\ forall t, In (r, t) (map pairOf (Tool.assignBadges stats)) ->
                     t = "Flawless").
Proof.
  assert (Hspec := assignBadges_spec stats).
  split; [exact Hspec|]. split; [apply avgRequired_mean|].
  split; [|split; [|split]].
  - rewrite <- (length_map pairOf), Hspec. apply classify_badges_length.
  - apply Forall_forall. intros b Hb.
    assert (Hp : In (Tool.reviewer b, Tool.title b)
                   (Spec.classify_badges (Tool.avgRequired stats) stats)).
    { rewrite <- Hspec. apply (in_map pairOf) in Hb. exact Hb. }
    apply classify_badges_In in Hp as (k & _ & Hk & _).
    unfold Spec.classifyBadge in Hk.
    destruct (Tool.requiredCount (Tool.reviewer b) =? 0) eqn:E;
      [discriminate|]. now apply Z.eqb_neq.
  - intros allPRs ->. apply Forall_forall. intros r Hr.
    apply sortedStats_In, aggregate_values in Hr as (k & _ & Hinv).
    apply Hinv.
  - intros r Hr Hwf Hf Hs.
    assert (Hk := flawless_before_speed_demon _ r Hwf Hf Hs).
    rewrite Hspec. split.
    + apply classify_badges_In. exists Spec.Flawless. auto.
    + intros t Ht. apply classify_badges_In in Ht as (k & _ & Hk' & ->).
      rewrite Hk in Hk'. now injection Hk' as <-.
Qed.

Lemma badges_first_match_wins_witness :
  In Examples.ada Examples.team
  /\ Spec.WellFormed Examples.ada
  /\ Spec.condition Spec.Flawless (Tool.avgRequired Examples.team)
       Examples.ada = true
  /\ Spec.condition Spec.SpeedDemon (Tool.avgRequired Examples.team)
       Examples.ada = true
  /\ In (Examples.ada, "Flawless")
       (map pairOf (Tool.assignBadges Examples.team)).
Proof.
  assert (H1 : In Examples.ada Examples.team) by (now left).
  assert (H2 : Spec.WellFormed Examples.ada)
    by (unfold Spec.WellFormed; simpl; lia).
  assert (H3 : Spec.condition Spec.Flawless (Tool.avgRequired Examples.team)
                 Examples.ada = true) by (vm_compute; reflexivity).
  assert (H4 : Spec.condition Spec.SpeedDemon
                 (Tool.avgRequired Examples.team) Examples.ada = true)
    by (vm_compute; reflexivity).
  split; [exact H1|]. split; [exact H2|]. split; [exact H3|].
  split; [exact H4|].
  apply (proj2 (proj2 (proj2 (proj2 (proj2
           (badges_first_match_wins Examples.team))))) Examples.ada
           H1 H2 H3 H4).
Defined.

Lemma empty_report_has_no_table_witness :
  filteredStats (Tool.sortedStats Examples.draftOnly) true = []
  /\ Tool.success (Tool.reviewerStats 0.5 Examples.draftOnly None) = true
  /\ option_map Tool.markdown
       (Tool.data (Tool.reviewerStats 0.5 Examples.draftOnly None))
     = Some ("Reviewer Statistics (0 Active PRs)"
             ++ String "010" (String "010" "No reviewers found.")).
Proof.
  split; [reflexivity|].
  exact (proj2 (proj2
           (empty_report_has_no_table 0.5%Q
              (Tool.sortedStats Examples.draftOnly) 0 true eq_refl))
           Examples.draftOnly None eq_refl eq_refl eq_refl).
Defined.

(* ================================================================== *)
(** ** Optional assignments *)

(** C6. In the full view ([requiredOnly] false) an optional assignment on
    an open pull request is still skipped by the aggregation loop: the
    reviewer is absent and the report is the empty one. *)
Theorem optional_assignment_dropped_in_full_view random :
  Tool.aggregate Examples.optionalOnly = []
  /\ Tool.data (Tool.reviewerStats random Examples.optionalOnly (Some false))
     = Some {| Tool.reviewers := []; Tool.totalPRs := 1;
               Tool.markdown :=
                 "Reviewer Statistics (1 Active PRs)"
                 ++ String "010" (String "010" "No reviewers found.") |}.
Proof.
  split; reflexivity.
Qed.

(* ================================================================== *)
(** ** Email identity *)

Lemma capital_of_lower a b :
  capital_of a b -> Js.lower_char a = b /\ Js.lower_char b = b.
Proof.
  intros (n & Hn & -> & ->). unfold Js.lower_char.
  rewrite !nat_ascii_embedding by lia.
  assert (H1 : ((65 <=? n) && (n <=? 90))%nat = true).
  { apply andb_true_iff. split; apply Nat.leb_le; lia. }
  assert (H2 : ((65 <=? n + 32) && (n + 32 <=? 90))%nat = false).
  { apply andb_false_iff. right. apply Nat.leb_gt. lia. }
  now rewrite H1, H2.
Qed.

Lemma same_letter_lower a b :
  same_letter a b -> Js.lower_char a = Js.lower_char b.
Proof.
  intros [->|[H|H]]; auto; apply capital_of_lower in H as [H1 H2]; congruence.
Qed.

Lemma eq_ignore_case_lower s t :
  eq_ignore_case s t -> Js.toLowerCase s = Js.toLowerCase t.
Proof.
  induction 1 as [|a b s t Hab _ IH]; simpl; auto.
  now rewrite (same_letter_lower a b Hab), IH.
Qed.

Lemma toLowerCase_length s :
  String.length (Js.toLowerCase s) = String.length s.
Proof. induction s as [|c s IH]; cbn; [reflexivity|now rewrite IH]. Qed.

Lemma string_length_app (a b : string) :
  String.length (a ++ b) = (String.length a + String.length b)%nat.
Proof. induction a as [|c a IH]; cbn; [reflexivity|now rewrite IH]. Qed.

Lemma padded_key_differs (u p q : string) :
  (p ++ q)%string <> "" ->
  Js.toLowerCase (p ++ u ++ q) <> Js.toLowerCase u.
Proof.
  intros Hpq Heq. apply (f_equal String.length) in Heq.
  rewrite !toLowerCase_length, !string_length_app in Heq.
  apply Hpq. destruct p; [destruct q; [reflexivity|cbn in Heq; lia]|].
  cbn in Heq. lia.
Qed.

Lemma counted_has_stat allPRs r u :
  In r (assignments allPRs) ->
  GitInterfaces.isRequired r = Some true ->
  GitInterfaces.uniqueName r = Some u -> u <> "" ->
  exists stat,
    Js.get (Tool.aggregate allPRs) (Js.toLowerCase u) = Some stat
    /\ Js.toLowerCase (Tool.email stat) = Js.toLowerCase u.
Proof.
  intros Hr Hq Hu Hne.
  destruct (aggregate_inv allPRs) as (Hnd & Hall & Hkeys).
  assert (Hin : In (Js.toLowerCase u) (Js.keys (Tool.aggregate allPRs))).
  { apply Hkeys. exists r. split; [exact Hr|]. split.
    - unfold counted. rewrite Hq, (emailKey_named r u Hu). cbn.
      apply negb_true_iff, String.eqb_neq. intros H.
      apply (f_equal String.length) in H. rewrite toLowerCase_length in H.
      destruct u; [now apply Hne|discriminate].
    - apply emailKey_named, Hu. }
  destruct (Js.get (Tool.aggregate allPRs) (Js.toLowerCase u)) as [stat|] eqn:E.
  - exists stat. split; [reflexivity|]. apply get_Some_In in E.
    rewrite Forall_forall in Hall. apply Hall in E.
    destruct E as (_ & _ & _ & _ & _ & _ & Hem). exact Hem.
  - apply get_None_keys in E. contradiction.
Qed.

(** C8, as the code has it. The email is lower-cased and not trimmed:
    assignments whose emails differ in the case of the letters A to Z only
    share one key; the keys of the aggregate are distinct; on input whose
    unique names are made of ASCII characters, the entry of a key counts
    every required assignment with that key on an open pull request; an
    assignment whose key is empty leaves the aggregate as it is; and two
    required assignments on open pull requests whose emails differ by
    white space around one of them end up in two entries, with two
    different emails. *)
Theorem email_identity_is_lowercase :
  (forall r1 r2 u1 u2,
     GitInterfaces.uniqueName r1 = Some u1 ->
     GitInterfaces.uniqueName r2 = Some u2 ->
     eq_ignore_case u1 u2 -> Tool.emailKey r1 = Tool.emailKey r2)
  /\ (forall allPRs, NoDup (Js.keys (Tool.aggregate allPRs)))
  /\ (forall allPRs k stat,
        asciiEmails allPRs = true ->
        Js.get (Tool.aggregate allPRs) k = Some stat ->
        Tool.requiredCount stat
        = tally (fun _ => true) k (assignments allPRs))
  /\ (forall pr statsMap r,
        Tool.emailKey r = "" -> Tool.visitReviewer pr statsMap r = statsMap)
  /\ (forall allPRs r1 r2 u p q,
        In r1 (assignments allPRs) -> In r2 (assignments allPRs) ->
        GitInterfaces.isRequired r1 = Some true ->
        GitInterfaces.isRequired r2 = Some true ->
        GitInterfaces.uniqueName r1 = Some (p ++ u ++ q)%string ->
        GitInterfaces.uniqueName r2 = Some u ->
        isAscii u = true -> u <> "" ->
        blank p -> blank q -> (p ++ q)%string <> "" ->
        Tool.emailKey r1 <> Tool.emailKey r2
        /\ exists s1 s2,
             Js.get (Tool.aggregate allPRs) (Js.toLowerCase (p ++ u ++ q))
             = Some s1
             /\ Js.get (Tool.aggregate allPRs) (Js.toLowerCase u) = Some s2
             /\ Tool.email s1 <> Tool.email s2).
Proof.
  split; [|split; [|split; [|split]]].
  - intros r1 r2 u1 u2 H1 H2 H. unfold Tool.emailKey.
    rewrite H1, H2. simpl. now rewrite (eq_ignore_case_lower u1 u2 H).
  - intros allPRs. apply aggregate_inv.
  - intros allPRs k stat _ H. apply get_Some_In in H.
    destruct (aggregate_inv allPRs) as (_ & Hall & _).
    rewrite Forall_forall in Hall. apply Hall in H.
    destruct H as (_ & _ & _ & _ & _ & H & _). exact H.
  - intros pr statsMap r H. apply visitReviewer_skip.
    unfold counted. rewrite H. simpl. apply andb_false_r.
  - intros allPRs r1 r2 u p q Hr1 Hr2 Hq1 Hq2 Hu1 Hu2 _ Hne _ _ Hpq.
    pose proof (padded_key_differs u p q Hpq) as Hk.
    split; [now rewrite (emailKey_named r1 _ Hu1), (emailKey_named r2 _ Hu2)|].
    assert (Hne1 : (p ++ u ++ q)%string <> "").
    { intros H. apply (f_equal String.length) in H.
      rewrite !string_length_app in H. destruct u; [now apply Hne|].
      cbn in H. lia. }
    destruct (counted_has_stat allPRs r1 _ Hr1 Hq1 Hu1 Hne1) as (s1 & G1 & E1).
    destruct (counted_has_stat allPRs r2 _ Hr2 Hq2 Hu2 Hne) as (s2 & G2 & E2).
    exists s1, s2. repeat split; [exact G1|exact G2|].
    intros He. apply Hk. now rewrite <- E1, <- E2, He.
Qed.

(** Surrounding white space is kept: the two spellings of one address in
    [Examples.blankPrefixed] end up in two entries. *)
Lemma blank_prefixed_email_is_another_reviewer :
  exists r1 r2 pr,
    In pr Examples.blankPrefixed
    /\ In r1 (Tool.reviewersOf pr) /\ In r2 (Tool.reviewersOf pr)
    /\ GitInterfaces.uniqueName r1 = Some " amy@example.com"
    /\ GitInterfaces.uniqueName r2 = Some "amy@example.com"
    /\ Tool.emailKey r1 <> Tool.emailKey r2
    /\ Js.keys (Tool.aggregate Examples.blankPrefixed)
       = [" amy@example.com"; "amy@example.com"]
    /\ map Tool.requiredCount (Js.values (Tool.aggregate Examples.blankPrefixed))
       = [1; 1].
Proof.
  exists (Examples.reviewerOf " amy@example.com" true 10),
         (Examples.reviewerOf "amy@example.com" true 0),
         (Examples.prOf 1 false
            [Examples.reviewerOf " amy@example.com" true 10;
             Examples.reviewerOf "amy@example.com" true 0]).
  repeat split; try reflexivity; simpl; auto.
  discriminate.
Qed.

Ltac capital a :=
  exists (nat_of_ascii a); split; [vm_compute; lia|split; reflexivity].

Ltac same_case :=
  repeat first
    [ apply eic_nil
    | apply eic_cons;
      [ match goal with
        | |- same_letter ?a ?b =>
            first [ left; reflexivity
                  | right; left; capital a
                  | right; right; capital b ]
        end
      | ] ].

Lemma email_identity_is_lowercase_witness :
  eq_ignore_case "Amy@Example.com" "amy@example.com"
  /\ Tool.emailKey (Examples.reviewerOf "Amy@Example.com" true 10)
     = Tool.emailKey (Examples.reviewerOf "amy@example.com" true (-5))
  /\ (exists stat,
        Js.get (Tool.aggregate Examples.mixedCase) "amy@example.com" = Some stat
        /\ Tool.requiredCount stat = 2)
  /\ Tool.emailKey (Examples.reviewerOf " amy@example.com" true 10)
     <> Tool.emailKey (Examples.reviewerOf "amy@example.com" true 0)
  /\ exists s1 s2,
       Js.get (Tool.aggregate Examples.blankPrefixed)
         (Js.toLowerCase (" " ++ "amy@example.com" ++ "")) = Some s1
       /\ Js.get (Tool.aggregate Examples.blankPrefixed)
            (Js.toLowerCase "amy@example.com") = Some s2
       /\ Tool.email s1 <> Tool.email s2.
Proof.
  assert (H : eq_ignore_case "Amy@Example.com" "amy@example.com").
  { same_case. }
  split; [exact H|]. split; [|split].
  - exact (proj1 email_identity_is_lowercase
             (Examples.reviewerOf "Amy@Example.com" true 10)
             (Examples.reviewerOf "amy@example.com" true (-5))
             "Amy@Example.com" "amy@example.com" eq_refl eq_refl H).
  - eexists. split; [reflexivity|].
    exact (proj1 (proj2 (proj2 email_identity_is_lowercase))
             Examples.mixedCase "amy@example.com" _ eq_refl eq_refl).
  - apply (proj2 (proj2 (proj2 (proj2 email_identity_is_lowercase)))
             Examples.blankPrefixed
             (Examples.reviewerOf " amy@example.com" true 10)
             (Examples.reviewerOf "amy@example.com" true 0)
             "amy@example.com" " " "").
    + cbn. now left.
    + cbn. right. now left.
    + reflexivity.
    + reflexivity.
    + reflexivity.
    + reflexivity.
    + reflexivity.
    + discriminate.
    + cbn. auto.
    + exact I.
    + discriminate.
Defined.

(* ================================================================== *)
(** ** The script against the tool: the aggregate *)

Section TwoMaps.
Context {V W : Type}.
Implicit Types (R : string -> V -> W -> Prop).





End TwoMaps.




(** The counters after one pass of either loop body. *)
Lemma tool_bump_counts s vote e :
  let s' :=
    Tool.push_pr
      (Tool.countVote (Tool.incr_requiredCount (Tool.incr_totalCount s)) vote)
      e in
  Tool.approvedCount s'
  = Tool.approvedCount s + (if vote >=? 10 then 1 else 0)
  /\ Tool.waitingForAuthorCount s'
     = Tool.waitingForAuthorCount s
       + (if vote >=? 10 then 0 else if vote =? -5 then 1 else 0)
  /\ Tool.rejectedCount s'
     = Tool.rejectedCount s
       + (if vote >=? 10 then 0 else if vote =? -5 then 0
          else if vote <=? -10 then 1 else 0)
  /\ Tool.pendingCount s'
     = Tool.pendingCount s
       + (if vote >=? 10 then 0 else if vote =? -5 then 0
          else if vote <=? -10 then 0 else 1).
Proof.
  unfold Tool.countVote.
  destruct (vote >=? 10); [|destruct (vote =? -5); [|destruct (vote <=? -10)]];
    cbn; repeat split; lia.
Qed.

Lemma script_bump_counts s vote :
  let s' := Script.countVote (Script.incr_Required s) vote in
  let v := Js.or_number vote 0 in
  Script.Email s' = Script.Email s
  /\ Script.Required s' = Script.Required s + 1
  /\ Script.Approved s'
     = Script.Approved s + (if v >=? 5 then 1 else 0)
  /\ Script.Blocked s'
     = Script.Blocked s
       + (if v >=? 5 then 0 else if (v =? -5) || (v <=? -10) then 1 else 0)
  /\ Script.Unreviewed s'
     = Script.Unreviewed s
       + (if v >=? 5 then 0 else if (v =? -5) || (v <=? -10) then 0 else 1).
Proof.
  unfold Script.countVote, Js.or_number.
  destruct vote as [v|]; [|cbn; repeat split; lia].
  destruct (v =? 0) eqn:E0.
  - apply Z.eqb_eq in E0. subst v. cbn. repeat split; lia.
  - destruct (v >=? 5); [|destruct ((v =? -5) || (v <=? -10))];
      cbn; repeat split; lia.
Qed.







(* ================================================================== *)
(** ** The script against the tool: the badges *)



Section SortTwo.
Context {A B : Type} (R : A -> B -> Prop).
Context (cmp : A -> A -> Z) (cmp' : B -> B -> Z).
Hypothesis cmp_agree :
  forall a a' b b', R a a' -> R b b' -> (cmp a b <=? 0) = (cmp' a' b' <=? 0).


End SortTwo.







Tactic Notation "pick_badge" integer(n) :=
  unfold Script.badges; eexists; split;
  [ do n right; left; reflexivity
  | split; [reflexivity|cbn [Script.Condition]] ].







(* ================================================================== *)
(** ** Further properties of the aggregation loop *)

Lemma visits_assignments allPRs : map snd (visits allPRs) = assignments allPRs.
Proof.
  unfold visits, assignments.
  induction (Tool.nonDraft allPRs) as [|pr prs IH]; simpl; auto.
  rewrite map_app, IH, map_map. simpl. now rewrite map_id.
Qed.

Lemma visitPR_visits pr m :
  Tool.visitPR m pr
  = fold_left (fun m v => Tool.visitReviewer (fst v) m (snd v))
      (map (pair pr) (Tool.reviewersOf pr)) m.
Proof.
  unfold Tool.visitPR. generalize (Tool.reviewersOf pr) as rs.
  intros rs. revert m. induction rs as [|r rs IH]; intros m; simpl; auto.
Qed.

Lemma aggregate_visits allPRs :
  Tool.aggregate allPRs
  = fold_left (fun m v => Tool.visitReviewer (fst v) m (snd v))
      (visits allPRs) [].
Proof.
  unfold Tool.aggregate, visits.
  generalize (@nil (string * Tool.ReviewerStat)) as m.
  induction (Tool.nonDraft allPRs) as [|pr prs IH]; intros m; simpl; auto.
  now rewrite fold_left_app, IH, visitPR_visits.
Qed.

Lemma visitReviewer_entry pr m r :
  counted r = true ->
  Tool.visitReviewer pr m r
  = Js.set m (Tool.emailKey r)
      (Tool.push_pr
         (Tool.countVote
            (Tool.incr_requiredCount
               (Tool.incr_totalCount
                  (match Js.get m (Tool.emailKey r) with
                   | Some s => s
                   | None => Tool.newStat r
                   end)))
            (voteOf r)) (entryOf pr r)).
Proof.
  unfold counted, Tool.visitReviewer. intros H.
  apply andb_true_iff in H as [H1 H2]. rewrite H1. simpl.
  apply negb_true_iff in H2. rewrite H2.
  unfold Js.has. destruct (Js.get m (Tool.emailKey r)) as [s|] eqn:E; simpl.
  - now rewrite E.
  - now rewrite get_set_same, set_set.
Qed.

Lemma bump_names s vote e :
  let s' :=
    Tool.push_pr
      (Tool.countVote (Tool.incr_requiredCount (Tool.incr_totalCount s)) vote)
      e in
  Tool.displayName s' = Tool.displayName s
  /\ Tool.email s' = Tool.email s
  /\ Tool.prs s' = (Tool.prs s ++ [e])%list.
Proof.
  unfold Tool.countVote.
  destruct (vote >=? 10); [|destruct (vote =? -5); [|destruct (vote <=? -10)]];
    cbn; repeat split.
Qed.

Lemma matches_tally p k r :
  tally p k [r] = if matches k r && p r then 1 else 0.
Proof. apply tally_one. Qed.

Lemma find_app {A} (f : A -> bool) l1 l2 :
  find f (l1 ++ l2)
  = match find f l1 with Some x => Some x | None => find f l2 end.
Proof.
  induction l1 as [|x l1 IH]; simpl; auto. now destruct (f x).
Qed.

Lemma Traced_other seen v k s :
  matches k (snd v) = false -> Traced seen k s -> Traced (seen ++ [v]) k s.
Proof.
  intros Hm (Ha & Hw & Hj & Hp & Hprs & r0 & Hf & Hd & He).
  unfold Traced. rewrite map_app. cbn [map].
  rewrite !tally_app, !matches_tally, filter_app.
  cbn [filter]. rewrite Hm. cbn [andb]. rewrite !Z.add_0_r, app_nil_r.
  repeat split; auto.
  exists r0. rewrite find_app, Hf. auto.
Qed.

Lemma Traced_step seen pr r k s :
  counted r = true -> Tool.emailKey r = k ->
  (Traced seen k s
   \/ (s = Tool.newStat r
       /\ forall r', In r' (map snd seen) -> matches k r' = false)) ->
  Traced (seen ++ [(pr, r)]) k
    (Tool.push_pr
       (Tool.countVote (Tool.incr_requiredCount (Tool.incr_totalCount s))
          (voteOf r)) (entryOf pr r)).
Proof.
  intros Hc Hk Hs.
  assert (Hm : matches k r = true).
  { unfold matches. rewrite Hc, Hk, String.eqb_refl. reflexivity. }
  destruct (tool_bump_counts s (voteOf r) (entryOf pr r))
    as (Fa & Fw & Fj & Fp).
  destruct (bump_names s (voteOf r) (entryOf pr r)) as (Fd & Fe & Fprs).
  unfold Traced. rewrite map_app. cbn [map snd].
  rewrite !tally_app, !matches_tally, filter_app, find_app.
  cbn [filter find fst snd]. rewrite Hm. cbn [andb map].
  rewrite Fa, Fw, Fj, Fp, Fd, Fe, Fprs.
  assert (Hbuckets :
    (if voteOf r >=? 10 then 1 else 0)
    = (if voteOf r >=? 10 then 1 else 0)
    /\ (if voteOf r >=? 10 then 0 else if voteOf r =? -5 then 1 else 0)
       = (if voteOf r =? -5 then 1 else 0)
    /\ (if voteOf r >=? 10 then 0 else if voteOf r =? -5 then 0
        else if voteOf r <=? -10 then 1 else 0)
       = (if voteOf r <=? -10 then 1 else 0)
    /\ (if voteOf r >=? 10 then 0 else if voteOf r =? -5 then 0
        else if voteOf r <=? -10 then 0 else 1)
       = (if (-10 <? voteOf r) && (voteOf r <? 10)
             && negb (voteOf r =? -5) then 1 else 0)).
  { destruct (voteOf r >=? 10) eqn:E1, (voteOf r =? -5) eqn:E2,
             (voteOf r <=? -10) eqn:E3, (-10 <? voteOf r) eqn:E4,
             (voteOf r <? 10) eqn:E5;
      cbn [andb negb];
      rewrite ?Z.geb_leb in *;
      rewrite ?Z.leb_le, ?Z.leb_gt, ?Z.ltb_lt, ?Z.ltb_ge, ?Z.eqb_eq,
        ?Z.eqb_neq in *;
      repeat split; lia. }
  destruct Hbuckets as (_ & -> & -> & ->).
  destruct Hs as [(Ha & Hw & Hj & Hp & Hprs & r0 & Hf & Hd & He)|[-> Hnone]].
  - rewrite Ha, Hw, Hj, Hp, Hprs, Hf, map_app.
    repeat (split; [reflexivity|]). exists r0. auto.
  - assert (Hz : forall p, tally p k (map snd seen) = 0).
    { intros p. apply tally_none. intros r' Hr' Hc' Hk'.
      specialize (Hnone r' Hr'). unfold matches in Hnone.
      rewrite Hc', Hk', String.eqb_refl in Hnone. discriminate. }
    assert (Hfil : filter (fun v => matches k (snd v)) seen = []).
    { clear - Hnone. induction seen as [|v seen IH]; simpl; auto.
      rewrite (Hnone (snd v)) by (now left).
      apply IH. intros r' Hr'. apply Hnone. now right. }
    assert (Hfind : find (matches k) (map snd seen) = None).
    { clear - Hnone. induction (map snd seen) as [|x l IH]; simpl; auto.
      rewrite (Hnone x) by (now left).
      apply IH. intros r' Hr'. apply Hnone. now right. }
    rewrite !Hz, Hfil, Hfind. cbn.
    repeat (split; [reflexivity|]). exists r. auto.
Qed.

Lemma visitReviewer_trace seen m v :
  MapInv (map snd seen) m -> TraceInv seen m ->
  TraceInv (seen ++ [v]) (Tool.visitReviewer (fst v) m (snd v)).
Proof.
  intros (_ & _ & Hkeys) HT. destruct v as [pr r]. cbn [fst snd].
  destruct (counted r) eqn:Hc.
  - rewrite visitReviewer_entry by auto.
    set (k0 := Tool.emailKey r).
    intros k s Hget.
    destruct (String.eqb k0 k) eqn:E.
    + apply String.eqb_eq in E. subst k.
      rewrite get_set_same in Hget. injection Hget as <-.
      apply Traced_step; auto.
      destruct (Js.get m k0) as [s0|] eqn:E0.
      * left. now apply HT.
      * right. split; auto. intros r' Hr'.
        unfold matches. destruct (counted r') eqn:Hc'; auto. simpl.
        apply String.eqb_neq. intros Hk'.
        apply get_None_keys in E0. apply E0. apply Hkeys. eauto.
    + apply String.eqb_neq in E.
      rewrite get_set_other in Hget by congruence.
      apply Traced_other; [|now apply HT].
      cbn [snd]. unfold matches. fold k0.
      apply String.eqb_neq in E. now rewrite E, andb_false_r.
  - rewrite visitReviewer_skip by auto.
    intros k s Hget. apply Traced_other; [|now apply HT].
    cbn [snd]. unfold matches. now rewrite Hc.
Qed.

Lemma fold_visits_inv vs seen m :
  MapInv (map snd seen) m -> TraceInv seen m ->
  let m' := fold_left (fun m v => Tool.visitReviewer (fst v) m (snd v)) vs m in
  MapInv (map snd (seen ++ vs)) m' /\ TraceInv (seen ++ vs) m'.
Proof.
  revert seen m. induction vs as [|v vs IH]; intros seen m HM HT; simpl.
  - now rewrite app_nil_r.
  - replace (seen ++ v :: vs)%list with ((seen ++ [v]) ++ vs)%list
      by now rewrite <- app_assoc.
    apply IH.
    + rewrite map_app. apply visitReviewer_inv. exact HM.
    + now apply visitReviewer_trace.
Qed.

Lemma aggregate_trace allPRs : TraceInv (visits allPRs) (Tool.aggregate allPRs).
Proof.
  rewrite aggregate_visits.
  apply (fold_visits_inv (visits allPRs) [] []).
  - repeat split; simpl; try constructor; try tauto.
    intros (r & [] & _).
  - intros k s H. discriminate.
Qed.

Lemma tally_matches k seen :
  tally (fun _ => true) k
    (map (@snd GitInterfaces.GitPullRequest _) seen)
  = Z.of_nat (List.length (filter (fun v => matches k (snd v)) seen)).
Proof.
  unfold tally, matches. f_equal.
  induction seen as [|v seen IH]; simpl; auto.
  rewrite andb_true_r.
  destruct (counted (snd v) && String.eqb (Tool.emailKey (snd v)) k);
    simpl; now rewrite IH.
Qed.

(** X1. Each outcome bucket of a reviewer is the number of that reviewer's
    counted assignments whose vote falls in the bucket's range: 10 and up
    approved, exactly -5 waiting for the author, -10 and down rejected,
    everything else pending. *)
Theorem buckets_count_their_votes allPRs k s :
  Js.get (Tool.aggregate allPRs) k = Some s ->
  Tool.approvedCount s
  = tally (fun r => voteOf r >=? 10) k (assignments allPRs)
  /\ Tool.waitingForAuthorCount s
     = tally (fun r => voteOf r =? -5) k (assignments allPRs)
  /\ Tool.rejectedCount s
     = tally (fun r => voteOf r <=? -10) k (assignments allPRs)
  /\ Tool.pendingCount s
     = tally (fun r => (-10 <? voteOf r) && (voteOf r <? 10)
                       && negb (voteOf r =? -5)) k (assignments allPRs).
Proof.
  intros H. apply aggregate_trace in H.
  destruct H as (Ha & Hw & Hj & Hp & _).
  rewrite visits_assignments in *. auto.
Qed.

Lemma buckets_count_their_votes_witness :
  exists s,
    Js.get (Tool.aggregate Examples.sprint) "hal@example.com" = Some s
    /\ Tool.rejectedCount s
       = tally (fun r => voteOf r <=? -10) "hal@example.com"
           (assignments Examples.sprint)
    /\ Tool.rejectedCount s = 1.
Proof.
  destruct (Js.get (Tool.aggregate Examples.sprint) "hal@example.com")
    as [s|] eqn:E; [|vm_compute in E; discriminate].
  exists s. split; [reflexivity|]. split.
  - exact (proj1 (proj2 (proj2
             (buckets_count_their_votes Examples.sprint "hal@example.com" s
                E)))).
  - vm_compute in E. injection E as <-. reflexivity.
Defined.

(** X2. No two reviewers of the result share a lower-cased email, and the
    result has as many reviewers as the aggregate has keys. *)
Theorem reviewers_are_distinct allPRs :
  NoDup (map (fun s => Js.toLowerCase (Tool.email s))
           (Tool.sortedStats allPRs))
  /\ List.length (Tool.sortedStats allPRs)
     = List.length (Js.keys (Tool.aggregate allPRs)).
Proof.
  destruct (aggregate_inv allPRs) as (Hnd & Hall & _).
  assert (Hk : map (fun s => Js.toLowerCase (Tool.email s))
                 (Js.values (Tool.aggregate allPRs))
               = Js.keys (Tool.aggregate allPRs)).
  { unfold Js.values, Js.keys. rewrite map_map.
    apply map_ext_in. intros [k s] Hin.
    rewrite Forall_forall in Hall. apply Hall in Hin.
    destruct Hin as (_ & _ & _ & _ & _ & _ & He). exact He. }
  split.
  - eapply Permutation_NoDup.
    + apply Permutation_map. symmetry. apply sort_perm.
    + now rewrite Hk.
  - unfold Tool.sortedStats.
    rewrite (Permutation_length (sort_perm _ _)).
    unfold Js.values, Js.keys. now rewrite !length_map.
Qed.

(** X3. The display name and the email kept for a reviewer are those of the
    first counted assignment met for the key, with "Unknown" in place of a
    missing or empty display name; later assignments never change them. *)
Theorem names_are_first_seen allPRs k s :
  Js.get (Tool.aggregate allPRs) k = Some s ->
  exists r0,
    find (matches k) (assignments allPRs) = Some r0
    /\ Tool.displayName s
       = Js.or_string (GitInterfaces.displayName r0) "Unknown"
    /\ Tool.email s = Js.or_string (GitInterfaces.uniqueName r0) "".
Proof.
  intros H. apply aggregate_trace in H.
  destruct H as (_ & _ & _ & _ & _ & H).
  now rewrite visits_assignments in H.
Qed.

Lemma names_are_first_seen_witness :
  exists s r0,
    Js.get (Tool.aggregate Examples.mixedCase) "amy@example.com" = Some s
    /\ find (matches "amy@example.com") (assignments Examples.mixedCase)
       = Some r0
    /\ Tool.email s = "Amy@Example.com"
    /\ Tool.email s = Js.or_string (GitInterfaces.uniqueName r0) "".
Proof.
  destruct (Js.get (Tool.aggregate Examples.mixedCase) "amy@example.com")
    as [s|] eqn:E; [|vm_compute in E; discriminate].
  destruct (names_are_first_seen Examples.mixedCase "amy@example.com" s E)
    as (r0 & Hf & _ & He).
  exists s, r0. split; [reflexivity|]. split; [exact Hf|].
  split; [|exact He].
  vm_compute in E. injection E as <-. reflexivity.
Defined.

(** X4. The [prs] list of a reviewer has one record for each of the
    reviewer's counted assignments, in the order of the visits, each
    carrying the id and title of its pull request and marked required; its
    length is [requiredCount]. *)
Theorem prs_trace_every_assignment allPRs k s :
  Js.get (Tool.aggregate allPRs) k = Some s ->
  Tool.prs s
  = map (fun v => entryOf (fst v) (snd v))
      (filter (fun v => matches k (snd v)) (visits allPRs))
  /\ Z.of_nat (List.length (Tool.prs s)) = Tool.requiredCount s
  /\ Forall (fun e => Tool.pr_isRequired e = true) (Tool.prs s).
Proof.
  intros H. assert (HT := aggregate_trace allPRs k s H).
  destruct HT as (_ & _ & _ & _ & Hprs & _).
  apply get_Some_In in H.
  destruct (aggregate_inv allPRs) as (_ & Hall & _).
  rewrite Forall_forall in Hall. apply Hall in H.
  destruct H as (_ & _ & _ & _ & _ & Hreq & _). cbn [fst snd] in Hreq.
  split; [exact Hprs|]. split.
  - rewrite Hprs, length_map, Hreq, <- visits_assignments.
    symmetry. apply tally_matches.
  - rewrite Hprs. apply Forall_forall. intros e He.
    apply in_map_iff in He as (v & <- & _). reflexivity.
Qed.

Lemma prs_trace_every_assignment_witness :
  exists s,
    Js.get (Tool.aggregate Examples.sprint) "gus@example.com" = Some s
    /\ map Tool.pr_id (Tool.prs s) = [1; 2; 4]
    /\ Z.of_nat (List.length (Tool.prs s)) = Tool.requiredCount s.
Proof.
  destruct (Js.get (Tool.aggregate Examples.sprint) "gus@example.com")
    as [s|] eqn:E; [|vm_compute in E; discriminate].
  exists s. split; [reflexivity|]. split.
  - vm_compute in E. injection E as <-. reflexivity.
  - exact (proj1 (proj2
             (prs_trace_every_assignment Examples.sprint "gus@example.com" s
                E))).
Defined.

(* ================================================================== *)
(** ** The badge pick and the table *)

Lemma pick_in_range random (n : nat) :
  (0 <= random)%Q -> (random < 1)%Q -> (0 < n)%nat ->
  0 <= Qfloor (random * inject_Z (Z.of_nat n)) < Z.of_nat n.
Proof.
  intros H0 H1 Hn.
  assert (Hpos : (0 < inject_Z (Z.of_nat n))%Q).
  { change 0%Q with (inject_Z 0). rewrite <- Zlt_Qlt. lia. }
  split.
  - change 0 with (Qfloor 0). apply Qfloor_resp_le.
    apply Qmult_le_0_compat; auto. now apply Qlt_le_weak.
  - rewrite Zlt_Qlt.
    eapply Qle_lt_trans; [apply Qfloor_le|].
    rewrite <- (Qmult_1_l (inject_Z (Z.of_nat n))) at 2.
    apply Qmult_lt_compat_r; auto.
Qed.

Lemma pickRandomBadge_bounds random badges :
  (0 <= random)%Q -> (random < 1)%Q ->
  match Tool.pickRandomBadge random badges with
  | Some b => In b badges
  | None => badges = []
  end.
Proof.
  intros H0 H1. unfold Tool.pickRandomBadge.
  destruct badges as [|b0 bs]; [reflexivity|].
  remember (b0 :: bs) as l eqn:El.
  assert (Hn : (0 < List.length l)%nat) by (subst l; simpl; lia).
  assert (Hr := pick_in_range random (List.length l) H0 H1 Hn).
  replace (List.length l =? 0)%nat with false
    by (symmetry; apply Nat.eqb_neq; lia).
  cbv zeta.
  remember (Qfloor (random * inject_Z (Z.of_nat (List.length l)))) as i.
  destruct (i <? 0) eqn:E; [apply Z.ltb_lt in E; lia|].
  destruct (nth_error l (Z.to_nat i)) as [b|] eqn:En.
  - eapply nth_error_In; eauto.
  - exfalso. apply nth_error_None in En. lia.
Qed.

(** X5. For a random number of the interval [0, 1), [pickRandomBadge]
    returns a member of a non-empty array, and nothing from an empty one:
    the index it computes is never out of bounds. *)
Theorem pickRandomBadge_in_bounds random badges :
  (0 <= random)%Q -> (random < 1)%Q ->
  match Tool.pickRandomBadge random badges with
  | Some b => In b badges
  | None => badges = []
  end.
Proof. apply pickRandomBadge_bounds. Qed.

Lemma pickRandomBadge_in_bounds_witness :
  (0 <= 0.5)%Q /\ (0.5 < 1)%Q
  /\ exists b,
       Tool.pickRandomBadge 0.5 (Tool.assignBadges Examples.team) = Some b
       /\ In b (Tool.assignBadges Examples.team).
Proof.
  assert (H0 : (0 <= 0.5)%Q) by (vm_compute; discriminate).
  assert (H1 : (0.5 < 1)%Q) by reflexivity.
  split; [exact H0|]. split; [exact H1|].
  assert (H := pickRandomBadge_in_bounds 0.5%Q
                 (Tool.assignBadges Examples.team) H0 H1).
  destruct (Tool.pickRandomBadge 0.5 (Tool.assignBadges Examples.team))
    as [b|] eqn:E; [|vm_compute in E; discriminate].
  exists b. split; [reflexivity|exact H].
Defined.

Lemma lineLength_app a b :
  lineLength (a ++ b) = lineLength a + lineLength b.
Proof.
  unfold lineLength. induction a as [|c a IH]; simpl String.length.
  - simpl. lia.
  - cbn [append String.length]. lia.
Qed.

Lemma lineLength_repeat s n :
  lineLength (Js.repeat s n) = Z.of_nat n * lineLength s.
Proof.
  induction n as [|n IH]; cbn [Js.repeat].
  - reflexivity.
  - rewrite lineLength_app, IH. lia.
Qed.

Lemma lineLength_padEnd s w :
  lineLength (Js.padEnd s w) = Z.max (lineLength s) w.
Proof.
  unfold Js.padEnd. rewrite lineLength_app, lineLength_repeat.
  unfold lineLength. cbn [String.length]. lia.
Qed.

Lemma lineLength_padStart s w :
  lineLength (Js.padStart s w) = Z.max (lineLength s) w.
Proof.
  unfold Js.padStart. rewrite lineLength_app, lineLength_repeat.
  unfold lineLength. cbn [String.length]. lia.
Qed.

Lemma max_of_ge a xs : a <= Js.max_of a xs.
Proof.
  unfold Js.max_of. revert a. induction xs as [|x xs IH]; intros a; simpl.
  - lia.
  - specialize (IH (Z.max a x)). lia.
Qed.

Lemma max_of_In a xs x : In x xs -> x <= Js.max_of a xs.
Proof.
  unfold Js.max_of. revert a. induction xs as [|y xs IH]; intros a; simpl.
  - tauto.
  - intros [->|H].
    + assert (H := max_of_ge (Z.max a x) xs). unfold Js.max_of in H. lia.
    + now apply IH.
Qed.

Ltac line_lengths :=
  cbn [Js.join map combine fst snd Tool.padHeaders];
  repeat rewrite ?lineLength_app, ?lineLength_padEnd, ?lineLength_padStart,
    ?lineLength_repeat;
  unfold lineLength in *; cbn [String.length] in *.

Lemma header_width (requiredOnly : bool) (nameWidth : Z) :
  8 <= nameWidth ->
  lineLength
    (if requiredOnly then
       Js.join "  "
         (Tool.padHeaders
            ["Reviewer"; "Required"; "Approved"; "Waiting for Author";
             "Rejected"; "Unreviewed"]
            [nameWidth; 8; 8; 18; 8; 10])
     else
       Js.join "  "
         (Tool.padHeaders
            ["Reviewer"; "Required"; "Optional"; "Total"; "Approved";
             "Waiting for Author"; "Rejected"; "Unreviewed"]
            [nameWidth; 8; 8; 5; 8; 18; 8; 10]))
  = tableWidth requiredOnly nameWidth.
Proof.
  intros H. unfold tableWidth, Tool.padHeaders.
  destruct requiredOnly; line_lengths; lia.
Qed.

Lemma separator_width (requiredOnly : bool) (nameWidth : Z) :
  8 <= nameWidth ->
  lineLength
    (Js.join "  "
       (map (fun w => Js.repeat "-" (Z.to_nat w))
          (if requiredOnly then [nameWidth; 8; 8; 18; 8; 10]
           else [nameWidth; 8; 8; 5; 8; 18; 8; 10])))
  = tableWidth requiredOnly nameWidth.
Proof.
  intros H. unfold tableWidth.
  destruct requiredOnly; line_lengths; lia.
Qed.

Lemma row_width (requiredOnly : bool) (nameWidth : Z) r :
  lineLength (Tool.displayName r) <= nameWidth ->
  rowFits requiredOnly r ->
  lineLength
    ((if requiredOnly then Tool.requiredRow else Tool.fullRow) nameWidth r)
  = tableWidth requiredOnly nameWidth.
Proof.
  intros Hn (F1 & F2 & F3 & F4 & F5 & F6).
  unfold tableWidth, fits in *.
  destruct requiredOnly.
  - unfold Tool.requiredRow. line_lengths. lia.
  - destruct (F6 eq_refl) as [F7 F8].
    unfold Tool.fullRow. line_lengths. lia.
Qed.

Lemma tableLines_shape random stats totalPRs (requiredOnly : bool) :
  filteredStats stats requiredOnly <> [] ->
  let fs := filteredStats stats requiredOnly in
  let w := nameWidthOf fs in
  Tool.tableLines random stats totalPRs requiredOnly
  = ([Tool.titleLine totalPRs; headerLine requiredOnly w;
      separatorLine requiredOnly w]
     ++ map ((if requiredOnly then Tool.requiredRow else Tool.fullRow) w) fs
     ++ match Tool.pickRandomBadge random (Tool.assignBadges fs) with
        | Some b => [""; badgeLine b]
        | None => []
        end)%list.
Proof.
  intros Hne.
  assert (Hlen : (List.length (filteredStats stats requiredOnly) =? 0)%nat
                 = false).
  { destruct (filteredStats stats requiredOnly); [contradiction|reflexivity]. }
  intros fs w. unfold Tool.tableLines.
  fold (filteredStats stats requiredOnly). rewrite Hlen.
  fold fs. fold (nameWidthOf fs). fold w.
  unfold headerLine, separatorLine, badgeLine.
  destruct requiredOnly;
    destruct (Tool.pickRandomBadge random (Tool.assignBadges fs));
    cbn [app]; rewrite ?app_nil_r; reflexivity.
Qed.

Lemma nameWidthOf_bounds fs :
  8 <= nameWidthOf fs
  /\ forall r, In r fs -> lineLength (Tool.displayName r) <= nameWidthOf fs.
Proof.
  unfold nameWidthOf. split; [apply max_of_ge|].
  intros r Hr. apply max_of_In.
  apply in_map_iff. exists r. auto.
Qed.

(** X6. The table is what the report shows after the title: a header row,
    a row of dashes, and one row per listed reviewer. Header and dashes
    have the same length, which is the width of the name column (8 at
    least, and that of the longest display name) plus 62 in the
    required-only view and 79 in the full view; so has the row of every
    reviewer whose numbers fit their columns: names never break the
    alignment. *)
Theorem table_columns_align random stats totalPRs (requiredOnly : bool) :
  filteredStats stats requiredOnly <> [] ->
  let fs := filteredStats stats requiredOnly in
  let w := nameWidthOf fs in
  let row := (if requiredOnly then Tool.requiredRow else Tool.fullRow) w in
  (exists badgeLines,
     Tool.tableLines random stats totalPRs requiredOnly
     = ([Tool.titleLine totalPRs; headerLine requiredOnly w;
         separatorLine requiredOnly w] ++ map row fs ++ badgeLines)%list)
  /\ lineLength (headerLine requiredOnly w) = tableWidth requiredOnly w
  /\ lineLength (separatorLine requiredOnly w) = tableWidth requiredOnly w
  /\ Forall (fun r => rowFits requiredOnly r ->
                      lineLength (row r) = tableWidth requiredOnly w) fs.
Proof.
  intros Hne fs w row.
  destruct (nameWidthOf_bounds fs) as [H8 Hnames]. fold w in H8, Hnames.
  split; [|split; [|split]].
  - eexists. apply (tableLines_shape random stats totalPRs requiredOnly Hne).
  - now apply header_width.
  - now apply separator_width.
  - apply Forall_forall. intros r Hr Hfit. apply row_width; auto.
Qed.

Lemma table_columns_align_witness :
  filteredStats (Tool.sortedStats Examples.sprint) true <> []
  /\ lineLength
       (headerLine true
          (nameWidthOf (filteredStats (Tool.sortedStats Examples.sprint) true)))
     = 77
  /\ lineLength
       (separatorLine true
          (nameWidthOf (filteredStats (Tool.sortedStats Examples.sprint) true)))
     = 77.
Proof.
  assert (H : filteredStats (Tool.sortedStats Examples.sprint) true <> [])
    by (vm_compute; discriminate).
  split; [exact H|].
  destruct (table_columns_align 0%Q (Tool.sortedStats Examples.sprint) 3 true H)
    as (_ & Hh & Hs & _).
  cbv zeta in Hh, Hs. rewrite Hh, Hs.
  split; vm_compute; reflexivity.
Defined.

(** X7. The report ends with a badge line exactly when some listed reviewer
    qualifies for a badge (the random number being in [0, 1)), and the
    line is then that of a badge assigned to a listed reviewer. *)
Theorem badge_line_when_someone_qualifies
  random stats totalPRs (requiredOnly : bool) :
  (0 <= random)%Q -> (random < 1)%Q ->
  filteredStats stats requiredOnly <> [] ->
  let fs := filteredStats stats requiredOnly in
  let w := nameWidthOf fs in
  let table :=
    ([Tool.titleLine totalPRs; headerLine requiredOnly w;
      separatorLine requiredOnly w]
     ++ map ((if requiredOnly then Tool.requiredRow else Tool.fullRow) w) fs)%list in
  (Tool.assignBadges fs = []
   /\ Tool.tableLines random stats totalPRs requiredOnly = table)
  \/ (exists b,
        In b (Tool.assignBadges fs) /\ In (Tool.reviewer b) fs
        /\ Tool.tableLines random stats totalPRs requiredOnly
           = (table ++ [""; badgeLine b])%list).
Proof.
  intros H0 H1 Hne fs w table.
  assert (Hshape := tableLines_shape random stats totalPRs requiredOnly Hne).
  cbv zeta in Hshape. fold fs w in Hshape.
  assert (Hpick := pickRandomBadge_bounds random (Tool.assignBadges fs) H0 H1).
  destruct (Tool.pickRandomBadge random (Tool.assignBadges fs)) as [b|].
  - right. exists b. split; [exact Hpick|]. split.
    + apply (in_map pairOf) in Hpick. rewrite assignBadges_spec in Hpick.
      apply classify_badges_In in Hpick as (k & Hr & _). exact Hr.
    + rewrite Hshape. unfold table. now rewrite <- app_assoc.
  - left. split; [exact Hpick|].
    rewrite Hshape. unfold table. cbn [app]. now rewrite app_nil_r.
Qed.

Lemma badge_line_when_someone_qualifies_witness :
  (0 <= 0.5)%Q /\ (0.5 < 1)%Q
  /\ filteredStats (Tool.sortedStats Examples.sprint) true <> []
  /\ exists b,
       In b (Tool.assignBadges
               (filteredStats (Tool.sortedStats Examples.sprint) true))
       /\ In (Tool.reviewer b)
            (filteredStats (Tool.sortedStats Examples.sprint) true).
Proof.
  assert (H0 : (0 <= 0.5)%Q) by (vm_compute; discriminate).
  assert (H1 : (0.5 < 1)%Q) by reflexivity.
  assert (H : filteredStats (Tool.sortedStats Examples.sprint) true <> [])
    by (vm_compute; discriminate).
  split; [exact H0|]. split; [exact H1|]. split; [exact H|].
  destruct (badge_line_when_someone_qualifies 0.5%Q
              (Tool.sortedStats Examples.sprint) 3 true H0 H1 H)
    as [[He _]|(b & Hb & Hr & _)].
  - vm_compute in He. discriminate.
  - exists b. split; [exact Hb|exact Hr].
Defined.

(* ================================================================== *)
(** ** Reviewers who are sure of a badge *)

Lemma badge_of_class stats r k :
  In r stats -> Spec.classifyBadge (Tool.avgRequired stats) r = Some k ->
  In (r, Spec.badgeTitle k) (map pairOf (Tool.assignBadges stats)).
Proof.
  intros Hr Hk. rewrite assignBadges_spec.
  apply classify_badges_In. eauto.
Qed.

Lemma ratio_self r :
  r <> 0 -> (inject_Z r / inject_Z r == 1)%Q.
Proof.
  intros H. field. change 0%Q with (inject_Z 0).
  rewrite inject_Z_injective. exact H.
Qed.

Lemma single_assignment_class avg r :
  Spec.WellFormed r -> Tool.requiredCount r = 1 ->
  Spec.classifyBadge avg r = Some Spec.SuperReviewer
  \/ Spec.classifyBadge avg r = Some Spec.NeedsBackup
  \/ Spec.classifyBadge avg r = Some Spec.Benchwarmer.
Proof.
  intros (Ha & Hp & Hw & Hj & Hsum) H1.
  unfold Spec.classifyBadge, Spec.ruleOrder. rewrite H1. cbn [Z.eqb find].
  destruct (Spec.condition Spec.SuperReviewer avg r); [now left|].
  destruct (Spec.condition Spec.NeedsBackup avg r); [now right; left|].
  assert (Hc : Spec.condition Spec.NeedsCoffee avg r = false).
  { unfold Spec.condition.
    replace (Tool.pendingCount r >=? 2) with false; [apply andb_false_r|].
    symmetry. rewrite Z.geb_leb. apply Z.leb_gt. lia. }
  assert (Hb : Spec.condition Spec.Benchwarmer avg r = true).
  { unfold Spec.condition, Spec.isLowVolume. rewrite H1.
    apply andb_true_iff. split; [|reflexivity].
    apply Qle_bool_iff. apply Q.le_max_l. }
  rewrite Hc, Hb. now right; right.
Qed.

(** X8. A well-formed reviewer with exactly one required review always
    gets a badge: Super Reviewer, Needs Backup or Benchwarmer, and no
    other. *)
Theorem single_assignment_gets_badge stats r :
  In r stats -> Spec.WellFormed r -> Tool.requiredCount r = 1 ->
  exists t,
    In (r, t) (map pairOf (Tool.assignBadges stats))
    /\ (t = "Super Reviewer" \/ t = "Needs Backup" \/ t = "Benchwarmer").
Proof.
  intros Hr Hwf H1.
  destruct (single_assignment_class (Tool.avgRequired stats) r Hwf H1)
    as [H|[H|H]];
    apply (badge_of_class stats r _ Hr) in H; eexists; split; eauto;
    cbn; auto.
Qed.

Lemma all_approved_class avg r :
  Spec.WellFormed r -> Tool.approvedCount r = Tool.requiredCount r ->
  2 <= Tool.requiredCount r ->
  Spec.classifyBadge avg r
  = Some (if Spec.isHighVolume avg r then Spec.SuperReviewer
          else Spec.Flawless).
Proof.
  intros (Ha & Hp & Hw & Hj & Hsum) He H2.
  assert (Hrate : Qle_bool 0.8 (Spec.completionRate r) = true
                  /\ Qeq_bool (Spec.completionRate r) 1 = true).
  { unfold Spec.completionRate. rewrite He.
    assert (H := ratio_self (Tool.requiredCount r)).
    split; [apply Qle_bool_iff|apply Qeq_bool_iff]; rewrite H by lia;
      [discriminate|reflexivity]. }
  destruct Hrate as [H8 Hone].
  assert (Hs : Spec.condition Spec.SuperReviewer avg r
               = Spec.isHighVolume avg r).
  { unfold Spec.condition. now rewrite H8, andb_true_r. }
  assert (Hn : Spec.isHighVolume avg r = false ->
               Spec.condition Spec.NeedsBackup avg r = false).
  { intros Hhi. unfold Spec.condition. now rewrite Hhi. }
  assert (Hc : Spec.condition Spec.NeedsCoffee avg r = false).
  { unfold Spec.condition.
    replace (Tool.pendingCount r >=? 2) with false; [apply andb_false_r|].
    symmetry. rewrite Z.geb_leb. apply Z.leb_gt. lia. }
  assert (Hb : Spec.condition Spec.Benchwarmer avg r = false).
  { unfold Spec.condition.
    replace (Tool.requiredCount r <=? 1) with false; [apply andb_false_r|].
    symmetry. apply Z.leb_gt. lia. }
  assert (Hf : Spec.condition Spec.Flawless avg r = true).
  { unfold Spec.condition. rewrite Hone, andb_true_r.
    rewrite Z.geb_leb. now apply Z.leb_le. }
  unfold Spec.classifyBadge, Spec.ruleOrder.
  destruct (Tool.requiredCount r =? 0) eqn:E0;
    [apply Z.eqb_eq in E0; lia|].
  cbn [find]. rewrite Hs.
  destruct (Spec.isHighVolume avg r); [reflexivity|].
  now rewrite (Hn eq_refl), Hc, Hb, Hf.
Qed.

(** X9. A well-formed reviewer who approved every one of two or more
    required reviews gets Super Reviewer when of high volume and Flawless
    otherwise, never another badge and never none. *)
Theorem all_approved_gets_badge stats r :
  In r stats -> Spec.WellFormed r ->
  Tool.approvedCount r = Tool.requiredCount r ->
  2 <= Tool.requiredCount r ->
  exists t,
    In (r, t) (map pairOf (Tool.assignBadges stats))
    /\ (t = "Super Reviewer" \/ t = "Flawless").
Proof.
  intros Hr Hwf He H2.
  assert (H := all_approved_class (Tool.avgRequired stats) r Hwf He H2).
  apply (badge_of_class stats r _ Hr) in H.
  eexists. split; [exact H|].
  destruct (Spec.isHighVolume (Tool.avgRequired stats) r); cbn; auto.
Qed.

(** X10. A reviewer with a rejection and at least one required review never
    goes without a badge, and the badge is not one of the two rules that
    come after Gatekeeper. *)
Theorem rejection_gets_badge stats r :
  In r stats -> Tool.requiredCount r <> 0 -> 1 <= Tool.rejectedCount r ->
  exists t,
    In (r, t) (map pairOf (Tool.assignBadges stats))
    /\ t <> "Waiting Room" /\ t <> "Speed Demon".
Proof.
  intros Hr H0 Hj.
  assert (Hg : Spec.condition Spec.Gatekeeper (Tool.avgRequired stats) r
               = true).
  { unfold Spec.condition. rewrite Z.geb_leb. now apply Z.leb_le. }
  assert (Hk : exists k,
             Spec.classifyBadge (Tool.avgRequired stats) r = Some k
             /\ k <> Spec.WaitingRoom /\ k <> Spec.SpeedDemon).
  { unfold Spec.classifyBadge, Spec.ruleOrder.
    apply Z.eqb_neq in H0. rewrite H0. cbn [find]. rewrite Hg.
    repeat match goal with
           | |- context [if Spec.condition ?k ?a ?x then _ else _] =>
               destruct (Spec.condition k a x);
               [eexists; split; [reflexivity|split; discriminate]|]
           end.
    eexists; split; [reflexivity|split; discriminate]. }
  destruct Hk as (k & Hk & Hn1 & Hn2).
  apply (badge_of_class stats r _ Hr) in Hk.
  exists (Spec.badgeTitle k). split; [exact Hk|].
  destruct k; cbn; split; try discriminate; contradiction.
Qed.

Lemma single_assignment_gets_badge_witness :
  In MoreExamples.kim MoreExamples.duo
  /\ Spec.WellFormed MoreExamples.kim
  /\ Tool.requiredCount MoreExamples.kim = 1
  /\ exists t,
       In (MoreExamples.kim, t) (map pairOf (Tool.assignBadges MoreExamples.duo))
       /\ (t = "Super Reviewer" \/ t = "Needs Backup" \/ t = "Benchwarmer").
Proof.
  assert (H1 : In MoreExamples.kim MoreExamples.duo) by (right; now left).
  assert (H2 : Spec.WellFormed MoreExamples.kim)
    by (unfold Spec.WellFormed; simpl; lia).
  split; [exact H1|]. split; [exact H2|]. split; [reflexivity|].
  exact (single_assignment_gets_badge MoreExamples.duo MoreExamples.kim
           H1 H2 eq_refl).
Defined.

Lemma all_approved_gets_badge_witness :
  In Examples.ada Examples.team
  /\ Spec.WellFormed Examples.ada
  /\ Tool.approvedCount Examples.ada = Tool.requiredCount Examples.ada
  /\ 2 <= Tool.requiredCount Examples.ada
  /\ exists t,
       In (Examples.ada, t) (map pairOf (Tool.assignBadges Examples.team))
       /\ (t = "Super Reviewer" \/ t = "Flawless").
Proof.
  assert (H1 : In Examples.ada Examples.team) by (now left).
  assert (H2 : Spec.WellFormed Examples.ada)
    by (unfold Spec.WellFormed; simpl; lia).
  assert (H3 : 2 <= Tool.requiredCount Examples.ada) by (simpl; lia).
  split; [exact H1|]. split; [exact H2|]. split; [reflexivity|].
  split; [exact H3|].
  exact (all_approved_gets_badge Examples.team Examples.ada H1 H2 eq_refl H3).
Defined.

Lemma rejection_gets_badge_witness :
  In MoreExamples.cyd Examples.team
  /\ Tool.requiredCount MoreExamples.cyd <> 0
  /\ 1 <= Tool.rejectedCount MoreExamples.cyd
  /\ exists t,
       In (MoreExamples.cyd, t) (map pairOf (Tool.assignBadges Examples.team))
       /\ t <> "Waiting Room" /\ t <> "Speed Demon".
Proof.
  assert (H1 : In MoreExamples.cyd Examples.team)
    by (right; right; now left).
  assert (H2 : Tool.requiredCount MoreExamples.cyd <> 0)
    by (simpl; lia).
  assert (H3 : 1 <= Tool.rejectedCount MoreExamples.cyd) by (simpl; lia).
  split; [exact H1|]. split; [exact H2|]. split; [exact H3|].
  exact (rejection_gets_badge Examples.team MoreExamples.cyd H1 H2 H3).
Defined.

(* ================================================================== *)
(** ** Configuration and fetching *)

Lemma fold_left_step_flat_map {A B} (step : list B -> A -> list B)
  (g : A -> list B) (l : list A) acc :
  (forall acc x, step acc x = (acc ++ g x)%list) ->
  fold_left step l acc = (acc ++ flat_map g l)%list.
Proof.
  intros Hstep. revert acc. induction l as [|x l IH]; intros acc; simpl.
  - now rewrite app_nil_r.
  - now rewrite IH, Hstep, app_assoc.
Qed.

Lemma collectProject_readable gitApi criteria project repos :
  Fetch.collectProject gitApi criteria project repos
  = flat_map (readable gitApi criteria project) repos.
Proof.
  unfold Fetch.collectProject.
  rewrite (fold_left_step_flat_map _ (readable gitApi criteria project));
    [reflexivity|].
  intros acc r. unfold readable.
  destruct (Fetch.truthy (Fetch.name r)); simpl.
  - now destruct (Fetch.getPullRequests gitApi _ criteria project 100);
      rewrite ?app_nil_r.
  - now rewrite app_nil_r.
Qed.

Lemma collectOrg_readable gitApi criteria repos :
  Fetch.collectOrg gitApi criteria repos
  = flat_map
      (fun r =>
         if Fetch.truthy (Fetch.projectOf r)
         then readable gitApi criteria (Fetch.str (Fetch.projectOf r)) r
         else [])
      repos.
Proof.
  unfold Fetch.collectOrg.
  rewrite (fold_left_step_flat_map _
             (fun r =>
                if Fetch.truthy (Fetch.projectOf r)
                then readable gitApi criteria (Fetch.str (Fetch.projectOf r)) r
                else []));
    [reflexivity|].
  intros acc r. unfold readable.
  destruct (Fetch.truthy (Fetch.name r)),
           (Fetch.truthy (Fetch.projectOf r)); simpl;
    rewrite ?app_nil_r; auto.
  now destruct (Fetch.getPullRequests gitApi _ criteria _ 100);
    rewrite ?app_nil_r.
Qed.

(** X11. When no single repository is named, a repository whose pull
    requests cannot be read does not fail the call: once the repositories
    are listed, [reviewerStats] succeeds, and it aggregates, in the order
    of the repositories, the pull requests of those that have a name (and,
    organization-wide, a project name) and can be read. *)
Theorem unreadable_repositories_are_skipped
  random config config' env getGitApi params defaults org gitApi repos :
  Fetch.getDefaults config env = (inr defaults, config') ->
  Fetch.requireOrg (Fetch.p_organization params)
    (Fetch.organization defaults) = inr org ->
  getGitApi org = inr gitApi ->
  let project :=
    Fetch.or_undefined (Fetch.p_project params) (Fetch.project defaults) in
  let repo :=
    Fetch.or_undefined (Fetch.p_repository params)
      (Fetch.repository defaults) in
  let criteria := Fetch.statusToEnum (Fetch.p_status params) in
  Fetch.truthy project && Fetch.truthy repo = false ->
  Fetch.getRepositories gitApi
    (if Fetch.truthy project then project else None) = inr repos ->
  let allPRs :=
    if Fetch.truthy project
    then flat_map (readable gitApi criteria (Fetch.str project)) repos
    else flat_map
           (fun r =>
              if Fetch.truthy (Fetch.projectOf r)
              then readable gitApi criteria (Fetch.str (Fetch.projectOf r)) r
              else [])
           repos in
  let result :=
    fst (Fetch.reviewerStats random config env getGitApi params) in
  Fetch.success result = true
  /\ Fetch.error result = None
  /\ Fetch.data result
     = Tool.data (Tool.reviewerStats random allPRs
                    (Fetch.p_requiredOnly params)).
Proof.
  intros Hd Ho Hg project repo criteria Hmode Hrepos allPRs result.
  unfold result, Fetch.reviewerStats. rewrite Hd, Ho, Hg.
  fold project repo criteria. unfold Fetch.fetchAll. rewrite Hmode.
  unfold allPRs.
  destruct (Fetch.truthy project); rewrite Hrepos;
    rewrite ?collectProject_readable, ?collectOrg_readable;
    repeat split.
Qed.

(** X12. When a project and a repository are named, [reviewerStats] fails
    exactly when the pull requests of that repository cannot be read, with
    the message of the service after "Failed to get reviewer stats: " and
    the code REVIEWER_STATS_FAILED; otherwise it aggregates what was
    read. *)
Theorem named_repository_failure_is_reported
  random config config' env getGitApi params defaults org gitApi :
  Fetch.getDefaults config env = (inr defaults, config') ->
  Fetch.requireOrg (Fetch.p_organization params)
    (Fetch.organization defaults) = inr org ->
  getGitApi org = inr gitApi ->
  let project :=
    Fetch.or_undefined (Fetch.p_project params) (Fetch.project defaults) in
  let repo :=
    Fetch.or_undefined (Fetch.p_repository params)
      (Fetch.repository defaults) in
  Fetch.truthy project && Fetch.truthy repo = true ->
  fst (Fetch.reviewerStats random config env getGitApi params)
  = match Fetch.getPullRequests gitApi (Fetch.str repo)
            (Fetch.statusToEnum (Fetch.p_status params))
            (Fetch.str project) 100 with
    | inl e =>
        {| Fetch.success := false;
           Fetch.message := "Failed to get reviewer stats: " ++ e;
           Fetch.data := None;
           Fetch.error := Some "REVIEWER_STATS_FAILED" |}
    | inr allPRs =>
        let r :=
          Tool.reviewerStats random allPRs (Fetch.p_requiredOnly params) in
        {| Fetch.success := true; Fetch.message := Tool.message r;
           Fetch.data := Tool.data r; Fetch.error := None |}
    end.
Proof.
  intros Hd Ho Hg project repo Hmode.
  unfold Fetch.reviewerStats. rewrite Hd, Ho, Hg.
  fold project repo. unfold Fetch.fetchAll. rewrite Hmode.
  now destruct (Fetch.getPullRequests gitApi _ _ _ 100).
Qed.

Lemma unreadable_repositories_are_skipped_witness :
  Fetch.success
    (fst (Fetch.reviewerStats 0.5 None Contoso.env Contoso.getGitApi
            Contoso.everything)) = true
  /\ option_map Tool.totalPRs
       (Fetch.data
          (fst (Fetch.reviewerStats 0.5 None Contoso.env Contoso.getGitApi
                  Contoso.everything))) = Some 3.
Proof.
  destruct (unreadable_repositories_are_skipped 0.5%Q None _ Contoso.env
              Contoso.getGitApi Contoso.everything _ "contoso"
              Contoso.gitApi _ eq_refl eq_refl eq_refl eq_refl eq_refl)
    as (Hs & _ & Hd).
  split; [exact Hs|]. rewrite Hd. vm_compute. reflexivity.
Defined.

Lemma named_repository_failure_is_reported_witness :
  fst (Fetch.reviewerStats 0.5 None Contoso.env Contoso.getGitApi
         Contoso.vaultOnly)
  = {| Fetch.success := false;
       Fetch.message :=
         "Failed to get reviewer stats: TF401019: the repository cannot be read";
       Fetch.data := None;
       Fetch.error := Some "REVIEWER_STATS_FAILED" |}.
Proof.
  rewrite (named_repository_failure_is_reported 0.5%Q None _ Contoso.env
             Contoso.getGitApi Contoso.vaultOnly _ "contoso" Contoso.gitApi
             eq_refl eq_refl eq_refl eq_refl).
  reflexivity.
Defined.

(** X13. Without an access token in the environment (missing or empty) and
    no configuration loaded yet, [reviewerStats] fails with the
    token message for every request and every service, and leaves the
    configuration unloaded, so that the next call reads the environment
    again. *)
Theorem missing_token_fails_every_request random env getGitApi params :
  Fetch.truthy (Fetch.AZURE_DEVOPS_PAT env) = false ->
  Fetch.reviewerStats random None env getGitApi params
  = ({| Fetch.success := false;
        Fetch.message :=
          "Failed to get reviewer stats: "
          ++ "AZURE_DEVOPS_PAT environment variable is required." ++ Fetch.nl
          ++ "Create a PAT at: https://dev.azure.com/{org}/_usersSettings/tokens"
          ++ Fetch.nl
          ++ "Required scopes: Code (Read & Write), Pull Request Threads (Read & Write)";
        Fetch.data := None;
        Fetch.error := Some "REVIEWER_STATS_FAILED" |}, None).
Proof.
  intros H. unfold Fetch.reviewerStats, Fetch.getDefaults, Fetch.getConfig.
  rewrite H. reflexivity.
Qed.

Lemma missing_token_fails_every_request_witness :
  Fetch.truthy (Fetch.AZURE_DEVOPS_PAT Contoso.noToken) = false
  /\ Fetch.success
       (fst (Fetch.reviewerStats 0.5 None Contoso.noToken Contoso.getGitApi
               Contoso.everything)) = false.
Proof.
  split; [reflexivity|].
  now rewrite (missing_token_fails_every_request 0.5%Q Contoso.noToken
                 Contoso.getGitApi Contoso.everything eq_refl).
Defined.

(** X14. The configuration is read from the environment once: after a
    call of [getConfig] that succeeded, every later call returns the same
    configuration whatever the environment has become; after a call that
    failed nothing is kept, and a later call succeeds as soon as a token is
    there. *)
Theorem config_is_read_once env1 env2 :
  match Fetch.getConfig None env1 with
  | (inr c, kept) =>
      kept = Some c
      /\ Fetch.getConfig kept env2 = (inr c, kept)
      /\ Fetch.truthy (Some (Fetch.pat c)) = true
  | (inl _, kept) =>
      kept = None
      /\ (Fetch.truthy (Fetch.AZURE_DEVOPS_PAT env2) = true ->
          exists c, Fetch.getConfig kept env2 = (inr c, Some c))
  end.
Proof.
  unfold Fetch.getConfig at 1.
  destruct (Fetch.truthy (Fetch.AZURE_DEVOPS_PAT env1)) eqn:E; cbn [negb].
  - repeat split.
    destruct (Fetch.AZURE_DEVOPS_PAT env1); [exact E|discriminate].
  - split; [reflexivity|]. intros H. unfold Fetch.getConfig. rewrite H.
    eexists. reflexivity.
Qed.

(** X15. With a token but no organization, neither in the request nor in
    the environment (missing or empty), [reviewerStats] fails with
    "Organization is required", whatever the service would answer. *)
Theorem organization_is_required random env getGitApi params :
  Fetch.truthy (Fetch.AZURE_DEVOPS_PAT env) = true ->
  Fetch.truthy (Fetch.p_organization params) = false ->
  Fetch.truthy (Fetch.AZURE_DEVOPS_ORG env) = false ->
  fst (Fetch.reviewerStats random None env getGitApi params)
  = {| Fetch.success := false;
       Fetch.message :=
         "Failed to get reviewer stats: Organization is required. Provide --org or set AZURE_DEVOPS_ORG in .env";
       Fetch.data := None;
       Fetch.error := Some "REVIEWER_STATS_FAILED" |}.
Proof.
  intros Hp Ho He.
  unfold Fetch.reviewerStats, Fetch.getDefaults, Fetch.getConfig.
  rewrite Hp. cbn [negb Fetch.organization Fetch.defaultOrg].
  assert (Hr : Fetch.requireOrg (Fetch.p_organization params)
                 (Fetch.AZURE_DEVOPS_ORG env)
               = inl "Organization is required. Provide --org or set AZURE_DEVOPS_ORG in .env").
  { unfold Fetch.requireOrg, Fetch.or_undefined, Fetch.truthy in *.
    destruct (Fetch.p_organization params) as [o|],
             (Fetch.AZURE_DEVOPS_ORG env) as [d|];
      try (apply negb_false_iff in Ho; rewrite Ho);
      try (rewrite He); reflexivity. }
  now rewrite Hr.
Qed.

Lemma organization_is_required_witness :
  Fetch.truthy (Fetch.AZURE_DEVOPS_PAT Contoso.noOrg) = true
  /\ Fetch.truthy (Fetch.p_organization Contoso.everything) = false
  /\ Fetch.truthy (Fetch.AZURE_DEVOPS_ORG Contoso.noOrg) = false
  /\ Fetch.success
       (fst (Fetch.reviewerStats 0.5 None Contoso.noOrg Contoso.getGitApi
               Contoso.everything)) = false.
Proof.
  repeat (split; [reflexivity|]).
  now rewrite (organization_is_required 0.5%Q Contoso.noOrg
                 Contoso.getGitApi Contoso.everything eq_refl eq_refl eq_refl).
Defined.

(* ================================================================== *)
(** ** The user cache *)

Lemma trimStart_blank p s :
  blank p -> UserCache.trimStart (p ++ s) = UserCache.trimStart s.
Proof.
  induction p as [|c p IH]; simpl; auto.
  intros [Hc Hp]. rewrite Hc. auto.
Qed.

Lemma trimEnd_blank q : blank q -> UserCache.trimEnd q = "".
Proof.
  induction q as [|c q IH]; simpl; auto.
  intros [Hc Hq]. now rewrite (IH Hq), Hc.
Qed.

Lemma trimEnd_app_blank s q :
  blank q -> UserCache.trimEnd (s ++ q) = UserCache.trimEnd s.
Proof.
  intros Hq. induction s as [|c s IH]; simpl.
  - now apply trimEnd_blank.
  - now rewrite IH.
Qed.

Lemma trim_app_blank s q :
  blank q -> UserCache.trim (s ++ q) = UserCache.trim s.
Proof.
  intros Hq. unfold UserCache.trim.
  induction s as [|c s IH]; simpl.
  - assert (Hs : UserCache.trimStart q = "").
    { clear - Hq. induction q as [|c q IH]; simpl; auto.
      destruct Hq as [Hc Hq]. rewrite Hc. auto. }
    now rewrite Hs.
  - destruct (UserCache.isSpace c); auto.
    change (String c (s ++ q)) with (String c s ++ q)%string.
    now apply trimEnd_app_blank.
Qed.

Lemma trim_blank_around p s q :
  blank p -> blank q -> UserCache.trim (p ++ s ++ q) = UserCache.trim s.
Proof.
  intros Hp Hq. unfold UserCache.trim. rewrite trimStart_blank by auto.
  now apply trim_app_blank.
Qed.

Lemma toLowerCase_app a b :
  Js.toLowerCase (a ++ b) = (Js.toLowerCase a ++ Js.toLowerCase b)%string.
Proof. induction a as [|c a IH]; simpl; auto. now rewrite IH. Qed.

Lemma lower_space c : UserCache.isSpace c = true -> Js.lower_char c = c.
Proof.
  unfold UserCache.isSpace, Js.lower_char. intros H.
  destruct ((65 <=? nat_of_ascii c)%nat && (nat_of_ascii c <=? 90)%nat) eqn:E;
    auto.
  apply andb_true_iff in E as [E1 E2]. apply Nat.leb_le in E1.
  apply orb_true_iff in H as [H|H].
  - apply andb_true_iff in H as [_ H]. apply Nat.leb_le in H. lia.
  - apply Nat.eqb_eq in H. lia.
Qed.

Lemma toLowerCase_blank p : blank p -> Js.toLowerCase p = p.
Proof.
  induction p as [|c p IH]; simpl; auto.
  intros [Hc Hp]. now rewrite (lower_space c Hc), IH.
Qed.

Lemma normalize_variation p q e e2 :
  blank p -> blank q -> eq_ignore_case e e2 ->
  UserCache.trim (Js.toLowerCase (p ++ e2 ++ q))
  = UserCache.trim (Js.toLowerCase e).
Proof.
  intros Hp Hq He.
  rewrite !toLowerCase_app, (toLowerCase_blank p Hp), (toLowerCase_blank q Hq).
  rewrite trim_blank_around by auto.
  now rewrite (eq_ignore_case_lower e e2 He).
Qed.

Lemma unknown_find e :
  UserCache.isKnownUser e = false ->
  find (fun entry =>
          String.eqb (Js.toLowerCase (fst entry))
            (UserCache.trim (Js.toLowerCase e)))
    UserCache.KNOWN_USERS = None.
Proof.
  unfold UserCache.isKnownUser.
  induction UserCache.KNOWN_USERS as [|x l IH]; simpl; auto.
  intros H. apply orb_false_iff in H as [H1 H2]. rewrite H1. auto.
Qed.

(** X16. An id cached for an email of ASCII characters that is not in
    the built-in table is found again under that email in any case of the
    letters A to Z and with any ASCII white space around it, provided the
    id is not empty; an empty id is never returned, whatever the cache
    held before. *)
Theorem cached_id_round_trip runtimeCache e e2 p q userId :
  isAscii e = true ->
  UserCache.isKnownUser e = false ->
  blank p -> blank q -> eq_ignore_case e e2 ->
  UserCache.getUserId (UserCache.cacheUserId runtimeCache e userId)
    (p ++ e2 ++ q)
  = if String.eqb userId "" then None else Some userId.
Proof.
  intros _ Hk Hp Hq He. unfold UserCache.getUserId, UserCache.cacheUserId.
  rewrite (normalize_variation p q e e2 Hp Hq He).
  now rewrite (unknown_find e Hk), get_set_same.
Qed.

Lemma cached_id_round_trip_witness :
  isAscii "New.Hire@Example.com" = true
  /\ UserCache.isKnownUser "New.Hire@Example.com" = false
  /\ blank " " /\ blank (String "009" "")
  /\ eq_ignore_case "New.Hire@Example.com" "new.hire@EXAMPLE.com"
  /\ UserCache.getUserId
       (UserCache.cacheUserId [] "New.Hire@Example.com" "id-42")
       (" " ++ "new.hire@EXAMPLE.com" ++ String "009" "")
     = Some "id-42".
Proof.
  assert (H1 : UserCache.isKnownUser "New.Hire@Example.com" = false)
    by reflexivity.
  assert (H2 : blank " ") by (simpl; auto).
  assert (H3 : blank (String "009" "")) by (simpl; auto).
  assert (H4 : eq_ignore_case "New.Hire@Example.com" "new.hire@EXAMPLE.com")
    by same_case.
  split; [reflexivity|].
  split; [exact H1|]. split; [exact H2|]. split; [exact H3|].
  split; [exact H4|].
  exact (cached_id_round_trip [] "New.Hire@Example.com" _ _ _ "id-42"
           eq_refl H1 H2 H3 H4).
Defined.

Lemma known_entries_resolve :
  Forall
    (fun entry =>
       find (fun entry' =>
               String.eqb (Js.toLowerCase (fst entry'))
                 (UserCache.trim (Js.toLowerCase (fst entry))))
         UserCache.KNOWN_USERS = Some entry)
    UserCache.KNOWN_USERS.
Proof. repeat constructor. Qed.

(** X17. The built-in table has precedence over the cache: an email of the
    table, in any letter case and with any white space around it, resolves
    to the id of the table whatever has been cached, also under that very
    email. *)
Theorem known_users_ignore_the_cache runtimeCache e userId e2 p q :
  In (e, userId) UserCache.KNOWN_USERS ->
  blank p -> blank q -> eq_ignore_case e e2 ->
  UserCache.getUserId runtimeCache (p ++ e2 ++ q) = Some userId
  /\ UserCache.isKnownUser (p ++ e2 ++ q) = true
  /\ forall other,
       UserCache.getUserId (UserCache.cacheUserId runtimeCache e2 other)
         (p ++ e2 ++ q) = Some userId.
Proof.
  intros Hin Hp Hq He.
  assert (Hfind := known_entries_resolve).
  rewrite Forall_forall in Hfind. specialize (Hfind _ Hin). cbn [fst] in Hfind.
  assert (Hget : forall cache,
            UserCache.getUserId cache (p ++ e2 ++ q) = Some userId).
  { intros cache. unfold UserCache.getUserId.
    now rewrite (normalize_variation p q e e2 Hp Hq He), Hfind. }
  split; [apply Hget|]. split; [|intros other; apply Hget].
  unfold UserCache.isKnownUser.
  rewrite (normalize_variation p q e e2 Hp Hq He).
  apply existsb_exists. exists e. split.
  - apply in_map_iff. exists (e, userId). auto.
  - apply find_some in Hfind as [_ Hf]. exact Hf.
Qed.

Lemma known_users_ignore_the_cache_witness :
  In ("victoria.day@sviworld.com", "32867386-d4ae-4ef3-b793-5955e6b083ae")
    UserCache.KNOWN_USERS
  /\ eq_ignore_case "victoria.day@sviworld.com" "Victoria.Day@SVIworld.com"
  /\ UserCache.getUserId
       (UserCache.cacheUserId [] "Victoria.Day@SVIworld.com" "other")
       ("" ++ "Victoria.Day@SVIworld.com" ++ " ")
     = Some "32867386-d4ae-4ef3-b793-5955e6b083ae".
Proof.
  assert (H1 : In ("victoria.day@sviworld.com",
                   "32867386-d4ae-4ef3-b793-5955e6b083ae")
                 UserCache.KNOWN_USERS)
    by (do 4 right; left; reflexivity).
  assert (H4 : eq_ignore_case "victoria.day@sviworld.com"
                 "Victoria.Day@SVIworld.com") by same_case.
  split; [exact H1|]. split; [exact H4|].
  assert (Hp : blank "") by exact I.
  assert (Hq : blank " ") by (simpl; auto).
  exact (proj2 (proj2
           (known_users_ignore_the_cache [] _ _ _ "" " " H1 Hp Hq H4))
           "other").
Defined.

(* ------------------------------------------------------------------ *)
(** *** Pull request identifiers *)

Lemma span_all (f : ascii -> bool) (s : string) :
  snd (UrlParser.span f s) = "" -> UrlParser.span f s = (s, "").
Proof.
  induction s as [|c s IH]; cbn; [reflexivity|].
  destruct (f c); [|discriminate].
  destruct (UrlParser.span f s) as [a b]; cbn in *.
  intros Hb. injection (IH Hb) as -> ->. reflexivity.
Qed.

Lemma span_app_stop (f : ascii -> bool) (s : string) (c : ascii) (r : string) :
  snd (UrlParser.span f s) = "" -> f c = false ->
  UrlParser.span f (s ++ String c r) = (s, String c r).
Proof.
  intros Hs Hc. induction s as [|a s IH]; cbn in *.
  - now rewrite Hc.
  - destruct (f a); [|discriminate].
    destruct (UrlParser.span f s) as [x y]; cbn in *.
    now rewrite (IH Hs).
Qed.

Lemma eqb_nonempty (s : string) : s <> "" -> String.eqb s "" = false.
Proof. destruct s; [congruence|reflexivity]. Qed.

Lemma segment_app (s r : string) :
  slashFree s -> UrlParser.segment (s ++ String "/" r) = Some (s, r).
Proof.
  intros [Hne Hs]. unfold UrlParser.segment.
  rewrite (span_app_stop UrlParser.notSlash s "/" r Hs eq_refl).
  now rewrite (eqb_nonempty _ Hne).
Qed.

Lemma literal_app (l r : string) : UrlParser.literal l (l ++ r) = Some r.
Proof.
  induction l as [|c l IH]; cbn; [reflexivity|].
  now rewrite Ascii.eqb_refl.
Qed.

Lemma uint_digits (d : Decimal.uint) :
  snd (UrlParser.span UrlParser.isDigit (NilEmpty.string_of_uint d)) = "".
Proof.
  induction d; cbn; try reflexivity;
    destruct (UrlParser.span _ _); assumption.
Qed.

Lemma uint_nonempty (d : Decimal.uint) :
  d <> Decimal.Nil -> NilEmpty.string_of_uint d <> "".
Proof. destruct d; cbn; congruence. Qed.

Lemma String_of_uint (n : Z) :
  0 <= n ->
  exists d, d <> Decimal.Nil
            /\ Js.String_of n = NilEmpty.string_of_uint d
            /\ Z.of_uint d = n.
Proof.
  intros Hn. destruct n as [|p|p]; [| |lia].
  - exists (Decimal.D0 Decimal.Nil). repeat split. discriminate.
  - exists (Pos.to_uint p).
    pose proof (DecimalPos.Unsigned.to_uint_nonnil p) as Hnil.
    split; [exact Hnil|]. split.
    + unfold Js.String_of. cbn.
      destruct (Pos.to_uint p); congruence || reflexivity.
    + unfold Z.of_uint. now rewrite DecimalPos.Unsigned.of_to.
Qed.

Lemma digits_String_of (n : Z) (r : string) :
  0 <= n ->
  UrlParser.span UrlParser.isDigit (Js.String_of n) = (Js.String_of n, "")
  /\ Js.String_of n <> ""
  /\ UrlParser.parseInt (Js.String_of n) = n.
Proof.
  intros Hn. destruct (String_of_uint n Hn) as (d & Hd & -> & <-).
  split; [apply span_all, uint_digits|].
  split; [now apply uint_nonempty|].
  unfold UrlParser.parseInt. now rewrite NilEmpty.usu.
Qed.

Lemma urlMatch_build (id : UrlParser.PRIdentifier) :
  slashFree (UrlParser.organization id) ->
  slashFree (UrlParser.project id) ->
  slashFree (UrlParser.repository id) ->
  0 <= UrlParser.pullRequestId id ->
  UrlParser.urlMatch (UrlParser.buildPRUrl id) = Some id.
Proof.
  intros Ho Hp Hr Hn. destruct id as [o p r n]; cbn [UrlParser.organization
    UrlParser.project UrlParser.repository UrlParser.pullRequestId] in *.
  unfold UrlParser.buildPRUrl; cbn [UrlParser.organization
    UrlParser.project UrlParser.repository UrlParser.pullRequestId].
  destruct (digits_String_of n "" Hn) as (Hd & Hne & Hi).
  change ("https://dev.azure.com/" ++ o ++ "/" ++ p ++ "/_git/" ++ r
          ++ "/pullrequest/" ++ Js.String_of n)
    with ("https://" ++ "dev.azure.com/"
          ++ (o ++ String "/"
               (p ++ String "/"
                 ("_git/" ++ (r ++ String "/"
                               ("pullrequest/" ++ Js.String_of n)))))).
  set (tail := (o ++ _)%string).
  assert (Hat : UrlParser.urlAt ("dev.azure.com/" ++ tail)
                = Some {| UrlParser.organization := o;
                          UrlParser.project := p;
                          UrlParser.repository := r;
                          UrlParser.pullRequestId := n |}).
  { unfold UrlParser.urlAt. rewrite literal_app. cbn [UrlParser.bind].
    subst tail. rewrite (segment_app _ _ Ho). cbn [UrlParser.bind snd fst].
    rewrite (segment_app _ _ Hp). cbn [UrlParser.bind snd fst].
    rewrite literal_app. cbn [UrlParser.bind].
    rewrite (segment_app _ _ Hr). cbn [UrlParser.bind snd fst].
    rewrite literal_app. cbn [UrlParser.bind].
    unfold UrlParser.digits. rewrite Hd, (eqb_nonempty _ Hne).
    cbn [UrlParser.bind snd fst]. now rewrite Hi. }
  do 8 (cbn [append]; unfold UrlParser.urlMatch at 1;
        fold UrlParser.urlMatch;
        match goal with
        | |- context [UrlParser.urlAt (String ?c ?s)] =>
            change (UrlParser.urlAt (String c s)) with (@None UrlParser.PRIdentifier)
        end).
  cbn [append] in Hat. unfold UrlParser.urlMatch at 1.
  now rewrite Hat.
Qed.

(** X18 (url-parser.ts, parsePRInput and buildPRUrl): parsing the URL
    that [buildPRUrl] builds gives the identifier back, whatever the
    overrides and the configured defaults are, when the configuration
    can be read, the three names are non-empty and hold no slash, and
    the number is a safe integer that is not negative. *)
Theorem url_round_trip
  (config config' : option Fetch.AzureDevOpsConfig) (env : Fetch.Env)
  (defaults : Fetch.Defaults) (overrides : option UrlParser.Overrides)
  (id : UrlParser.PRIdentifier) :
  Fetch.getDefaults config env = (inr defaults, config') ->
  slashFree (UrlParser.organization id) ->
  slashFree (UrlParser.project id) ->
  slashFree (UrlParser.repository id) ->
  0 <= UrlParser.pullRequestId id <= MAX_SAFE_INTEGER ->
  UrlParser.parsePRInput config env (UrlParser.buildPRUrl id) overrides
  = (inr id, config').
Proof.
  intros Hdef Ho Hp Hr [Hn _]. unfold UrlParser.parsePRInput.
  rewrite Hdef. now rewrite (urlMatch_build id Ho Hp Hr Hn).
Qed.

Lemma url_round_trip_witness :
  UrlParser.parsePRInput None Contoso.env
    (UrlParser.buildPRUrl Links.web123) Links.shopWeb
  = (inr Links.web123, snd (Fetch.getDefaults None Contoso.env)).
Proof.
  eapply url_round_trip.
  - vm_compute. reflexivity.
  - split; [discriminate|reflexivity].
  - split; [discriminate|reflexivity].
  - split; [discriminate|reflexivity].
  - split; vm_compute; discriminate.
Defined.

Lemma digit_not_letter (c : ascii) :
  UrlParser.isDigit c = true -> Ascii.eqb "d" c = false.
Proof.
  intros Hc. destruct (Ascii.eqb_spec "d" c) as [<-|]; [|reflexivity].
  vm_compute in Hc. discriminate.
Qed.

Lemma digit_not_s (c : ascii) :
  UrlParser.isDigit c = true -> Ascii.eqb "s" c = false.
Proof.
  intros Hc. destruct (Ascii.eqb_spec "s" c) as [<-|]; [|reflexivity].
  vm_compute in Hc. discriminate.
Qed.

Lemma digits_match_nothing_else (s : string) :
  snd (UrlParser.span UrlParser.isDigit s) = "" ->
  UrlParser.urlMatch s = None /\ UrlParser.sshMatch s = false.
Proof.
  induction s as [|c s IH]; [now vm_compute|].
  cbn [UrlParser.span]. destruct (UrlParser.isDigit c) eqn:Hc; [|discriminate].
  destruct (UrlParser.span UrlParser.isDigit s) as [a b]; cbn [snd] in *.
  intros Hb. destruct (IH Hb) as [Hu Hs]. split.
  - cbn [UrlParser.urlMatch]. unfold UrlParser.urlAt.
    cbn [UrlParser.literal]. rewrite (digit_not_letter c Hc).
    cbn [UrlParser.bind]. exact Hu.
  - cbn [UrlParser.sshMatch]. unfold UrlParser.sshAt.
    cbn [UrlParser.literal]. rewrite (digit_not_s c Hc).
    cbn [UrlParser.bind orb]. exact Hs.
Qed.

(** X19 (url-parser.ts, parsePRInput): the decimal form of a safe
    integer [n >= 0] is taken as the pull request id [n], with organization, project and repository
    each read from the override, or from the configured default when the
    override is missing or empty; when one of the three is found in
    neither place, the call fails. *)
Theorem bare_number_needs_all_three
  (config config' : option Fetch.AzureDevOpsConfig) (env : Fetch.Env)
  (defaults : Fetch.Defaults) (overrides : option UrlParser.Overrides)
  (n : Z) :
  Fetch.getDefaults config env = (inr defaults, config') ->
  0 <= n <= MAX_SAFE_INTEGER ->
  let org :=
    Fetch.or_undefined (UrlParser.bind overrides UrlParser.o_organization)
      (Fetch.organization defaults) in
  let project :=
    Fetch.or_undefined (UrlParser.bind overrides UrlParser.o_project)
      (Fetch.project defaults) in
  let repo :=
    Fetch.or_undefined (UrlParser.bind overrides UrlParser.o_repository)
      (Fetch.repository defaults) in
  if Fetch.truthy org && Fetch.truthy project && Fetch.truthy repo then
    UrlParser.parsePRInput config env (Js.String_of n) overrides
    = (inr {| UrlParser.organization := Fetch.str org;
              UrlParser.project := Fetch.str project;
              UrlParser.repository := Fetch.str repo;
              UrlParser.pullRequestId := n |}, config')
  else
    exists e,
      UrlParser.parsePRInput config env (Js.String_of n) overrides
      = (inl e, config').
Proof.
  intros Hdef [Hn _] org project repo.
  destruct (digits_String_of n "" Hn) as (Hd & Hne & Hi).
  assert (Hall : snd (UrlParser.span UrlParser.isDigit (Js.String_of n)) = "")
    by now rewrite Hd.
  destruct (digits_match_nothing_else _ Hall) as [Hu Hs].
  unfold UrlParser.parsePRInput. rewrite Hdef, Hu, Hs.
  unfold UrlParser.idMatch, UrlParser.digits.
  rewrite Hd, (eqb_nonempty _ Hne), Hi.
  fold org project repo.
  destruct (Fetch.truthy org), (Fetch.truthy project), (Fetch.truthy repo);
    cbn [negb orb andb]; try reflexivity; eexists; reflexivity.
Qed.

Lemma bare_number_needs_all_three_witness :
  UrlParser.parsePRInput None Contoso.env (Js.String_of 123) Links.shopWeb
  = (inr Links.web123, snd (Fetch.getDefaults None Contoso.env)).
Proof.
  assert (Hn : 0 <= 123 <= MAX_SAFE_INTEGER)
    by (split; vm_compute; discriminate).
  exact (bare_number_needs_all_three None _ Contoso.env _ Links.shopWeb 123
           eq_refl Hn).
Defined.

Lemma slashes_app (a b : string) :
  slashes (a ++ b) = (slashes a + slashes b)%nat.
Proof.
  induction a as [|c a IH]; cbn; [reflexivity|].
  destruct (UrlParser.notSlash c); now rewrite IH.
Qed.

Lemma span_slashes (s a b : string) :
  UrlParser.span UrlParser.notSlash s = (a, b) ->
  slashes a = O /\ slashes s = slashes b
  /\ match b with
     | String c _ => UrlParser.notSlash c = false
     | EmptyString => True
     end.
Proof.
  revert a b. induction s as [|c s IH]; cbn; intros a b H.
  - now injection H as <- <-.
  - destruct (UrlParser.notSlash c) eqn:Hc.
    + destruct (UrlParser.span UrlParser.notSlash s) as [x y].
      injection H as <- <-. destruct (IH x y eq_refl) as (Hx & Hy & Hz).
      cbn. now rewrite Hc.
    + injection H as <- <-. cbn. now rewrite Hc.
Qed.

Lemma slashFree_slashes (s : string) : slashFree s -> slashes s = O.
Proof.
  intros [_ Hs]. pose proof (span_all _ _ Hs) as H.
  now destruct (span_slashes _ _ _ H) as (Ha & _).
Qed.

Lemma literal_slashes (l s r : string) :
  UrlParser.literal l s = Some r ->
  slashes s = (slashes l + slashes r)%nat.
Proof.
  revert s. induction l as [|c l IH]; cbn; intros s H.
  - now injection H as ->.
  - destruct s as [|d s]; [discriminate|].
    destruct (Ascii.eqb_spec c d) as [<-|]; [|discriminate].
    cbn. rewrite (IH _ H). now destruct (UrlParser.notSlash c).
Qed.

Lemma segment_slashes (s a r : string) :
  UrlParser.segment s = Some (a, r) -> slashes s = S (slashes r).
Proof.
  unfold UrlParser.segment.
  destruct (UrlParser.span UrlParser.notSlash s) as [x y] eqn:E.
  destruct (span_slashes _ _ _ E) as (_ & Hs & Hc).
  destruct (String.eqb x ""); [discriminate|].
  destruct y as [|c y]; [discriminate|].
  intros H. injection H as <- <-. rewrite Hs. cbn. now rewrite Hc.
Qed.

Lemma urlAt_slashes (s : string) (id : UrlParser.PRIdentifier) :
  UrlParser.urlAt s = Some id -> (6 <= slashes s)%nat.
Proof.
  unfold UrlParser.urlAt, UrlParser.bind.
  destruct (UrlParser.literal "dev.azure.com/" s) as [s1|] eqn:E1;
    [|discriminate].
  destruct (UrlParser.segment s1) as [[o s2]|] eqn:E2; [|discriminate].
  cbn [snd fst].
  destruct (UrlParser.segment s2) as [[p s3]|] eqn:E3; [|discriminate].
  cbn [snd fst].
  destruct (UrlParser.literal "_git/" s3) as [s4|] eqn:E4; [|discriminate].
  destruct (UrlParser.segment s4) as [[r s5]|] eqn:E5; [|discriminate].
  cbn [snd fst].
  destruct (UrlParser.literal "pullrequest/" s5) as [s6|] eqn:E6;
    [|discriminate].
  intros _.
  apply literal_slashes in E1, E4, E6.
  apply segment_slashes in E2, E3, E5.
  change (slashes "dev.azure.com/") with 1%nat in E1.
  change (slashes "_git/") with 1%nat in E4.
  change (slashes "pullrequest/") with 1%nat in E6.
  lia.
Qed.

Lemma urlMatch_slashes (s : string) (id : UrlParser.PRIdentifier) :
  UrlParser.urlMatch s = Some id -> (6 <= slashes s)%nat.
Proof.
  induction s as [|c s IH]; cbn [UrlParser.urlMatch].
  - destruct (UrlParser.urlAt "") eqn:E; [|discriminate].
    intros _. exact (urlAt_slashes _ _ E).
  - destruct (UrlParser.urlAt (String c s)) eqn:E.
    + intros _. exact (urlAt_slashes _ _ E).
    + intros H. specialize (IH H). cbn [slashes].
      destruct (UrlParser.notSlash c); lia.
Qed.

Lemma sshMatch_app (pre s : string) :
  UrlParser.sshAt s = true -> UrlParser.sshMatch (pre ++ s) = true.
Proof.
  intros Hs. induction pre as [|c pre IH]; cbn [append].
  - destruct s; cbn [UrlParser.sshMatch]; now rewrite Hs.
  - cbn [UrlParser.sshMatch]. rewrite IH. apply orb_true_r.
Qed.

(** X20 (url-parser.ts, parsePRInput): an SSH remote
    [...ssh.dev.azure.com:v3/org/project/repo], with at most two slashes
    before it, is never read as a pull request: the call fails with the
    message that SSH URLs hold no pull request id. *)
Theorem ssh_remote_is_refused
  (config config' : option Fetch.AzureDevOpsConfig) (env : Fetch.Env)
  (defaults : Fetch.Defaults) (overrides : option UrlParser.Overrides)
  (pre org project repo : string) :
  Fetch.getDefaults config env = (inr defaults, config') ->
  (slashes pre < 3)%nat ->
  slashFree org -> slashFree project -> slashFree repo ->
  UrlParser.parsePRInput config env
    (pre ++ "ssh.dev.azure.com:v3/" ++ org ++ "/" ++ project ++ "/" ++ repo)
    overrides
  = (inl "SSH URLs don't contain PR IDs. Please provide the full PR URL or just the PR ID.",
     config').
Proof.
  intros Hdef Hpre Ho Hp Hr. unfold UrlParser.parsePRInput. rewrite Hdef.
  set (remote := ("ssh.dev.azure.com:v3/" ++ org ++ "/" ++ project ++ "/"
                  ++ repo)%string).
  destruct (UrlParser.urlMatch (pre ++ remote)) as [id|] eqn:E.
  - apply urlMatch_slashes in E. subst remote.
    rewrite !slashes_app in E.
    rewrite (slashFree_slashes _ Ho), (slashFree_slashes _ Hp),
      (slashFree_slashes _ Hr) in E.
    change (slashes "ssh.dev.azure.com:v3/") with 1%nat in E.
    change (slashes "/") with 1%nat in E. lia.
  - rewrite sshMatch_app; [reflexivity|].
    subst remote. unfold UrlParser.sshAt.
    rewrite literal_app. cbn [UrlParser.bind].
    change ("/" ++ project ++ "/" ++ repo)%string
      with (String "/" (project ++ String "/" repo)).
    rewrite (segment_app _ _ Ho). cbn [UrlParser.bind snd fst].
    rewrite (segment_app _ _ Hp). cbn [UrlParser.bind snd fst].
    destruct Hr as [Hne Hs]. rewrite (span_all _ _ Hs). cbn [fst].
    now rewrite (eqb_nonempty _ Hne).
Qed.

Lemma ssh_remote_is_refused_witness :
  UrlParser.parsePRInput None Contoso.env
    ("git@" ++ "ssh.dev.azure.com:v3/" ++ "contoso" ++ "/" ++ "shop" ++ "/"
     ++ "web") Links.shopWeb
  = (inl "SSH URLs don't contain PR IDs. Please provide the full PR URL or just the PR ID.",
     snd (Fetch.getDefaults None Contoso.env)).
Proof.
  eapply ssh_remote_is_refused.
  - vm_compute. reflexivity.
  - vm_compute. lia.
  - split; [discriminate|reflexivity].
  - split; [discriminate|reflexivity].
  - split; [discriminate|reflexivity].
Defined.

(* ------------------------------------------------------------------ *)
(** *** Removing a reviewer *)

Lemma remove_cases (getGitApi : string -> string + Remove.GitApi)
  (identifier : UrlParser.PRIdentifier) (userId email : string)
  (before : list Remove.Call) :
  let call :=
    Remove.DeletePullRequestReviewer (UrlParser.repository identifier)
      (UrlParser.pullRequestId identifier) userId
      (UrlParser.project identifier) in
  (Remove.success (fst (Remove.remove getGitApi identifier userId email before))
   = false
   /\ (snd (Remove.remove getGitApi identifier userId email before) = before
       \/ exists gitApi,
            getGitApi (UrlParser.organization identifier) = inr gitApi
            /\ snd (Remove.remove getGitApi identifier userId email before)
               = (before ++ [call])%list))
  \/ (exists gitApi,
        getGitApi (UrlParser.organization identifier) = inr gitApi
        /\ Remove.deletePullRequestReviewer gitApi
             (UrlParser.repository identifier)
             (UrlParser.pullRequestId identifier) userId
             (UrlParser.project identifier) = inr tt
        /\ Remove.remove getGitApi identifier userId email before
           = ({| Remove.success := true;
                 Remove.message := "Removed reviewer: " ++ email;
                 Remove.error := None |}, (before ++ [call])%list)).
Proof.
  intros call. unfold Remove.remove. fold call.
  destruct (getGitApi (UrlParser.organization identifier)) as [e|gitApi];
    [left; split; [reflexivity|now left]|].
  destruct (Remove.deletePullRequestReviewer gitApi _ _ _ _) as [e|[]] eqn:E.
  - left. split; [reflexivity|]. right. now exists gitApi.
  - right. exists gitApi. now repeat split.
Qed.

Lemma getUserId_truthy (runtimeCache : Js.Map string) (email userId : string) :
  UserCache.getUserId runtimeCache email = Some userId -> userId <> "".
Proof.
  unfold UserCache.getUserId.
  destruct (find _ UserCache.KNOWN_USERS) as [entry|] eqn:E.
  - intros H. injection H as <-. apply find_some in E. destruct E as [Hin _].
    cbn in Hin.
    repeat (destruct Hin as [<-|Hin]; [discriminate|]). destruct Hin.
  - destruct (Js.get runtimeCache _) as [cached|]; [|discriminate].
    destruct (String.eqb_spec cached ""); [discriminate|].
    intros H. now injection H as <-.
Qed.

Lemma find_nowhere {A : Type} (f : A -> bool) (l : list A) :
  (forall x, In x l -> f x = false) -> find f l = None.
Proof.
  induction l as [|a l IH]; cbn; intros H; [reflexivity|].
  rewrite (H a (or_introl eq_refl)). apply IH. intros x Hx. apply H. now right.
Qed.

Lemma deletions_app (a b : list Remove.Call) :
  deletions (a ++ b) = (deletions a ++ deletions b)%list.
Proof. apply filter_app. Qed.

(** X21 (RemoveReviewerTool.ts, removeReviewer): success is reported
    only when the pull request was identified and exactly one deletion was
    sent, for that pull request, and the service did not refuse it. *)
Theorem success_follows_one_deletion
  (config : option Fetch.AzureDevOpsConfig) (env : Fetch.Env)
  (runtimeCache : Js.Map string)
  (getGitApi : string -> string + Remove.GitApi)
  (params : Remove.RemoveReviewerParams) :
  let run := Remove.removeReviewer config env runtimeCache getGitApi params in
  Remove.success (Remove.result run) = true ->
  exists identifier userId gitApi,
    fst (Remove.identify config env params) = inr identifier
    /\ getGitApi (UrlParser.organization identifier) = inr gitApi
    /\ Remove.deletePullRequestReviewer gitApi
         (UrlParser.repository identifier)
         (UrlParser.pullRequestId identifier) userId
         (UrlParser.project identifier) = inr tt
    /\ deletions (Remove.calls run)
       = [Remove.DeletePullRequestReviewer (UrlParser.repository identifier)
            (UrlParser.pullRequestId identifier) userId
            (UrlParser.project identifier)].
Proof.
  intros run. subst run. unfold Remove.removeReviewer.
  destruct (Remove.identify config env params) as [[e|identifier] config'];
    [discriminate|].
  cbn [fst].
  destruct (negb (Fetch.truthy (UserCache.getUserId runtimeCache
                                  (Remove.email params)))).
  - destruct (getGitApi (UrlParser.organization identifier)) as [e|gitApi] eqn:G;
      [discriminate|].
    destruct (Remove.getPullRequest gitApi _ _ _) as [e|pullRequest];
      [discriminate|].
    destruct (Fetch.truthy _); [|discriminate].
    match goal with
    | |- context [Remove.remove ?g ?i ?u ?e ?b] =>
        destruct (remove_cases g i u e b) as [[Hf _]|(api & Hg & Hd & ->)];
        [destruct (Remove.remove g i u e b) as [r cs]; cbn in *; congruence|];
        cbn; intros _; exists identifier, u, api
    end.
    now repeat split.
  - match goal with
    | |- context [Remove.remove ?g ?i ?u ?e ?b] =>
        destruct (remove_cases g i u e b) as [[Hf _]|(api & Hg & Hd & ->)];
        [destruct (Remove.remove g i u e b) as [r cs]; cbn in *; congruence|];
        cbn; intros _; exists identifier, u, api
    end.
    now repeat split.
Qed.

Lemma success_follows_one_deletion_witness :
  exists identifier userId gitApi,
    fst (Remove.identify None Contoso.env (Desk.request "bob@contoso.com"))
    = inr identifier
    /\ Desk.getGitApi (UrlParser.organization identifier) = inr gitApi
    /\ Remove.deletePullRequestReviewer gitApi
         (UrlParser.repository identifier)
         (UrlParser.pullRequestId identifier) userId
         (UrlParser.project identifier) = inr tt
    /\ deletions
         (Remove.calls
            (Remove.removeReviewer None Contoso.env [] Desk.getGitApi
               (Desk.request "bob@contoso.com")))
       = [Remove.DeletePullRequestReviewer (UrlParser.repository identifier)
            (UrlParser.pullRequestId identifier) userId
            (UrlParser.project identifier)].
Proof.
  apply (success_follows_one_deletion None Contoso.env [] Desk.getGitApi
           (Desk.request "bob@contoso.com")).
  vm_compute. reflexivity.
Defined.

(** X22 (RemoveReviewerTool.ts, removeReviewer, with getUserId of
    user-cache.ts): when the address resolves through the table of known
    users or the runtime cache, the pull request is never fetched: the
    only call made is the deletion, with the resolved id, and no call at
    all is made when the API cannot be obtained. *)
Theorem known_reviewer_needs_no_lookup
  (config config' : option Fetch.AzureDevOpsConfig) (env : Fetch.Env)
  (runtimeCache : Js.Map string)
  (getGitApi : string -> string + Remove.GitApi)
  (params : Remove.RemoveReviewerParams)
  (identifier : UrlParser.PRIdentifier) (userId : string) :
  Remove.identify config env params = (inr identifier, config') ->
  UserCache.getUserId runtimeCache (Remove.email params) = Some userId ->
  Remove.calls
    (Remove.removeReviewer config env runtimeCache getGitApi params)
  = match getGitApi (UrlParser.organization identifier) with
    | inr _ =>
        [Remove.DeletePullRequestReviewer (UrlParser.repository identifier)
           (UrlParser.pullRequestId identifier) userId
           (UrlParser.project identifier)]
    | inl _ => []
    end.
Proof.
  intros Hid Hu. unfold Remove.removeReviewer. rewrite Hid, Hu.
  pose proof (getUserId_truthy _ _ _ Hu) as Hne.
  cbn [Fetch.truthy Fetch.str]. rewrite (eqb_nonempty _ Hne). cbn [negb].
  unfold Remove.remove.
  destruct (getGitApi (UrlParser.organization identifier)) as [e|gitApi];
    [reflexivity|].
  now destruct (Remove.deletePullRequestReviewer gitApi _ _ _ _).
Qed.

Lemma known_reviewer_needs_no_lookup_witness :
  Remove.calls
    (Remove.removeReviewer None Contoso.env [] Desk.getGitApi
       (Desk.request "Josh.Bonnell@sviworld.com "))
  = match Desk.getGitApi (UrlParser.organization Links.web123) with
    | inr _ =>
        [Remove.DeletePullRequestReviewer (UrlParser.repository Links.web123)
           (UrlParser.pullRequestId Links.web123)
           "cf81dfc6-1f22-4098-b3a5-912abd09e19b"
           (UrlParser.project Links.web123)]
    | inl _ => []
    end.
Proof.
  eapply known_reviewer_needs_no_lookup.
  - vm_compute. reflexivity.
  - vm_compute. reflexivity.
Defined.

(** X23 (RemoveReviewerTool.ts, removeReviewer): for an address and a
    pull request whose unique names are made of ASCII characters, when the
    address resolves neither through the known users nor through the
    cache, and no reviewer of the pull request has it as unique name
    (compared in lower case, without trimming), the answer is
    USER_NOT_FOUND and nothing is deleted: the only call made fetched the
    pull request. *)
Theorem unknown_reviewer_is_not_removed
  (config config' : option Fetch.AzureDevOpsConfig) (env : Fetch.Env)
  (runtimeCache : Js.Map string)
  (getGitApi : string -> string + Remove.GitApi) (gitApi : Remove.GitApi)
  (params : Remove.RemoveReviewerParams)
  (identifier : UrlParser.PRIdentifier)
  (pullRequest : Remove.GitPullRequest) :
  Remove.identify config env params = (inr identifier, config') ->
  isAscii (Remove.email params) = true ->
  UserCache.getUserId runtimeCache (Remove.email params) = None ->
  getGitApi (UrlParser.organization identifier) = inr gitApi ->
  Remove.getPullRequest gitApi (UrlParser.repository identifier)
    (UrlParser.pullRequestId identifier) (UrlParser.project identifier)
  = inr pullRequest ->
  asciiReviewers pullRequest = true ->
  (forall rs r, Remove.reviewers pullRequest = Some rs -> In r rs ->
                Remove.isReviewer (Remove.email params) r = false) ->
  let run := Remove.removeReviewer config env runtimeCache getGitApi params in
  Remove.result run
  = {| Remove.success := false;
       Remove.message := "User not found: " ++ Remove.email params;
       Remove.error := Some "USER_NOT_FOUND" |}
  /\ Remove.calls run
     = [Remove.GetPullRequest (UrlParser.repository identifier)
          (UrlParser.pullRequestId identifier)
          (UrlParser.project identifier)].
Proof.
  intros Hid _ Hu Hg Hp _ Hno run. subst run. unfold Remove.removeReviewer.
  rewrite Hid, Hu. cbn [Fetch.truthy negb]. rewrite Hg, Hp.
  assert (Hf : Remove.findReviewer (Remove.email params) pullRequest = None).
  { unfold Remove.findReviewer.
    destruct (Remove.reviewers pullRequest) as [rs|] eqn:E; [|reflexivity].
    apply find_nowhere. intros r Hr. exact (Hno rs r eq_refl Hr). }
  rewrite Hf. cbn [UrlParser.bind Fetch.truthy]. now split.
Qed.

Lemma unknown_reviewer_is_not_removed_witness :
  Remove.result
    (Remove.removeReviewer None Contoso.env [] Desk.getGitApi
       (Desk.request " bob@contoso.com"))
  = {| Remove.success := false;
       Remove.message := "User not found: "
                         ++ Remove.email (Desk.request " bob@contoso.com");
       Remove.error := Some "USER_NOT_FOUND" |}
  /\ Remove.calls
       (Remove.removeReviewer None Contoso.env [] Desk.getGitApi
          (Desk.request " bob@contoso.com"))
     = [Remove.GetPullRequest (UrlParser.repository Links.web123)
          (UrlParser.pullRequestId Links.web123)
          (UrlParser.project Links.web123)].
Proof.
  eapply (unknown_reviewer_is_not_removed None _ Contoso.env []
            Desk.getGitApi Desk.gitApi (Desk.request " bob@contoso.com")
            Links.web123).
  - vm_compute. reflexivity.
  - reflexivity.
  - vm_compute. reflexivity.
  - reflexivity.
  - reflexivity.
  - reflexivity.
  - intros rs r E Hr. injection E as <-.
    destruct Hr as [<-|[]]. vm_compute. reflexivity.
Defined.

(* ------------------------------------------------------------------ *)
(** *** The script: counters and table *)

Lemma script_visit_cases st r :
  Script.reviewerStats (Script.visitReviewer st r) = Script.reviewerStats st
  \/ exists key s0,
       (Js.get (Script.reviewerStats st) key = Some s0 \/ Fresh s0)
       /\ Script.reviewerStats (Script.visitReviewer st r)
          = Js.set (Script.reviewerStats st) key
              (Script.countVote (Script.incr_Required s0)
                 (GitInterfaces.vote r)).
Proof.
  unfold Script.visitReviewer.
  destruct (negb (Js.truthy (GitInterfaces.isRequired r))); [now left|].
  destruct (match GitInterfaces.uniqueName r with
            | Some u => Some (Js.toLowerCase u)
            | None => Script.email st
            end) as [key|]; [|now left].
  destruct (String.eqb key ""); [now left|].
  unfold Js.has.
  destruct (Js.get (Script.reviewerStats st) key) as [s|] eqn:E; cbn [negb].
  - rewrite E. right. exists key, s. split; [now left|reflexivity].
  - rewrite get_set_same, set_set. right. exists key. eexists.
    split; [|reflexivity]. right. repeat split.
Qed.

Lemma bump_balanced s vote :
  Balanced s \/ Fresh s ->
  Balanced (Script.countVote (Script.incr_Required s) vote).
Proof.
  intros H. destruct (script_bump_counts s vote) as (_ & Hr & Ha & Hb & Hu).
  unfold Balanced. rewrite Hr, Ha, Hb, Hu.
  destruct H as [(H1 & H2 & H3 & H4 & H5)|(H1 & H2 & H3 & H4)];
    destruct (Js.or_number vote 0 >=? 5);
    destruct ((Js.or_number vote 0 =? -5) || (Js.or_number vote 0 <=? -10));
    lia.
Qed.

Lemma Forall_set {V : Type} (P : V -> Prop) (m : Js.Map V) k v :
  Forall (fun kv => P (snd kv)) m -> P v ->
  Forall (fun kv => P (snd kv)) (Js.set m k v).
Proof.
  intros Hm Hv. induction m as [|[k0 v0] m IH]; cbn.
  - now constructor.
  - inversion Hm as [|? ? H0 Hrest]; subst.
    destruct (String.eqb k0 k); constructor; auto.
Qed.

Lemma script_visit_balanced st r :
  Forall (fun kv => Balanced (snd kv)) (Script.reviewerStats st) ->
  Forall (fun kv => Balanced (snd kv))
    (Script.reviewerStats (Script.visitReviewer st r)).
Proof.
  intros H. destruct (script_visit_cases st r) as [->|(key & s0 & Hs & ->)];
    [exact H|].
  apply Forall_set; [exact H|]. apply bump_balanced.
  destruct Hs as [Hs|Hs]; [left|now right].
  apply get_Some_In in Hs. rewrite Forall_forall in H. exact (H _ Hs).
Qed.

Lemma script_aggregate_balanced allPRs :
  Forall (fun kv => Balanced (snd kv)) (Script.aggregate allPRs).
Proof.
  unfold Script.aggregate.
  assert (Hpr : forall rs st,
             Forall (fun kv => Balanced (snd kv)) (Script.reviewerStats st) ->
             Forall (fun kv => Balanced (snd kv))
               (Script.reviewerStats (fold_left Script.visitReviewer rs st))).
  { induction rs as [|r rs IH]; intros st H; cbn; [exact H|].
    apply IH. now apply script_visit_balanced. }
  generalize (Script.activePRs allPRs). intros prs.
  assert (Hall : forall st,
             Forall (fun kv => Balanced (snd kv)) (Script.reviewerStats st) ->
             Forall (fun kv => Balanced (snd kv))
               (Script.reviewerStats (fold_left Script.visitPR prs st))).
  { induction prs as [|pr prs IH]; intros st H; cbn; [exact H|].
    apply IH. unfold Script.visitPR. now apply Hpr. }
  apply Hall. constructor.
Qed.

Lemma script_sorted_balanced allPRs s :
  In s (Script.sortedStats allPRs) -> Balanced s.
Proof.
  unfold Script.sortedStats. intros H.
  apply (proj1 (sort_In _ s _)) in H. unfold Js.values in H.
  apply in_map_iff in H as ([k v] & <- & Hin).
  pose proof (script_aggregate_balanced allPRs) as Hall.
  rewrite Forall_forall in Hall. exact (Hall _ Hin).
Qed.

(** X24 (reviewer-stats-discord.ps1, aggregation loop): whatever the
    service returns, every row the script reports has
    Required = Approved + Blocked + Unreviewed, with Required at least 1 and
    no negative counter; this holds also when a required reviewer has no
    unique name and is counted under the address met before. *)
Theorem script_counters_add_up allPRs s :
  In s (Script.sortedStats allPRs) ->
  Script.Required s
  = Script.Approved s + Script.Blocked s + Script.Unreviewed s
  /\ 1 <= Script.Required s /\ 0 <= Script.Approved s
  /\ 0 <= Script.Blocked s /\ 0 <= Script.Unreviewed s.
Proof. apply script_sorted_balanced. Qed.

Lemma script_counters_add_up_witness :
  let hal :=
    {| Script.Name := "hal@example.com"; Script.Email := "hal@example.com";
       Script.Required := 2; Script.Approved := 0; Script.Blocked := 1;
       Script.Unreviewed := 1 |} in
  In hal (Script.sortedStats Examples.sprint)
  /\ Script.Required hal
     = Script.Approved hal + Script.Blocked hal + Script.Unreviewed hal.
Proof.
  intros hal.
  assert (H : In hal (Script.sortedStats Examples.sprint))
    by (vm_compute; right; left; reflexivity).
  split; [exact H|].
  exact (proj1 (script_counters_add_up Examples.sprint hal H)).
Defined.

Lemma small_numbers_fit n : 0 <= n <= 9999 -> fits 4 n.
Proof.
  intros H.
  assert (Hall : forallb
                   (fun k => (String.length (Js.String_of (Z.of_nat k)) <=? 4)%nat)
                   (seq 0 (Z.to_nat 10000)) = true) by (vm_compute; reflexivity).
  rewrite forallb_forall in Hall.
  assert (Hin : In (Z.to_nat n) (seq 0 (Z.to_nat 10000))) by (apply in_seq; lia).
  specialize (Hall _ Hin). rewrite Z2Nat.id in Hall by lia.
  apply Nat.leb_le in Hall. unfold fits. lia.
Qed.

Lemma app_nonempty (x t : string) : t <> "" -> (x ++ t)%string <> "".
Proof. destruct x; cbn; [auto|discriminate]. Qed.

Lemma trimEnd_app_right (x t : string) :
  UserCache.trimEnd t <> "" ->
  UserCache.trimEnd (x ++ t) = (x ++ UserCache.trimEnd t)%string.
Proof.
  intros Ht. induction x as [|a x IH]; cbn [append UserCache.trimEnd];
    [reflexivity|].
  rewrite IH. rewrite (eqb_nonempty _ (app_nonempty x _ Ht)).
  now rewrite andb_false_r.
Qed.

Lemma script_nameWidth_bounds stats :
  6 <= Discord.nameWidth stats
  /\ forall s, In s stats ->
       lineLength (Script.Name s) <= Discord.nameWidth stats.
Proof.
  unfold Discord.nameWidth. split; [lia|]. intros s Hs.
  apply (in_map (fun s => Z.of_nat (String.length (Script.Name s)))) in Hs.
  unfold lineLength.
  destruct (map _ stats) as [|x rest]; [destruct Hs|].
  cbn [Discord.Maximum]. fold (Js.max_of x rest).
  destruct Hs as [<-|Hs].
  - pose proof (max_of_ge x rest). lia.
  - pose proof (max_of_In x rest _ Hs). lia.
Qed.

Lemma script_header_width w :
  6 <= w -> lineLength (UserCache.trimEnd (Discord.headerLine w)) = w + 27.
Proof.
  intros Hw. unfold Discord.headerLine.
  cbn [fold_left combine Discord.headers Discord.widths fst snd].
  change (Js.padEnd "Todo" 4 ++ " ")%string with "Todo ".
  rewrite trimEnd_app_right by (vm_compute; discriminate).
  change (UserCache.trimEnd "Todo ") with "Todo".
  line_lengths. lia.
Qed.

Lemma script_separator_width w :
  6 <= w -> lineLength (UserCache.trimEnd (Discord.sepLine w)) = w + 27.
Proof.
  intros Hw. unfold Discord.sepLine.
  cbn [fold_left Discord.widths].
  change (Js.repeat "-" (Z.to_nat 4) ++ " ")%string with "---- ".
  rewrite trimEnd_app_right by (vm_compute; discriminate).
  change (UserCache.trimEnd "---- ") with "----".
  change (Z.to_nat 8) with 8%nat. change (Z.to_nat 4) with 4%nat.
  change (Z.to_nat 7) with 7%nat.
  line_lengths. lia.
Qed.

Lemma script_row_width w s :
  lineLength (Script.Name s) <= w ->
  fits 8 (Script.Required s) -> fits 4 (Script.Approved s) ->
  fits 7 (Script.Blocked s) -> fits 4 (Script.Unreviewed s) ->
  lineLength (Discord.row w s) = w + 27.
Proof.
  unfold fits, Discord.row. intros Hn Hr Ha Hb Hu.
  cbv zeta. line_lengths. lia.
Qed.

(** X25 (reviewer-stats-discord.ps1, table): the header, the row of
    dashes and the row of every reviewer have the same length, the width
    of the name column (6 at least, and that of the longest first name)
    plus 27, as long as no reviewer has more than 9999 required
    assignments. *)
Theorem script_table_columns_align allPRs :
  let stats := Script.sortedStats allPRs in
  Forall (fun s => Script.Required s <= 9999) stats ->
  Forall (fun line => lineLength line = Discord.nameWidth stats + 27)
    (Discord.tableLines stats).
Proof.
  intros stats Hsmall. unfold Discord.tableLines.
  destruct (script_nameWidth_bounds stats) as [H6 Hnames].
  cbv zeta. cbn [app].
  constructor; [now apply script_header_width|].
  constructor; [now apply script_separator_width|].
  apply Forall_forall. intros line Hl.
  apply in_map_iff in Hl as (s & <- & Hs).
  rewrite Forall_forall in Hsmall. pose proof (Hsmall s Hs) as H9.
  destruct (script_sorted_balanced allPRs s Hs) as (Hsum & H1 & Ha & Hb & Hu).
  assert (F : forall n, 0 <= n <= 9999 -> fits 4 n /\ fits 7 n /\ fits 8 n).
  { intros n Hn. pose proof (small_numbers_fit n Hn) as H4.
    unfold fits in *. lia. }
  apply script_row_width; [now apply Hnames|..]; apply F; lia.
Qed.

Lemma script_table_columns_align_witness :
  Forall (fun line => lineLength line = 42)
    (Discord.tableLines (Script.sortedStats Examples.sprint)).
Proof.
  change 42 with (Discord.nameWidth (Script.sortedStats Examples.sprint) + 27).
  apply (script_table_columns_align Examples.sprint).
  vm_compute. repeat constructor; discriminate.
Defined.
